(** * Multi-market price reconciliation and strategy engine of [dashboard.py]

    A shallow embedding of the core of the dashboard: the record merger
    ([merge_dataframes]), the strategy engine
    ([calculate_strategy_dataframe]), the recommendation ranker
    ([display_recommendations_tab]) and the scrape-health classifier
    ([categorize_note] inside [display_health_tab]).

    Numbers.  The program computes on binary floating-point numbers.  The
    embedding computes on the rationals [Q]: every arithmetic step is exact,
    and rounding, overflow and not-a-number inputs are outside the model.
    The one place where the program could leave the finite numbers by its own
    doing, a division, is modelled as a fallible operation ([truediv]), so
    that "never divides by zero" is a statement about the embedding. *)

From Stdlib Require Import List String Ascii Bool Arith ZArith QArith Qabs Lia Lqa.
From Stdlib Require Import Permutation Sorted.
Import ListNotations.

Local Open Scope Q_scope.

(** ** Exceptions and the result monad *)

Inductive exn : Type :=
| ValueError          (* max() / min() of an empty sequence *)
| ZeroDivisionError.  (* a division whose divisor is zero: the program would
                         raise, or produce an infinity or a NaN *)

Inductive result (A : Type) : Type :=
| Ok (a : A)
| Raise (e : exn).
Arguments Ok {A} a.
Arguments Raise {A} e.

Definition bind {A B : Type} (m : result A) (k : A -> result B) : result B :=
  match m with
  | Ok a => k a
  | Raise e => Raise e
  end.

Notation "x <- m ;; k" := (bind m (fun x => k))
  (at level 61, m at next level, right associativity).

Fixpoint mapM {A B : Type} (f : A -> result B) (l : list A) : result (list B) :=
  match l with
  | [] => Ok []
  | a :: l' => b <- f a ;; bs <- mapM f l' ;; Ok (b :: bs)
  end.

(** ** Numbers *)

(** [a > b] and [a < b] as the program evaluates them. *)
Definition gt (a b : Q) : bool := negb (Qle_bool a b).
Definition lt (a b : Q) : bool := gt b a.

(** [a / b]: fails when the divisor is zero. *)
Definition truediv (a b : Q) : result Q :=
  if Qeq_bool b 0 then Raise ZeroDivisionError else Ok (a / b).

(** [abs(a)]. *)
Definition abs (a : Q) : Q := Qabs a.

(** The builtin [max]: the first of the largest items; [ValueError] on an
    empty sequence. *)
Fixpoint max_from (m : Q) (x : list Q) : Q :=
  match x with
  | [] => m
  | p :: x' => max_from (if gt p m then p else m) x'
  end.

Definition builtin_max (x : list Q) : result Q :=
  match x with
  | [] => Raise ValueError
  | p :: x' => Ok (max_from p x')
  end.

(** The builtin [min]: the first of the smallest items. *)
Fixpoint min_from (m : Q) (x : list Q) : Q :=
  match x with
  | [] => m
  | p :: x' => min_from (if lt p m then p else m) x'
  end.

Definition builtin_min (x : list Q) : result Q :=
  match x with
  | [] => Raise ValueError
  | p :: x' => Ok (min_from p x')
  end.

(** The builtin [sum], from the left, starting at 0. *)
Definition builtin_sum (x : list Q) : Q := fold_left Qplus x 0.

(** [len(x)] as a number. *)
Definition len {A : Type} (x : list A) : Q := inject_Z (Z.of_nat (List.length x)).

(** [pd.Series(x).mean()]: the sum over the count. *)
Definition series_mean (x : list Q) : result Q := truediv (builtin_sum x) (len x).

(** ** Data model *)

(** The four markets, each bound to one price column. *)
Inductive Pazar : Type := TR | US | DE | UK.

Definition pazarlar : list Pazar := [TR; US; DE; UK].

(** A timestamp is a count of time units since the epoch. *)
Definition Timestamp : Type := Z.

(** The columns of a market frame other than the key and the price. *)
Record Bilgi : Type := mkBilgi {
  para_birimi : string;
  cekilme_zamani : string;
  source_note : string
}.

(** One row of a market frame as [_load_single_db] returns it: the hotel, the
    check-in text, the numeric price ([to_numeric(...).fillna(0)]) and the
    remaining columns. *)
Record MarketRow : Type := mkMarketRow {
  mr_otel : string;
  mr_checkin : string;
  mr_fiyat : Q;
  mr_bilgi : Bilgi
}.

(** One row of the merged frame that [merge_dataframes] returns.  [checkin]
    is [None] for [NaT]; the columns of a market that has no row for the key
    are [None] (NaN), except the price, which is filled. *)
Record MergedRow : Type := mkMergedRow {
  otel : string;
  checkin : option Timestamp;
  fiyat_tl : Q;
  fiyat_usd : Q;
  fiyat_eur : Q;
  fiyat_gbp : Q;
  bilgi_tr : option Bilgi;
  bilgi_us : option Bilgi;
  bilgi_de : option Bilgi;
  bilgi_uk : option Bilgi
}.

(** A row of the frame that [calculate_strategy_dataframe] returns: the
    merged row and the columns added to it. *)
Record CalcRow : Type := mkCalcRow {
  kayit : MergedRow;
  fiyat_usd_tl : Q;
  fiyat_eur_tl : Q;
  fiyat_gbp_tl : Q;
  fiyatlar_listesi : list Q;
  max_fiyat_tl : Q;
  min_fiyat_tl : Q;
  mean_fiyat_tl : Q;
  hedef_fiyat_tl : Q;
  fark_tr : Q;
  fark_us : Q;
  fark_de : Q;
  fark_uk : Q;
  fark_tr_yuzde : Q;
  fark_us_yuzde : Q;
  fark_de_yuzde : Q;
  fark_uk_yuzde : Q
}.

(** Column access by market. *)
Definition fiyat_norm (m : Pazar) (c : CalcRow) : Q :=
  match m with
  | TR => fiyat_tl (kayit c)
  | US => fiyat_usd_tl c
  | DE => fiyat_eur_tl c
  | UK => fiyat_gbp_tl c
  end.

Definition fark (m : Pazar) (c : CalcRow) : Q :=
  match m with
  | TR => fark_tr c
  | US => fark_us c
  | DE => fark_de c
  | UK => fark_uk c
  end.

Definition fark_yuzde (m : Pazar) (c : CalcRow) : Q :=
  match m with
  | TR => fark_tr_yuzde c
  | US => fark_us_yuzde c
  | DE => fark_de_yuzde c
  | UK => fark_uk_yuzde c
  end.

(** ** Strategy engine: [calculate_strategy_dataframe] *)

Module Strategy.

(** The inner [calculate_percent_diff(row, fark_col)], on the two cells of
    the row that it reads: [row['hedef_fiyat_tl']] and [row[fark_col]]. *)
Definition calculate_percent_diff (hedef_fiyat_tl fark_col : Q) : result Q :=
  if gt hedef_fiyat_tl 0 then
    q <- truediv fark_col hedef_fiyat_tl ;; Ok (q * 100)
  else Ok 0.

(** The text that goes with the chosen target. *)
Definition hedef_aciklama (strateji_mod : string) : string :=
  if (strateji_mod =? "MAX")%string then "En Yüksek Pazar Fiyatı"%string
  else if (strateji_mod =? "MIN")%string then "En Düşük Pazar Fiyatı"%string
  else "Pazar Ortalaması Fiyatı"%string.

(** The column assignments of [calculate_strategy_dataframe], on one row. *)
Definition calc_row (strateji_mod : string) (kur_usd_tl kur_eur_tl kur_gbp_tl : Q)
    (row : MergedRow) : result CalcRow :=
  let usd_tl := fiyat_usd row * kur_usd_tl in
  let eur_tl := fiyat_eur row * kur_eur_tl in
  let gbp_tl := fiyat_gbp row * kur_gbp_tl in
  let liste := filter (fun p => gt p 0) [fiyat_tl row; usd_tl; eur_tl; gbp_tl] in
  max_f <- (if (0 <? List.length liste)%nat then builtin_max liste else Ok 0) ;;
  min_f <- (if (0 <? List.length liste)%nat then builtin_min liste else Ok 0) ;;
  mean_f <- (if (0 <? List.length liste)%nat then series_mean liste else Ok 0) ;;
  let hedef :=
    if (strateji_mod =? "MAX")%string then max_f
    else if (strateji_mod =? "MIN")%string then min_f
    else mean_f in
  let f_tr := fiyat_tl row - hedef in
  let f_us := usd_tl - hedef in
  let f_de := eur_tl - hedef in
  let f_uk := gbp_tl - hedef in
  y_tr <- calculate_percent_diff hedef f_tr ;;
  y_us <- calculate_percent_diff hedef f_us ;;
  y_de <- calculate_percent_diff hedef f_de ;;
  y_uk <- calculate_percent_diff hedef f_uk ;;
  Ok {| kayit := row;
        fiyat_usd_tl := usd_tl; fiyat_eur_tl := eur_tl; fiyat_gbp_tl := gbp_tl;
        fiyatlar_listesi := liste;
        max_fiyat_tl := max_f; min_fiyat_tl := min_f; mean_fiyat_tl := mean_f;
        hedef_fiyat_tl := hedef;
        fark_tr := f_tr; fark_us := f_us; fark_de := f_de; fark_uk := f_uk;
        fark_tr_yuzde := y_tr; fark_us_yuzde := y_us;
        fark_de_yuzde := y_de; fark_uk_yuzde := y_uk |}.

(** [calculate_strategy_dataframe]: every column operation acts row by row,
    so the frame is computed one row at a time; an exception in any row
    aborts the call. *)
Definition calculate_strategy_dataframe (df : list MergedRow) (strateji_mod : string)
    (kur_usd_tl kur_eur_tl kur_gbp_tl : Q) : result (list CalcRow * string) :=
  df_calc <- mapM (calc_row strateji_mod kur_usd_tl kur_eur_tl kur_gbp_tl) df ;;
  Ok (df_calc, hedef_aciklama strateji_mod).

End Strategy.

(** ** Stable sorting

    [list.sort] and [sort_values] are stable sorts; the embedding is the
    stable insertion sort for a boolean "not after" test [le]: an item is put
    in front of the first item that it is not after, so among items that
    compare equal the earlier one of the input stays first. *)

Section StableSort.
Context {A : Type} (le : A -> A -> bool).

Fixpoint insert (a : A) (l : list A) : list A :=
  match l with
  | [] => [a]
  | b :: l' => if le a b then a :: l else b :: insert a l'
  end.

Fixpoint sort (l : list A) : list A :=
  match l with
  | [] => []
  | a :: l' => insert a (sort l')
  end.
End StableSort.

(** ** Record merger: [merge_dataframes] *)

Module Merge.

(** The join key [(otel, checkin)], with [checkin] still the text of the
    market frames. *)
Definition Key : Type := (string * string)%type.

Definition key_eqb (a b : Key) : bool :=
  ((fst a =? fst b) && (snd a =? snd b))%string.

(** Keys in lexicographic order. *)
Definition key_leb (a b : Key) : bool :=
  match String.compare (fst a) (fst b) with
  | Lt => true
  | Gt => false
  | Eq => String.leb (snd a) (snd b)
  end.

(** A frame with the key columns and the other columns [A] of each row. *)
Definition Frame (A : Type) : Type := list (Key * A).

Definition keys {A : Type} (f : Frame A) : list Key := map fst f.

Section PdMerge.
Context {A B : Type}.
(** The left columns of a row that only the right frame has: all NaN. *)
Variable na : A.

(** The right rows with key [k]. *)
Definition matches (k : Key) (right : Frame B) : list B :=
  map snd (filter (fun kb => key_eqb k (fst kb)) right).

(** Each left row, once per right row with its key, or once with the right
    columns NaN when there is none. *)
Definition left_rows (left : Frame A) (right : Frame B) : Frame (A * option B) :=
  flat_map (fun ka =>
              match matches (fst ka) right with
              | [] => [(fst ka, (snd ka, None))]
              | bs => map (fun b => (fst ka, (snd ka, Some b))) bs
              end) left.

(** The right rows whose key no left row has. *)
Definition right_only (left : Frame A) (right : Frame B) : Frame (A * option B) :=
  map (fun kb => (fst kb, (na, Some (snd kb))))
      (filter (fun kb => negb (existsb (key_eqb (fst kb)) (keys left))) right).

(** [pd.merge(left, right, on=['otel', 'checkin'], how='outer')]: the
    union of the keys of both frames, sorted. *)
Definition pd_merge_outer (left : Frame A) (right : Frame B) : Frame (A * option B) :=
  sort (fun x y => key_leb (fst x) (fst y)) (left_rows left right ++ right_only left right).
End PdMerge.

(** The right cell of a joined row: a right row with the key, or NaN when
    the right frame has no row with the key. *)
Definition present {B : Type} (k : Key) (ob : option B) (right : Frame B) : Prop :=
  match ob with
  | Some b => In (k, b) right
  | None => ~ In k (keys right)
  end.

(** The price and the other columns of one market. *)
Definition Obs : Type := (Q * Bilgi)%type.

Definition frame_of (df : list MarketRow) : Frame Obs :=
  map (fun r => ((mr_otel r, mr_checkin r), (mr_fiyat r, mr_bilgi r))) df.

(** The columns of the four markets in a joined row, NaN where absent. *)
Definition Genis : Type :=
  (((option Obs * option Obs) * option Obs) * option Obs)%type.

(** The three [pd.merge] calls. *)
Definition join_all (df_tr df_us df_de df_uk : list MarketRow) : Frame Genis :=
  let tr := map (fun ko => (fst ko, Some (snd ko))) (frame_of df_tr) in
  let m1 := pd_merge_outer None tr (frame_of df_us) in
  let m2 := pd_merge_outer (None, None) m1 (frame_of df_de) in
  pd_merge_outer (None, None, None) m2 (frame_of df_uk).

(** A joined row once [checkin] is a date. *)
Definition Tarihli : Type := (string * option Timestamp * Genis)%type.

(** [sort_values(by=['otel', 'checkin'])]: by hotel, then by date with [NaT]
    last. *)
Definition tarih_leb (a b : option Timestamp) : bool :=
  match a, b with
  | Some x, Some y => (x <=? y)%Z
  | Some _, None => true
  | None, Some _ => false
  | None, None => true
  end.

Definition row_leb (a b : Tarihli) : bool :=
  match String.compare (fst (fst a)) (fst (fst b)) with
  | Lt => true
  | Gt => false
  | Eq => tarih_leb (snd (fst a)) (snd (fst b))
  end.

(** [fillna(0)] on a price cell. *)
Definition fillna (fiyat : option Q) : Q :=
  match fiyat with
  | Some p => p
  | None => 0
  end.

Definition fill_row (t : Tarihli) : MergedRow :=
  let '(o, c, (tr, us, de, uk)) := t in
  {| otel := o; checkin := c;
     fiyat_tl := fillna (option_map fst tr);
     fiyat_usd := fillna (option_map fst us);
     fiyat_eur := fillna (option_map fst de);
     fiyat_gbp := fillna (option_map fst uk);
     bilgi_tr := option_map snd tr;
     bilgi_us := option_map snd us;
     bilgi_de := option_map snd de;
     bilgi_uk := option_map snd uk |}.

Section ToDatetime.
(** [pd.to_datetime(..., errors='coerce')] on one cell: the date, or [None]
    ([NaT]) for a text that does not parse. *)
Variable to_datetime : string -> option Timestamp.

Definition with_date (kr : Key * Genis) : Tarihli :=
  (fst (fst kr), to_datetime (snd (fst kr)), snd kr).

(** [merge_dataframes]: join, convert [checkin], sort, fill the prices. *)
Definition merge_dataframes (df_tr df_us df_de df_uk : list MarketRow) : list MergedRow :=
  let df_merged := join_all df_tr df_us df_de df_uk in
  let df_merged := map with_date df_merged in
  let df_merged := sort row_leb df_merged in
  map fill_row df_merged.
End ToDatetime.

(** A parser for closed examples: the form [YYYY-MM-DD] of a valid calendar
    date, as days since 1970-01-01; every other text is [NaT]. *)
Definition digit (c : ascii) : option Z :=
  let n := Z.of_nat (nat_of_ascii c) in
  if ((48 <=? n) && (n <=? 57))%Z then Some (n - 48)%Z else None.

Fixpoint number (acc : Z) (s : list ascii) : option Z :=
  match s with
  | [] => Some acc
  | c :: s' => match digit c with
               | Some d => number (acc * 10 + d)%Z s'
               | None => None
               end
  end.

Definition is_leap (y : Z) : bool :=
  (((y mod 4 =? 0) && negb (y mod 100 =? 0)) || (y mod 400 =? 0))%Z.

Definition days_in_month (y m : Z) : Z :=
  if (m =? 2)%Z then (if is_leap y then 29 else 28)%Z
  else if ((m =? 4) || (m =? 6) || (m =? 9) || (m =? 11))%Z then 30%Z
  else 31%Z.

Definition days_from_civil (y m d : Z) : Z :=
  let y' := (if m <=? 2 then y - 1 else y)%Z in
  let era := (y' / 400)%Z in
  let yoe := (y' - era * 400)%Z in
  let mp := ((m + 9) mod 12)%Z in
  let doy := ((153 * mp + 2) / 5 + d - 1)%Z in
  let doe := (yoe * 365 + yoe / 4 - yoe / 100 + doy)%Z in
  (era * 146097 + doe - 719468)%Z.

Definition iso_date (s : string) : option Timestamp :=
  match list_ascii_of_string s with
  | [y1; y2; y3; y4; "-"%char; m1; m2; "-"%char; d1; d2] =>
      match number 0 [y1; y2; y3; y4], number 0 [m1; m2], number 0 [d1; d2] with
      | Some y, Some m, Some d =>
          if ((1 <=? m) && (m <=? 12) && (1 <=? d) && (d <=? days_in_month y m))%Z
          then Some (days_from_civil y m d) else None
      | _, _, _ => None
      end
  | _ => None
  end.

End Merge.

(** ** Recommendation ranker: [display_recommendations_tab] *)

Module Recommend.

Definition STRATEGY_PERCENT_THRESHOLD : Q := 10.

(** The comparison chosen by the strategy mode. *)
Definition compare_op (strateji_mod : string) (fark_yuzde : Q) : bool :=
  if (strateji_mod =? "MAX")%string then lt fark_yuzde (- STRATEGY_PERCENT_THRESHOLD)
  else if (strateji_mod =? "MIN")%string then gt fark_yuzde STRATEGY_PERCENT_THRESHOLD
  else gt (abs fark_yuzde) STRATEGY_PERCENT_THRESHOLD.

(** A suggestion: the values that the program formats into its text. *)
Inductive Yon : Type := Yukselt | Indir.

Record Oneri : Type := mkOneri {
  pazar_adi : string;
  yon : Yon;
  fiyat_orj : Q;
  hedef_fiyat_orj : Q;
  degisim : Q;
  yuzde : Q;
  symbol : string
}.

Definition create_recommendation (strateji_mod : string) (fark_yuzde : Q)
    (pazar_adi : string) (fiyat_orj kur : Q) (symbol : string) (hedef_fiyat_tl : Q)
    : result (option Oneri) :=
  if compare_op strateji_mod fark_yuzde then
    hedef_fiyat_orj <- (if gt kur 0 then truediv hedef_fiyat_tl kur else Ok hedef_fiyat_tl) ;;
    if lt fark_yuzde 0 then
      let artis := hedef_fiyat_orj - fiyat_orj in
      Ok (Some (mkOneri pazar_adi Yukselt fiyat_orj hedef_fiyat_orj artis (abs fark_yuzde) symbol))
    else
      let azalis := fiyat_orj - hedef_fiyat_orj in
      Ok (Some (mkOneri pazar_adi Indir fiyat_orj hedef_fiyat_orj azalis fark_yuzde symbol))
  else Ok None.

(** The display name of a market. *)
Definition ad (m : Pazar) : string :=
  match m with
  | TR => "🇹🇷 **Türkiye**"
  | US => "🇺🇸 **ABD**"
  | DE => "🇩🇪 **Almanya**"
  | UK => "🇬🇧 **UK**"
  end.

(** [[o for o in oneriler if o is not None]]. *)
Fixpoint not_none {A : Type} (l : list (option A)) : list A :=
  match l with
  | [] => []
  | Some a :: l' => a :: not_none l'
  | None :: l' => not_none l'
  end.

(** The body of the loop for one row: the suggestions of its markets. *)
Definition row_oneriler (strateji_mod : string) (kur_usd_tl kur_eur_tl kur_gbp_tl : Q)
    (row : CalcRow) : result (list Oneri) :=
  let hedef_fiyat_tl := hedef_fiyat_tl row in
  o_tr <- create_recommendation strateji_mod (fark_tr_yuzde row) (ad TR)
            (fiyat_tl (kayit row)) 1 "₺" hedef_fiyat_tl ;;
  o_us <- create_recommendation strateji_mod (fark_us_yuzde row) (ad US)
            (fiyat_usd (kayit row)) kur_usd_tl "\$" hedef_fiyat_tl ;;
  o_de <- create_recommendation strateji_mod (fark_de_yuzde row) (ad DE)
            (fiyat_eur (kayit row)) kur_eur_tl "€" hedef_fiyat_tl ;;
  o_uk <- create_recommendation strateji_mod (fark_uk_yuzde row) (ad UK)
            (fiyat_gbp (kayit row)) kur_gbp_tl "£" hedef_fiyat_tl ;;
  Ok (not_none [o_tr; o_us; o_de; o_uk]).

(** The loop over the rows: a row is appended when it has a suggestion. *)
Fixpoint collect (strateji_mod : string) (kur_usd_tl kur_eur_tl kur_gbp_tl : Q)
    (df : list CalcRow) : result (list (CalcRow * list Oneri)) :=
  match df with
  | [] => Ok []
  | row :: df' =>
      oneriler <- row_oneriler strateji_mod kur_usd_tl kur_eur_tl kur_gbp_tl row ;;
      rest <- collect strateji_mod kur_usd_tl kur_eur_tl kur_gbp_tl df' ;;
      Ok (match oneriler with
          | [] => rest
          | _ :: _ => (row, oneriler) :: rest
          end)
  end.

(** [get_total_diff_score]. *)
Definition get_total_diff_score (strateji_mod : string)
    (row_data : CalcRow * list Oneri) : Q :=
  let row := fst row_data in
  builtin_sum
    (map (fun f => if compare_op strateji_mod (f row) then abs (f row) else 0)
         [fark_tr_yuzde; fark_us_yuzde; fark_de_yuzde; fark_uk_yuzde]).

(** [oneriler_listesi.sort(key=get_total_diff_score, reverse=True)]: [a] is
    not after [b] when its score is not smaller. *)
Definition score_geb (strateji_mod : string) (a b : CalcRow * list Oneri) : bool :=
  Qle_bool (get_total_diff_score strateji_mod b) (get_total_diff_score strateji_mod a).

(** [display_recommendations_tab], up to the sorted list that it shows. *)
Definition display_recommendations_tab (df : list CalcRow) (strateji_mod : string)
    (kur_usd_tl kur_eur_tl kur_gbp_tl : Q) : result (list (CalcRow * list Oneri)) :=
  oneriler_listesi <- collect strateji_mod kur_usd_tl kur_eur_tl kur_gbp_tl df ;;
  Ok (sort (score_geb strateji_mod) oneriler_listesi).

End Recommend.

(** ** Scrape-health classifier: [categorize_note] *)

Module Health.

Inductive Kategori : Type :=
| Basarili         (* "Başarılı" *)
| VeriCekilemedi   (* "Veri Çekilemedi" *)
| Diger.           (* "Diğer" *)

(** The list [success_notes] as [display_health_tab] creates it. *)
Definition success_notes : list string :=
  ["our_lowest_label"; "min_from_list"; "fallback_top_main_block";
   "en_dusuk_fiyatimiz_etiketi"; "min_from_main_block";
   "niedrigster_preis_etikett"]%string.

Definition error_notes : list string :=
  ["CRASH_OR_NOT_FOUND"; "CRASH_OR_TIMEOUT";
   "main_block_id_timeout"; "main_block_id_not_found";
   "main_block_find_error"; "not_found"; "Bilinmiyor"; "N/A"]%string.

(** [note in l] for a list of strings. *)
Definition mem (note : string) (l : list string) : bool :=
  existsb (String.eqb note) l.

(** [sub in s] for strings: [sub] starts at some position of [s]. *)
Fixpoint contains (sub s : string) : bool :=
  if prefix sub s then true
  else match s with
       | EmptyString => false
       | String _ s' => contains sub s'
       end.

(** [categorize_note]: the list of success notes is the state that the
    closure reads and appends to. *)
Definition categorize_note (note : string) (success : list string)
    : Kategori * list string :=
  if mem note success then (Basarili, success)
  else if mem note error_notes then (VeriCekilemedi, success)
  else if contains "min_from_main_block" note then (Basarili, success ++ [note])
  else (Diger, success).

(** [column.apply(categorize_note)]: the notes in order, the state threaded
    through the calls. *)
Fixpoint apply (notes : list string) (success : list string)
    : list Kategori * list string :=
  match notes with
  | [] => ([], success)
  | note :: notes' =>
      let (k, success') := categorize_note note success in
      let (ks, success'') := apply notes' success' in
      (k :: ks, success'')
  end.

(** The classification with no state: the rule of [categorize_note] on the
    lists as created. *)
Definition kategori (note : string) : Kategori :=
  fst (categorize_note note success_notes).

End Health.

(** ** Predicates of the specification *)

Definition is_max (t : Q) (l : list Q) : Prop :=
  In t l /\ forall p, In p l -> p <= t.

Definition is_min (t : Q) (l : list Q) : Prop :=
  In t l /\ forall p, In p l -> t <= p.

Definition is_mean (t : Q) (l : list Q) : Prop :=
  t == builtin_sum l / len l.


(** The normalized prices of a merged row, market by market. *)
Definition normalized (kur_usd_tl kur_eur_tl kur_gbp_tl : Q) (row : MergedRow) : list Q :=
  [fiyat_tl row; fiyat_usd row * kur_usd_tl;
   fiyat_eur row * kur_eur_tl; fiyat_gbp row * kur_gbp_tl].

(** The prices strictly greater than 0, in their order. *)
Definition available (prices : list Q) : list Q :=
  filter (fun p => if Qlt_le_dec 0 p then true else false) prices.

(** What [calc_row] puts in each column of its result. *)
Record calc_facts (mode : string) (ku ke kg : Q) (row : MergedRow) (c : CalcRow)
  : Prop := mkCalcFacts {
  cf_kayit : kayit c = row;
  cf_usd : fiyat_usd_tl c = fiyat_usd row * ku;
  cf_eur : fiyat_eur_tl c = fiyat_eur row * ke;
  cf_gbp : fiyat_gbp_tl c = fiyat_gbp row * kg;
  cf_liste : fiyatlar_listesi c = filter (fun p => gt p 0) (normalized ku ke kg row);
  cf_max : max_fiyat_tl c =
           match fiyatlar_listesi c with [] => 0 | p :: x => max_from p x end;
  cf_min : min_fiyat_tl c =
           match fiyatlar_listesi c with [] => 0 | p :: x => min_from p x end;
  cf_mean : mean_fiyat_tl c =
            match fiyatlar_listesi c with
            | [] => 0
            | p :: x => builtin_sum (p :: x) / len (p :: x)
            end;
  cf_hedef : hedef_fiyat_tl c =
             if (mode =? "MAX")%string then max_fiyat_tl c
             else if (mode =? "MIN")%string then min_fiyat_tl c
             else mean_fiyat_tl c;
  cf_fark : forall m, fark m c = fiyat_norm m c - hedef_fiyat_tl c;
  cf_yuzde : forall m, fark_yuzde m c =
             if gt (hedef_fiyat_tl c) 0 then fark m c / hedef_fiyat_tl c * 100 else 0
}.

(** The strategy modes. *)
Definition modes : list string := ["MAX"; "MIN"; "MEAN"]%string.

(** C1, for one record: the available prices and the target. *)
Definition target_ok (mode : string) (ku ke kg : Q) (row : MergedRow) (c : CalcRow)
  : Prop :=
  kayit c = row /\
  fiyatlar_listesi c = available (normalized ku ke kg row) /\
  (fiyatlar_listesi c = [] -> hedef_fiyat_tl c = 0) /\
  (fiyatlar_listesi c <> [] ->
     (mode = "MAX"%string -> is_max (hedef_fiyat_tl c) (fiyatlar_listesi c)) /\
     (mode = "MIN"%string -> is_min (hedef_fiyat_tl c) (fiyatlar_listesi c)) /\
     (mode = "MEAN"%string -> is_mean (hedef_fiyat_tl c) (fiyatlar_listesi c))).

(** C2 as the specification has it, for one record. *)
Definition target_member (c : CalcRow) : Prop :=
  (exists p, In p (fiyatlar_listesi c) /\ p == hedef_fiyat_tl c) \/
  hedef_fiyat_tl c == 0.

(** The returned row [c] is the row of the record [row]: it carries the
    record, its normalized prices market by market, and as available prices
    those of them strictly greater than 0. *)
Definition row_link (ku ke kg : Q) (row : MergedRow) (c : CalcRow) : Prop :=
  kayit c = row /\
  map (fun m => fiyat_norm m c) pazarlar = normalized ku ke kg row /\
  fiyatlar_listesi c = available (normalized ku ke kg row).

(** C2 as the program has it, for one record and the row computed for it. *)
Definition target_member_or_mean (mode : string) (ku ke kg : Q) (row : MergedRow)
    (c : CalcRow) : Prop :=
  row_link ku ke kg row c /\
  (mode = "MAX"%string \/ mode = "MIN"%string ->
     In (hedef_fiyat_tl c) (fiyatlar_listesi c) \/
     (fiyatlar_listesi c = [] /\ hedef_fiyat_tl c = 0)) /\
  (mode = "MEAN"%string ->
     (fiyatlar_listesi c = [] /\ hedef_fiyat_tl c = 0) \/
     (fiyatlar_listesi c <> [] /\
      is_mean (hedef_fiyat_tl c) (fiyatlar_listesi c))) /\
  (fiyatlar_listesi c = [] -> forall m, fark_yuzde m c = 0).

(** The target of a row by mode: 0 with no available price, otherwise their
    maximum under MAX, their minimum under MIN and their mean in every other
    mode. *)
Definition target_of_mode (mode : string) (c : CalcRow) : Prop :=
  (fiyatlar_listesi c = [] -> hedef_fiyat_tl c = 0) /\
  (fiyatlar_listesi c <> [] ->
     (mode = "MAX"%string -> is_max (hedef_fiyat_tl c) (fiyatlar_listesi c)) /\
     (mode = "MIN"%string -> is_min (hedef_fiyat_tl c) (fiyatlar_listesi c)) /\
     (mode <> "MAX"%string -> mode <> "MIN"%string ->
        is_mean (hedef_fiyat_tl c) (fiyatlar_listesi c))).

(** C4, for one record and the row computed for it. *)
Definition deviation_ok (mode : string) (ku ke kg : Q) (row : MergedRow) (c : CalcRow)
  : Prop :=
  row_link ku ke kg row c /\
  target_of_mode mode c /\
  0 <= hedef_fiyat_tl c /\
  (forall m, fark m c = fiyat_norm m c - hedef_fiyat_tl c) /\
  (0 < hedef_fiyat_tl c ->
     forall m, fark_yuzde m c = fark m c / hedef_fiyat_tl c * 100) /\
  (hedef_fiyat_tl c == 0 -> forall m, fark_yuzde m c = 0) /\
  (fiyat_tl row == 0 /\ fiyat_usd row == 0 /\
   fiyat_eur row == 0 /\ fiyat_gbp row == 0 ->
     hedef_fiyat_tl c = 0 /\ forall m, fark_yuzde m c = 0).

(** C8, for one record under MAX and the row computed for it. *)
Definition max_target_ok (ku ke kg : Q) (row : MergedRow) (c : CalcRow) : Prop :=
  row_link ku ke kg row c /\
  (forall m, fark m c = fiyat_norm m c - hedef_fiyat_tl c) /\
  (fiyatlar_listesi c <> [] -> is_max (hedef_fiyat_tl c) (fiyatlar_listesi c)) /\
  (fiyatlar_listesi c = [] -> hedef_fiyat_tl c = 0) /\
  (exists m, fark m c <= 0) /\
  (fiyatlar_listesi c <> [] ->
     exists m, fiyat_norm m c = hedef_fiyat_tl c /\ fark m c == 0) /\
  (fiyatlar_listesi c = [] -> (forall m, 0 <= fiyat_norm m c) ->
     forall m, fark m c == 0) /\
  (fiyat_tl row == 0 /\ fiyat_usd row == 0 /\
   fiyat_eur row == 0 /\ fiyat_gbp row == 0 ->
     forall m, fark m c == 0).

(** The record of the end-to-end scenario: "Grand Plaza", one night, at
    3000 TRY, 80 USD, 75 EUR and 65 GBP. *)
Definition grand_plaza : MergedRow :=
  {| otel := "Grand Plaza"; checkin := Some 20240%Z;
     fiyat_tl := 3000; fiyat_usd := 80; fiyat_eur := 75; fiyat_gbp := 65;
     bilgi_tr := Some (mkBilgi "TRY" "2025-05-20 10:00:00" "min_from_list");
     bilgi_us := Some (mkBilgi "USD" "2025-05-20 10:00:00" "min_from_list");
     bilgi_de := Some (mkBilgi "EUR" "2025-05-20 10:00:00" "min_from_list");
     bilgi_uk := Some (mkBilgi "GBP" "2025-05-20 10:00:00" "min_from_list") |}.

(** A record with two observed prices, 100 TRY and 3 USD, and no price in
    the other two markets. *)
Definition iki_fiyat : MergedRow :=
  {| otel := "Grand Plaza"; checkin := Some 20240%Z;
     fiyat_tl := 100; fiyat_usd := 3; fiyat_eur := 0; fiyat_gbp := 0;
     bilgi_tr := Some (mkBilgi "TRY" "2025-05-20 10:00:00" "min_from_list");
     bilgi_us := Some (mkBilgi "USD" "2025-05-20 10:00:00" "min_from_list");
     bilgi_de := None;
     bilgi_uk := None |}.

(** A record with no observed price. *)
Definition fiyatsiz : MergedRow :=
  {| otel := "Grand Plaza"; checkin := Some 20240%Z;
     fiyat_tl := 0; fiyat_usd := 0; fiyat_eur := 0; fiyat_gbp := 0;
     bilgi_tr := None; bilgi_us := None; bilgi_de := None; bilgi_uk := None |}.

(** Frames and cells by market. *)
Definition market (m : Pazar) (df_tr df_us df_de df_uk : list MarketRow)
  : list MarketRow :=
  match m with
  | TR => df_tr
  | US => df_us
  | DE => df_de
  | UK => df_uk
  end.

Definition fiyat (m : Pazar) (r : MergedRow) : Q :=
  match m with
  | TR => fiyat_tl r
  | US => fiyat_usd r
  | DE => fiyat_eur r
  | UK => fiyat_gbp r
  end.

Definition bilgi (m : Pazar) (r : MergedRow) : option Bilgi :=
  match m with
  | TR => bilgi_tr r
  | US => bilgi_us r
  | DE => bilgi_de r
  | UK => bilgi_uk r
  end.

(** The key of a market row, and the keys of a market frame. *)
Definition row_key (x : MarketRow) : Merge.Key := (mr_otel x, mr_checkin x).

Definition has_key (k : Merge.Key) (df : list MarketRow) : Prop :=
  exists x, In x df /\ row_key x = k.

(** The key is in at least one of the four market frames. *)
Definition any_key (df_tr df_us df_de df_uk : list MarketRow) (k : Merge.Key) : Prop :=
  exists m, has_key k (market m df_tr df_us df_de df_uk).

(** The cells of one market in a merged row with key [k]: those of a row of
    the market frame with that key, or, when the frame has no such row, the
    price 0 and the other columns NaN. *)
Definition cell_ok (k : Merge.Key) (df : list MarketRow) (p : Q) (b : option Bilgi)
  : Prop :=
  (exists x, In x df /\ row_key x = k /\ p = mr_fiyat x /\ b = Some (mr_bilgi x)) \/
  (~ has_key k df /\ p = 0 /\ b = None).

(** C5: [merged] is the full outer join of the four frames on the key, the
    check-in of each key converted by [to_datetime], missing prices 0. *)
Definition outer_join_ok (to_datetime : string -> option Timestamp)
    (df_tr df_us df_de df_uk : list MarketRow) (merged : list MergedRow) : Prop :=
  let any := any_key df_tr df_us df_de df_uk in
  let frame m := market m df_tr df_us df_de df_uk in
  (forall k, In k (Merge.keys (Merge.join_all df_tr df_us df_de df_uk)) <-> any k) /\
  (forall h d, (exists r, In r merged /\ otel r = h /\ checkin r = d) <->
               (exists c, any (h, c) /\ to_datetime c = d)) /\
  (forall r, In r merged ->
     exists c, any (otel r, c) /\ checkin r = to_datetime c /\
               forall m, cell_ok (otel r, c) (frame m) (fiyat m r) (bilgi m r)) /\
  (forall k m, has_key k (frame m) ->
     (forall m', m' <> m -> ~ has_key k (frame m')) ->
     exists r, In r merged /\ otel r = fst k /\ checkin r = to_datetime (snd k) /\
               forall m', m' <> m -> fiyat m' r = 0).

(** C3 as the program has it: no row is lost when [checkin] is converted;
    every market row is in the merged frame under its hotel with the
    conversion of its check-in text, [NaT] included. *)
Definition unparsed_kept (to_datetime : string -> option Timestamp)
    (df_tr df_us df_de df_uk : list MarketRow) (merged : list MergedRow) : Prop :=
  let frame m := market m df_tr df_us df_de df_uk in
  List.length merged = List.length (Merge.join_all df_tr df_us df_de df_uk) /\
  (forall m x, In x (frame m) ->
     exists r, In r merged /\ otel r = mr_otel x /\
               checkin r = to_datetime (mr_checkin x) /\
               fiyat m r = mr_fiyat x /\ bilgi m r = Some (mr_bilgi x)) /\
  (forall r, In r merged ->
     exists c, any_key df_tr df_us df_de df_uk (otel r, c) /\
               checkin r = to_datetime c).

(** A market row whose check-in text is not a date. *)
Definition tarihsiz : MarketRow :=
  mkMarketRow "Grand Plaza" "yakinda" 3000
    (mkBilgi "TRY" "2025-05-20 10:00:00" "min_from_list").

(** Market rows of the hotel for one night. *)
Definition plaza_tr : MarketRow :=
  mkMarketRow "Grand Plaza" "2025-06-01" 3000
    (mkBilgi "TRY" "2025-05-20 10:00:00" "min_from_list").

Definition plaza_us : MarketRow :=
  mkMarketRow "Grand Plaza" "2025-06-01" 80
    (mkBilgi "USD" "2025-05-20 10:00:00" "min_from_list").

(** The comparison predicate of each mode, with the threshold 10. *)
Definition flag_rule (mode : string) (d : Q) : Prop :=
  (mode = "MAX"%string /\ d < - (10)) \/
  (mode = "MIN"%string /\ 10 < d) \/
  (mode = "MEAN"%string /\ 10 < Qabs d).

(** The flagged markets of a row, and the rows with a flagged market. *)
Definition flagged (mode : string) (row : CalcRow) : list Pazar :=
  filter (fun m => Recommend.compare_op mode (fark_yuzde m row)) pazarlar.

Definition any_flagged (mode : string) (row : CalcRow) : bool :=
  existsb (fun m => Recommend.compare_op mode (fark_yuzde m row)) pazarlar.

(** The aggregate score of the specification: the sum of the absolute
    deviation percents of the flagged markets. *)
Definition flagged_score (mode : string) (row : CalcRow) : Q :=
  fold_right Qplus 0 (map (fun m => Qabs (fark_yuzde m row)) (flagged mode row)).

(** C6: the rows and the suggestions of the output [out] for the frame. *)
Definition recommendations_ok (mode : string) (df : list CalcRow)
    (out : list (CalcRow * list Recommend.Oneri)) : Prop :=
  (forall d, Recommend.compare_op mode d = true <-> flag_rule mode d) /\
  (forall row, In row (map fst out) <->
               In row df /\ exists m, flag_rule mode (fark_yuzde m row)) /\
  (forall row oneriler, In (row, oneriler) out ->
     forall m, (exists o, In o oneriler /\ Recommend.pazar_adi o = Recommend.ad m) <->
               flag_rule mode (fark_yuzde m row)).

(** C7: [out] is the list [listed] of the loop, sorted by descending score,
    rows of equal score in the order of the loop. *)
Definition ranking_ok (mode : string) (df : list CalcRow)
    (listed out : list (CalcRow * list Recommend.Oneri)) : Prop :=
  let score := Recommend.get_total_diff_score mode in
  map fst listed = filter (any_flagged mode) df /\
  Permutation out listed /\
  (forall e, score e == flagged_score mode (fst e)) /\
  StronglySorted (fun a b => score b <= score a) out /\
  (forall s, filter (fun e => Qeq_bool (score e) s) out =
             filter (fun e => Qeq_bool (score e) s) listed).

(** The states of the list of success notes: the list as created, then as
    left by any sequence of calls of [categorize_note]. *)
Definition reachable (success : list string) : Prop :=
  exists notes, success = snd (Health.apply notes Health.success_notes).

(** What the list of success notes holds in every state: the notes it was
    created with, and notes with the substring that are no error notes. *)
Definition success_inv (success : list string) : Prop :=
  incl Health.success_notes success /\
  forall n, In n success ->
    In n Health.success_notes \/
    (Health.contains "min_from_main_block" n = true /\ ~ In n Health.error_notes).

(** C9: the classification of a note in the state [success]. *)
Definition classifier_ok (success : list string) : Prop :=
  let kat note := fst (Health.categorize_note note success) in
  kat "CRASH_OR_TIMEOUT"%string = Health.VeriCekilemedi /\
  kat "min_from_list"%string = Health.Basarili /\
  kat "xyz"%string = Health.Diger /\
  (forall pre post : string,
     kat (pre ++ "min_from_main_block" ++ post)%string = Health.Basarili) /\
  (forall note,
     (In note Health.success_notes -> kat note = Health.Basarili) /\
     (In note Health.error_notes -> kat note = Health.VeriCekilemedi) /\
     (~ In note Health.success_notes -> ~ In note Health.error_notes ->
      (forall pre post : string, note <> (pre ++ "min_from_main_block" ++ post)%string) ->
      kat note = Health.Diger)).

(** C10: a note classified after the notes [before], and again after the
    notes [between], gets the category of the rule with no state both
    times. *)
Definition same_category (before between : list string) (note : string) : Prop :=
  let s1 := snd (Health.apply before Health.success_notes) in
  let r1 := Health.categorize_note note s1 in
  let s2 := snd (Health.apply between (snd r1)) in
  let r2 := Health.categorize_note note s2 in
  fst r1 = Health.kategori note /\ fst r2 = fst r1.

(** The computed rows of a frame, for closed examples. *)
Definition rows_of (df : list MergedRow) (mode : string) (ku ke kg : Q) : list CalcRow :=
  match Strategy.calculate_strategy_dataframe df mode ku ke kg with
  | Ok (out, _) => out
  | Raise _ => []
  end.

(** Four records for the ranking, each with a price in every market: the
    first and the third with the same prices, the second further below its
    target, the fourth within tolerance. *)
Definition otel_a : MergedRow :=
  {| otel := "A"; checkin := Some 20240%Z;
     fiyat_tl := 100; fiyat_usd := 3; fiyat_eur := 300; fiyat_gbp := 300;
     bilgi_tr := None; bilgi_us := None; bilgi_de := None; bilgi_uk := None |}.

Definition otel_b : MergedRow :=
  {| otel := "B"; checkin := Some 20240%Z;
     fiyat_tl := 50; fiyat_usd := 3; fiyat_eur := 300; fiyat_gbp := 300;
     bilgi_tr := None; bilgi_us := None; bilgi_de := None; bilgi_uk := None |}.

Definition otel_c : MergedRow :=
  {| otel := "C"; checkin := Some 20240%Z;
     fiyat_tl := 100; fiyat_usd := 3; fiyat_eur := 300; fiyat_gbp := 300;
     bilgi_tr := None; bilgi_us := None; bilgi_de := None; bilgi_uk := None |}.

Definition otel_d : MergedRow :=
  {| otel := "D"; checkin := Some 20240%Z;
     fiyat_tl := 295; fiyat_usd := 3; fiyat_eur := 300; fiyat_gbp := 300;
     bilgi_tr := None; bilgi_us := None; bilgi_de := None; bilgi_uk := None |}.

Definition siralama_df : list CalcRow :=
  rows_of [otel_a; otel_d; otel_b; otel_c] "MAX" 100 1 1.


(** * Further properties: definitions *)

(** ** Predicates on the rows of the strategy engine *)

(** Under MAX no market is above the target. *)
Definition no_surplus (c : CalcRow) : Prop :=
  forall m, fark m c <= 0 /\ fark_yuzde m c <= 0 /\
            (0 <= fiyat_norm m c -> - (100) <= fark_yuzde m c).

(** The row [c] is the row computed for the record [row] in the mode: it
    carries the record and its normalized prices, its target is the one of
    the mode, and the deviation amount of a market is its normalized price
    minus the target. *)
Definition row_computed (mode : string) (ku ke kg : Q) (row : MergedRow) (c : CalcRow)
  : Prop :=
  row_link ku ke kg row c /\
  target_of_mode mode c /\
  (forall m, fark m c = fiyat_norm m c - hedef_fiyat_tl c).

(** Under MIN, on the row computed for a record, no market with a price is
    below the target, and a market without one is, when the record has a
    price at all. *)
Definition no_loss_where_priced (ku ke kg : Q) (row : MergedRow) (c : CalcRow) : Prop :=
  row_computed "MIN" ku ke kg row c /\
  forall m,
    (0 < fiyat_norm m c -> 0 <= fark m c /\ 0 <= fark_yuzde m c) /\
    (fiyat_norm m c <= 0 -> available (normalized ku ke kg row) <> [] -> fark m c < 0).

(** The column of the mode: [max_fiyat_tl] under MAX, [min_fiyat_tl] under
    MIN, [mean_fiyat_tl] in every other mode. *)
Definition mode_column (mode : string) (c : CalcRow) : Q :=
  if (mode =? "MAX")%string then max_fiyat_tl c
  else if (mode =? "MIN")%string then min_fiyat_tl c
  else mean_fiyat_tl c.

(** The three strategy columns of the row computed for a record: in every
    mode they are the minimum, the mean and the maximum of the available
    prices of the record, all 0 when it has none; the target is the column
    of the mode. *)
Definition columns_ok (mode : string) (ku ke kg : Q) (row : MergedRow) (c : CalcRow)
  : Prop :=
  row_link ku ke kg row c /\
  (fiyatlar_listesi c = [] ->
     min_fiyat_tl c = 0 /\ mean_fiyat_tl c = 0 /\ max_fiyat_tl c = 0) /\
  (fiyatlar_listesi c <> [] ->
     is_min (min_fiyat_tl c) (fiyatlar_listesi c) /\
     is_mean (mean_fiyat_tl c) (fiyatlar_listesi c) /\
     is_max (max_fiyat_tl c) (fiyatlar_listesi c) /\
     0 < min_fiyat_tl c /\ 0 < mean_fiyat_tl c /\
     min_fiyat_tl c <= max_fiyat_tl c) /\
  hedef_fiyat_tl c = mode_column mode c.

(** On the row computed for a record with some price, a market with the
    normalized price 0. *)
Definition unobserved_minus_100 (mode : string) (ku ke kg : Q) (row : MergedRow)
    (c : CalcRow) : Prop :=
  row_computed mode ku ke kg row c /\
  forall m, available (normalized ku ke kg row) <> [] -> fiyat_norm m c == 0 ->
    fark_yuzde m c == - (100) /\
    (Recommend.compare_op mode (fark_yuzde m c) = true <-> mode <> "MIN"%string).

(** ** Predicates on the recommendations *)

(** The exchange rate that [display_recommendations_tab] passes for a market:
    1 for the home market. *)
Definition kur (ku ke kg : Q) (m : Pazar) : Q :=
  match m with
  | TR => 1
  | US => ku
  | DE => ke
  | UK => kg
  end.

(** The suggestion [o] is the one built for market [m] of [row]. *)
Definition oneri_of (ku ke kg : Q) (row : CalcRow) (m : Pazar) (o : Recommend.Oneri)
  : Prop :=
  let d := fark_yuzde m row in
  let hedef_orj :=
    if gt (kur ku ke kg m) 0 then hedef_fiyat_tl row / kur ku ke kg m
    else hedef_fiyat_tl row in
  Recommend.pazar_adi o = Recommend.ad m /\
  Recommend.fiyat_orj o = fiyat m (kayit row) /\
  Recommend.hedef_fiyat_orj o = hedef_orj /\
  (d < 0 -> Recommend.yon o = Recommend.Yukselt /\
            Recommend.degisim o = hedef_orj - fiyat m (kayit row) /\
            Recommend.yuzde o = Qabs d) /\
  (0 <= d -> Recommend.yon o = Recommend.Indir /\
             Recommend.degisim o = fiyat m (kayit row) - hedef_orj /\
             Recommend.yuzde o = d).

(** Every suggestion of the output belongs to a flagged market of its row. *)
Definition suggestions_of_flagged (mode : string) (ku ke kg : Q)
    (out : list (CalcRow * list Recommend.Oneri)) : Prop :=
  forall row oneriler, In (row, oneriler) out ->
    oneriler <> [] /\
    forall o, In o oneriler ->
      exists m, Recommend.compare_op mode (fark_yuzde m row) = true /\
                oneri_of ku ke kg row m o.

(** The direction and the size of the suggestions by mode. *)
Definition directions_ok (mode : string)
    (out : list (CalcRow * list Recommend.Oneri)) : Prop :=
  forall row oneriler o, In (row, oneriler) out -> In o oneriler ->
    10 < Recommend.yuzde o /\
    (mode = "MAX"%string -> Recommend.yon o = Recommend.Yukselt) /\
    (mode = "MIN"%string -> Recommend.yon o = Recommend.Indir).

(** The suggested price converts back to the target, and the suggested
    change is a positive amount. *)
Definition suggestions_consistent (ku ke kg : Q)
    (out : list (CalcRow * list Recommend.Oneri)) : Prop :=
  forall row oneriler o, In (row, oneriler) out -> In o oneriler ->
    exists m, Recommend.pazar_adi o = Recommend.ad m /\
              Recommend.fiyat_orj o = fiyat m (kayit row) /\
              Recommend.hedef_fiyat_orj o * kur ku ke kg m == hedef_fiyat_tl row /\
              0 < Recommend.degisim o.

(** The score of a listed record is above the threshold for each of its
    suggestions, of which there are one to four. *)
Definition scores_above_threshold (mode : string)
    (out : list (CalcRow * list Recommend.Oneri)) : Prop :=
  forall e, In e out ->
    (1 <= List.length (snd e) <= 4)%nat /\
    10 * len (snd e) < Recommend.get_total_diff_score mode e.

(** ** Predicates on the merged frame *)

(** The order of [sort_values(by=['otel', 'checkin'])] on merged rows: by
    hotel, then by date with [NaT] last. *)
Definition merged_leb (a b : MergedRow) : bool :=
  match String.compare (otel a) (otel b) with
  | Lt => true
  | Gt => false
  | Eq => Merge.tarih_leb (checkin a) (checkin b)
  end.

(** The keys of the four market frames, together. *)
Definition all_keys (df_tr df_us df_de df_uk : list MarketRow) : list Merge.Key :=
  (map row_key df_tr ++ map row_key df_us ++ map row_key df_de ++ map row_key df_uk)%list.

(** No two rows of a market frame have the same key. *)
Definition unique_keys (df : list MarketRow) : Prop := NoDup (map row_key df).

(** ** Exchange rates: [get_exchange_rates] *)

Module Rates.

(** [FALLBACK_RATES]: foreign currency per Turkish lira. *)
Definition FALLBACK_USD : Q := 29 # 1000.
Definition FALLBACK_EUR : Q := 27 # 1000.
Definition FALLBACK_GBP : Q := 23 # 1000.

(** The decoded answer of the rates service as far as the function reads it.
    A rate [data['rates'][...]] is [None] when reading it raises or when its
    value is not a number, which makes the division raise.  [yanit_date] is
    [data['date']] as the f-string formats it, whatever its value (a null is
    formatted as the text None); it is [None] only when the key is
    missing, the one case in which reading it raises. *)
Record Yanit : Type := mkYanit {
  rates_USD : option Q;
  rates_EUR : option Q;
  rates_GBP : option Q;
  yanit_date : option string
}.

(** [st.session_state['kur_durum']]. *)
Inductive KurDurum : Type := success | warning.

(** [1 / data['rates'][...]] inside the [try]: [None] when it raises, for a
    missing key or a zero rate. *)
Definition reciprocal (rate : option Q) : option Q :=
  match rate with
  | None => None
  | Some r => match truediv 1 r with
              | Ok q => Some q
              | Raise _ => None
              end
  end.

(** The body of the [try]; [response] is [None] when the request or the
    decoding raises. *)
Definition try_rates (response : option Yanit) : option (Q * Q * Q * string) :=
  match response with
  | None => None
  | Some data =>
      match reciprocal (rates_USD data) with
      | None => None
      | Some rate_usd_try =>
          match reciprocal (rates_EUR data) with
          | None => None
          | Some rate_eur_try =>
              match reciprocal (rates_GBP data) with
              | None => None
              | Some rate_gbp_try =>
                  match yanit_date data with
                  | None => None   (* KeyError: 'date' *)
                  | Some d => Some (rate_usd_try, rate_eur_try, rate_gbp_try, d)
                  end
              end
          end
      end
  end.

(** [get_exchange_rates]: the rates, with the two session-state entries it
    sets ([kur_kaynagi], [kur_durum]).  The [except] branch divides as
    well. *)
Definition get_exchange_rates (response : option Yanit)
  : result (Q * Q * Q * (string * KurDurum)) :=
  match try_rates response with
  | Some (rate_usd_try, rate_eur_try, rate_gbp_try, d) =>
      Ok (rate_usd_try, rate_eur_try, rate_gbp_try,
          (("✅ Güncel Kur (" ++ d ++ ")")%string, success))
  | None =>
      rate_usd_try <- truediv 1 FALLBACK_USD ;;
      rate_eur_try <- truediv 1 FALLBACK_EUR ;;
      rate_gbp_try <- truediv 1 FALLBACK_GBP ;;
      Ok (rate_usd_try, rate_eur_try, rate_gbp_try,
          ("⚠️ API Hatası: Varsayılan Kur Kullanılıyor"%string, warning))
  end.

End Rates.

(** The rates are the fallback ones. *)
Definition fallback_rates (ku ke kg : Q) : Prop :=
  ku == 1000 # 29 /\ ke == 1000 # 27 /\ kg == 1000 # 23.

(** The rates are the reciprocals of the three rates of the answer. *)
Definition service_rates (response : option Rates.Yanit) (ku ke kg : Q) : Prop :=
  exists data ru re rg d,
    response = Some data /\
    Rates.rates_USD data = Some ru /\ Rates.rates_EUR data = Some re /\
    Rates.rates_GBP data = Some rg /\ Rates.yanit_date data = Some d /\
    ku * ru == 1 /\ ke * re == 1 /\ kg * rg == 1.

(** The answer has all it takes: three rates other than zero and the key
    'date', whatever its value. *)
Definition usable (response : option Rates.Yanit) : Prop :=
  exists data ru re rg d,
    response = Some data /\
    Rates.rates_USD data = Some ru /\ Rates.rates_EUR data = Some re /\
    Rates.rates_GBP data = Some rg /\ Rates.yanit_date data = Some d /\
    ~ ru == 0 /\ ~ re == 0 /\ ~ rg == 0.

(** An answer of the service, one with a zero rate and one whose date is
    null. *)
Definition yanit_ok : Rates.Yanit :=
  Rates.mkYanit (Some (25 # 1000)) (Some (2 # 100)) (Some (2 # 100)) (Some "2025-06-01"%string).

Definition yanit_sifir : Rates.Yanit :=
  Rates.mkYanit (Some (25 # 1000)) (Some 0) (Some (2 # 100)) (Some "2025-06-01"%string).

Definition yanit_tarihsiz : Rates.Yanit :=
  Rates.mkYanit (Some (25 # 1000)) (Some (2 # 100)) (Some (2 # 100)) (Some "None"%string).

(** ** Summary figures: [display_summary_metrics], and the per-record sums
    of [display_heatmap] and [display_day_of_week_analysis] *)

Module Ozet.

(** [abs(df[col][df[col] < 0].sum())] and [df[col][df[col] > 0].sum()]. *)
Definition neg_sum (col : CalcRow -> Q) (df : list CalcRow) : Q :=
  abs (builtin_sum (filter (fun x => lt x 0) (map col df))).

Definition pos_sum (col : CalcRow -> Q) (df : list CalcRow) : Q :=
  builtin_sum (filter (fun x => gt x 0) (map col df)).

Definition toplam_kayip (df : list CalcRow) : Q :=
  neg_sum fark_tr df + neg_sum fark_us df + neg_sum fark_de df + neg_sum fark_uk df.

Definition toplam_fazlalik (df : list CalcRow) : Q :=
  pos_sum fark_tr df + pos_sum fark_us df + pos_sum fark_de df + pos_sum fark_uk df.

(** [len(df[df[col] < 0])] under MAX, [len(df[df[col] > 0])] otherwise. *)
Definition adet (strateji_mod : string) (col : CalcRow -> Q) (df : list CalcRow) : nat :=
  if (strateji_mod =? "MAX")%string
  then List.length (filter (fun row => lt (col row) 0) df)
  else List.length (filter (fun row => gt (col row) 0) df).

Definition toplam_adet (strateji_mod : string) (df : list CalcRow) : nat :=
  (adet strateji_mod fark_tr df + adet strateji_mod fark_us df
   + adet strateji_mod fark_de df + adet strateji_mod fark_uk df)%nat.

(** [df['checkin'].nunique()]: the number of different dates, [NaT] not
    counted. *)
Definition nunique (df : list CalcRow) : nat :=
  List.length (nodup Z.eq_dec (Recommend.not_none (map (fun row => checkin (kayit row)) df))).

(** [x / df['checkin'].nunique() if df['checkin'].nunique() > 0 else 0]. *)
Definition per_day (x : Q) (df : list CalcRow) : result Q :=
  if (0 <? nunique df)%nat then truediv x (inject_Z (Z.of_nat (nunique df))) else Ok 0.

Definition gunluk_ortalama (strateji_mod : string) (df : list CalcRow) : result Q :=
  if (strateji_mod =? "MAX")%string then per_day (toplam_kayip df) df
  else if (strateji_mod =? "MIN")%string then per_day (toplam_fazlalik df) df
  else per_day (toplam_fazlalik df - toplam_kayip df) df.

(** The figures that [display_summary_metrics] shows. *)
Record Metrics : Type := mkMetrics {
  m_toplam_kayip : Q;
  m_toplam_fazlalik : Q;
  m_toplam_adet : nat;
  m_kritik_uyari : bool;
  m_benzersiz_gunler : nat;
  m_rezervasyon : nat;
  m_gunluk_ortalama : Q;
  m_aylik : Q;
  m_yillik : Q
}.

Definition display_summary_metrics (df : list CalcRow) (strateji_mod : string)
  : result Metrics :=
  let kayip := toplam_kayip df in
  let fazlalik := toplam_fazlalik df in
  let kritik := if (strateji_mod =? "MAX")%string then gt kayip 100 else false in
  gunluk <- gunluk_ortalama strateji_mod df ;;
  Ok {| m_toplam_kayip := kayip;
        m_toplam_fazlalik := fazlalik;
        m_toplam_adet := toplam_adet strateji_mod df;
        m_kritik_uyari := kritik;
        m_benzersiz_gunler := nunique df;
        m_rezervasyon := List.length df;
        m_gunluk_ortalama := gunluk;
        m_aylik := gunluk * 30;
        m_yillik := gunluk * 365 |}.

(** The sum over the four deviation columns of one record: what is below the
    target under MAX, what is above it otherwise. *)
Definition toplam_fark (strateji_mod : string) (row : CalcRow) : Q :=
  if (strateji_mod =? "MAX")%string then
    builtin_sum (map (fun f : CalcRow -> Q => if lt (f row) 0 then abs (f row) else 0)
                     [fark_tr; fark_us; fark_de; fark_uk])
  else
    builtin_sum (map (fun f : CalcRow -> Q => if gt (f row) 0 then f row else 0)
                     [fark_tr; fark_us; fark_de; fark_uk]).

(** [df_hm_list] of [display_heatmap]: hotel, date and value per record. *)
Definition df_hm_list (strateji_mod : string) (df : list CalcRow)
  : list (string * option Timestamp * Q) :=
  map (fun row => (otel (kayit row), checkin (kayit row), toplam_fark strateji_mod row)) df.

(** [df_dow_filtered] of [display_day_of_week_analysis]: the records with a
    sum above 0. *)
Definition df_dow_filtered (strateji_mod : string) (df : list CalcRow) : list CalcRow :=
  filter (fun row => gt (toplam_fark strateji_mod row) 0) df.

End Ozet.

(** The sum of all deviation amounts of a frame. *)
Definition total_fark (df : list CalcRow) : Q :=
  builtin_sum (map fark_tr df) + builtin_sum (map fark_us df)
  + builtin_sum (map fark_de df) + builtin_sum (map fark_uk df).

(** The total that the daily average of a mode is taken of. *)
Definition etki (strateji_mod : string) (df : list CalcRow) : Q :=
  if (strateji_mod =? "MAX")%string then Ozet.toplam_kayip df
  else if (strateji_mod =? "MIN")%string then Ozet.toplam_fazlalik df
  else Ozet.toplam_fazlalik df - Ozet.toplam_kayip df.

(** The figures of the summary that depend on the number of days. *)
Definition daily_average_ok (strateji_mod : string) (df : list CalcRow)
    (mt : Ozet.Metrics) : Prop :=
  Ozet.m_benzersiz_gunler mt = Ozet.nunique df /\
  (Ozet.nunique df <= List.length df)%nat /\
  (Ozet.nunique df = 0%nat <-> forall row, In row df -> checkin (kayit row) = None) /\
  (Ozet.nunique df = 0%nat -> Ozet.m_gunluk_ortalama mt = 0) /\
  ((0 < Ozet.nunique df)%nat ->
     Ozet.m_gunluk_ortalama mt * inject_Z (Z.of_nat (Ozet.nunique df))
     == etki strateji_mod df) /\
  Ozet.m_aylik mt = Ozet.m_gunluk_ortalama mt * 30 /\
  Ozet.m_yillik mt = Ozet.m_gunluk_ortalama mt * 365.

(** The side of the target that a mode counts: below it under MAX, above it
    otherwise. *)
Definition counted (strateji_mod : string) (x : Q) : Prop :=
  if (strateji_mod =? "MAX")%string then x < 0 else 0 < x.

(** ** Health data: [get_health_data] and the figures of
    [display_health_tab] *)

Module HealthData.

(** A row of [df[['otel', 'checkin', 'source_note_..']]]: the note may be
    missing. *)
Record NotSatiri : Type := mkNotSatiri {
  n_otel : string;
  n_checkin : string;
  n_source_note : option string
}.

(** A row of the health frame. *)
Record SaglikSatiri : Type := mkSaglikSatiri {
  s_otel : string;
  s_checkin : string;
  s_source_note : string;
  s_pazar : Pazar
}.

(** The notes of one market frame with the market in the column [Pazar];
    nothing for a frame that is [None]. *)
Definition notes_of (m : Pazar) (df : option (list NotSatiri))
  : list (NotSatiri * Pazar) :=
  match df with
  | None => []
  | Some rows => map (fun r => (r, m)) rows
  end.

(** [fillna('Bilinmiyor')] on the note. *)
Definition fill_note (rp : NotSatiri * Pazar) : SaglikSatiri :=
  {| s_otel := n_otel (fst rp);
     s_checkin := n_checkin (fst rp);
     s_source_note := match n_source_note (fst rp) with
                      | Some note => note
                      | None => "Bilinmiyor"%string
                      end;
     s_pazar := snd rp |}.

(** [get_health_data]: the four frames one after the other. *)
Definition get_health_data (df_tr df_us df_de df_uk : option (list NotSatiri))
  : list SaglikSatiri :=
  map fill_note (notes_of TR df_tr ++ notes_of US df_us
                 ++ notes_of DE df_de ++ notes_of UK df_uk).

Definition kategori_eqb (a b : Health.Kategori) : bool :=
  match a, b with
  | Health.Basarili, Health.Basarili => true
  | Health.VeriCekilemedi, Health.VeriCekilemedi => true
  | Health.Diger, Health.Diger => true
  | _, _ => false
  end.

Definition pazar_eqb (a b : Pazar) : bool :=
  match a, b with
  | TR, TR | US, US | DE, DE | UK, UK => true
  | _, _ => false
  end.

(** [(df['Kategori'] == k).sum()]. *)
Definition count_kategori (k : Health.Kategori) (df : list (SaglikSatiri * Health.Kategori))
  : nat :=
  List.length (filter (fun rk => kategori_eqb (snd rk) k) df).

(** One row of the table by market: total, failures, success rate. *)
Definition pazar_row (df : list (SaglikSatiri * Health.Kategori)) (m : Pazar)
  : result (Pazar * nat * nat * Q) :=
  let rows := filter (fun rk => pazar_eqb (s_pazar (fst rk)) m) df in
  let toplam := List.length rows in
  let kayip := count_kategori Health.VeriCekilemedi rows in
  q <- truediv (inject_Z (Z.of_nat toplam - Z.of_nat kayip)) (inject_Z (Z.of_nat toplam)) ;;
  Ok (m, toplam, kayip, q * 100).

(** The figures of the tab. *)
Record Saglik : Type := mkSaglik {
  df_kategori : list (SaglikSatiri * Health.Kategori);
  total_scrapes : nat;
  total_success : nat;
  total_errors : nat;
  success_rate : Q;
  df_pazar_health : list (Pazar * nat * nat * Q)
}.

(** The index of the table by market.  The table is made of two counts by
    market, which pandas aligns on the union of their indexes in sorted
    order: the markets by name.  (Two counts that happen to have the very
    same index keep it as it is; the figures of a market are the same either
    way, and the table is read by market, not by position.) *)
Definition pazar_index : list Pazar := [DE; TR; UK; US].

(** [display_health_tab] up to its figures: [None] when it returns early on
    an empty frame.  The table by market has a row for each market with a
    record ([value_counts]), in the order of [pazar_index]. *)
Definition display_health_tab (df_tr df_us df_de df_uk : option (list NotSatiri))
  : result (option Saglik) :=
  let df_health := get_health_data df_tr df_us df_de df_uk in
  match df_health with
  | [] => Ok None
  | _ :: _ =>
      let kategoriler := fst (Health.apply (map s_source_note df_health) Health.success_notes) in
      let df := combine df_health kategoriler in
      let total_scrapes := List.length df_health in
      let total_success := count_kategori Health.Basarili df in
      let total_errors := count_kategori Health.VeriCekilemedi df in
      success_rate <-
        (if (0 <? total_scrapes)%nat
         then q <- truediv (inject_Z (Z.of_nat total_success))
                           (inject_Z (Z.of_nat total_scrapes)) ;;
              Ok (q * 100)
         else Ok 0) ;;
      tablo <- mapM (pazar_row df)
                 (filter (fun m => existsb (fun rk => pazar_eqb (s_pazar (fst rk)) m) df)
                         pazar_index) ;;
      Ok (Some {| df_kategori := df;
                  total_scrapes := total_scrapes;
                  total_success := total_success;
                  total_errors := total_errors;
                  success_rate := success_rate;
                  df_pazar_health := tablo |})
  end.

End HealthData.

(** The number of rows of a frame, 0 for a frame that is [None]. *)
Definition rows (df : option (list HealthData.NotSatiri)) : nat :=
  match df with
  | None => 0
  | Some l => List.length l
  end.

(** The health frame of the four market frames: one row for each of their
    rows, in the order TR, US, DE, UK, no note missing. *)
Definition health_rows_ok (df_tr df_us df_de df_uk : option (list HealthData.NotSatiri))
    (df_health : list HealthData.SaglikSatiri) : Prop :=
  List.length df_health = (rows df_tr + rows df_us + rows df_de + rows df_uk)%nat /\
  (forall m, List.length (filter (fun s => HealthData.pazar_eqb (HealthData.s_pazar s) m)
                                 df_health)
             = rows (match m with TR => df_tr | US => df_us | DE => df_de | UK => df_uk end)) /\
  (forall m r l,
     (match m with TR => df_tr | US => df_us | DE => df_de | UK => df_uk end) = Some l ->
     In r l ->
     exists s, In s df_health /\ HealthData.s_pazar s = m /\
               HealthData.s_otel s = HealthData.n_otel r /\
               HealthData.s_checkin s = HealthData.n_checkin r /\
               (forall note, HealthData.n_source_note r = Some note ->
                             HealthData.s_source_note s = note) /\
               (HealthData.n_source_note r = None ->
                  HealthData.s_source_note s = "Bilinmiyor"%string /\
                  Health.kategori (HealthData.s_source_note s) = Health.VeriCekilemedi)).

(** The number of rows of the health frame whose note is of category [k]. *)
Definition rows_of_kategori (k : Health.Kategori) (df_health : list HealthData.SaglikSatiri)
  : nat :=
  List.length (filter (fun s => HealthData.kategori_eqb
                                  (Health.kategori (HealthData.s_source_note s)) k)
                      df_health).

(** The overall figures of the tab on the health frame [df_health]: every
    row with its category, the number of rows, of successes and of failures,
    and the success rate. *)
Definition overall_ok (df_health : list HealthData.SaglikSatiri) (sg : HealthData.Saglik)
  : Prop :=
  let n := List.length df_health in
  (0 < n)%nat /\
  map fst (HealthData.df_kategori sg) = df_health /\
  map snd (HealthData.df_kategori sg)
  = map (fun s => Health.kategori (HealthData.s_source_note s)) df_health /\
  HealthData.total_scrapes sg = n /\
  HealthData.total_success sg = rows_of_kategori Health.Basarili df_health /\
  HealthData.total_errors sg = rows_of_kategori Health.VeriCekilemedi df_health /\
  (HealthData.total_success sg + HealthData.total_errors sg
   + rows_of_kategori Health.Diger df_health = n)%nat /\
  HealthData.success_rate sg * inject_Z (Z.of_nat n)
  == inject_Z (Z.of_nat (rows_of_kategori Health.Basarili df_health)) * 100 /\
  0 <= HealthData.success_rate sg /\ HealthData.success_rate sg <= 100.

(** The table by market of the tab. *)
Definition by_market_ok (sg : HealthData.Saglik) : Prop :=
  let df := HealthData.df_kategori sg in
  (forall m toplam kayip oran, In (m, toplam, kayip, oran) (HealthData.df_pazar_health sg) ->
     (0 < toplam)%nat /\ (kayip <= toplam)%nat /\
     toplam = List.length (filter (fun rk => HealthData.pazar_eqb
                                               (HealthData.s_pazar (fst rk)) m) df) /\
     oran * inject_Z (Z.of_nat toplam) == inject_Z (Z.of_nat (toplam - kayip)) * 100 /\
     0 <= oran /\ oran <= 100) /\
  (forall m, (exists rk, In rk df /\ HealthData.s_pazar (fst rk) = m) <->
             exists toplam kayip oran,
               In (m, toplam, kayip, oran) (HealthData.df_pazar_health sg)) /\
  (forall m toplam kayip oran, In (m, toplam, kayip, oran) (HealthData.df_pazar_health sg) ->
     (toplam - kayip =
      HealthData.count_kategori Health.Basarili
        (filter (fun rk => HealthData.pazar_eqb (HealthData.s_pazar (fst rk)) m) df)
      + HealthData.count_kategori Health.Diger
          (filter (fun rk => HealthData.pazar_eqb (HealthData.s_pazar (fst rk)) m) df))%nat).

(** Market frames of notes for closed examples. *)
Definition notlar_tr : list HealthData.NotSatiri :=
  [HealthData.mkNotSatiri "Grand Plaza" "2025-06-01" (Some "min_from_list"%string);
   HealthData.mkNotSatiri "Grand Plaza" "2025-06-02" None;
   HealthData.mkNotSatiri "Grand Plaza" "2025-06-03" (Some "xyz"%string)].

Definition notlar_us : list HealthData.NotSatiri :=
  [HealthData.mkNotSatiri "Grand Plaza" "2025-06-01" (Some "CRASH_OR_TIMEOUT"%string)].

(** ** Forecast input: [get_price_forecast] *)

Module Forecast.

Section Model.
(** The forecast frame of the model. *)
Variable Tahmin : Type.
(** Whether the model's library could be imported. *)
Variable PROPHET_AVAILABLE : bool.
(** Fitting the model on the series and predicting the days to come; [None]
    when the model raises. *)
Variable prophet : list (option Timestamp * Q) -> nat -> option Tahmin.

(** [get_price_forecast]: [None] when it declines. *)
Definition get_price_forecast (df_otel : list CalcRow) (days_to_forecast : nat)
  : option Tahmin :=
  if negb PROPHET_AVAILABLE then None
  else
    let df_prophet :=
      filter (fun dy => gt (snd dy) 0)
             (map (fun row => (checkin (kayit row), mean_fiyat_tl row)) df_otel) in
    if (List.length df_prophet <? 7)%nat then None
    else prophet df_prophet days_to_forecast.
End Model.

End Forecast.

(** The record has a price in some market. *)
Definition has_price (ku ke kg : Q) (row : MergedRow) : bool :=
  existsb (fun p => gt p 0) (normalized ku ke kg row).
(** * Properties *)

(** ** The result monad *)

Lemma mapM_total {A B : Type} (f : A -> result B) (l : list A) :
  (forall a, In a l -> exists b, f a = Ok b) ->
  exists bs, mapM f l = Ok bs /\ Forall2 (fun a b => f a = Ok b) l bs.
Proof.
  induction l as [|a l IH]; intros H.
  - exists []. split; [reflexivity | constructor].
  - destruct (H a (or_introl eq_refl)) as [b Hb].
    destruct IH as [bs [Hbs HF]].
    { intros a' Ha'. apply H. now right. }
    exists (b :: bs). split.
    + simpl. rewrite Hb. simpl. rewrite Hbs. reflexivity.
    + constructor; assumption.
Qed.

(** ** Comparisons, maximum, minimum, mean *)

Lemma gt_true (a b : Q) : gt a b = true <-> b < a.
Proof.
  unfold gt. rewrite negb_true_iff.
  split; intros H.
  - apply Qnot_le_lt. intros Hle. apply Qle_bool_iff in Hle. congruence.
  - destruct (Qle_bool a b) eqn:E; [|reflexivity].
    apply Qle_bool_iff in E. exfalso. apply (Qlt_not_le _ _ H E).
Qed.

Lemma gt_false (a b : Q) : gt a b = false <-> a <= b.
Proof.
  unfold gt. rewrite negb_false_iff. apply Qle_bool_iff.
Qed.

Lemma lt_true (a b : Q) : lt a b = true <-> a < b.
Proof. unfold lt. apply gt_true. Qed.

Lemma lt_false (a b : Q) : lt a b = false <-> b <= a.
Proof. unfold lt. apply gt_false. Qed.

Lemma max_from_in (x : list Q) : forall m, In (max_from m x) (m :: x).
Proof.
  induction x as [|p x IH]; intros m; simpl.
  - now left.
  - destruct (IH (if gt p m then p else m)) as [H | H].
    + destruct (gt p m); [right; left | left]; exact H.
    + right. right. exact H.
Qed.

Lemma max_from_ge (x : list Q) : forall m, m <= max_from m x.
Proof.
  induction x as [|p x IH]; intros m; simpl.
  - apply Qle_refl.
  - destruct (gt p m) eqn:E.
    + apply gt_true in E. eapply Qle_trans; [apply Qlt_le_weak, E | apply IH].
    + apply IH.
Qed.

Lemma max_from_upper (x : list Q) : forall m p, In p (m :: x) -> p <= max_from m x.
Proof.
  induction x as [|q x IH]; intros m p Hp; simpl.
  - destruct Hp as [<- | []]. apply Qle_refl.
  - destruct Hp as [<- | [<- | Hp]].
    + eapply Qle_trans; [|apply max_from_ge].
      destruct (gt q m) eqn:E; [apply gt_true in E; now apply Qlt_le_weak | apply Qle_refl].
    + eapply Qle_trans; [|apply max_from_ge].
      destruct (gt q m) eqn:E; [apply Qle_refl | now apply gt_false in E].
    + apply IH. now right.
Qed.

Lemma max_from_is_max (m : Q) (x : list Q) : is_max (max_from m x) (m :: x).
Proof. split; [apply max_from_in | apply max_from_upper]. Qed.

Lemma min_from_in (x : list Q) : forall m, In (min_from m x) (m :: x).
Proof.
  induction x as [|p x IH]; intros m; simpl.
  - now left.
  - destruct (IH (if lt p m then p else m)) as [H | H].
    + destruct (lt p m); [right; left | left]; exact H.
    + right. right. exact H.
Qed.

Lemma min_from_le (x : list Q) : forall m, min_from m x <= m.
Proof.
  induction x as [|p x IH]; intros m; simpl.
  - apply Qle_refl.
  - destruct (lt p m) eqn:E.
    + apply lt_true in E. eapply Qle_trans; [apply IH | apply Qlt_le_weak, E].
    + apply IH.
Qed.

Lemma min_from_lower (x : list Q) : forall m p, In p (m :: x) -> min_from m x <= p.
Proof.
  induction x as [|q x IH]; intros m p Hp; simpl.
  - destruct Hp as [<- | []]. apply Qle_refl.
  - destruct Hp as [<- | [<- | Hp]].
    + eapply Qle_trans; [apply min_from_le|].
      destruct (lt q m) eqn:E; [apply lt_true in E; now apply Qlt_le_weak | apply Qle_refl].
    + eapply Qle_trans; [apply min_from_le|].
      destruct (lt q m) eqn:E; [apply Qle_refl | now apply lt_false in E].
    + apply IH. now right.
Qed.

Lemma min_from_is_min (m : Q) (x : list Q) : is_min (min_from m x) (m :: x).
Proof. split; [apply min_from_in | apply min_from_lower]. Qed.

Lemma len_cons {A : Type} (a : A) (x : list A) : len (a :: x) == len x + 1.
Proof.
  unfold len. simpl List.length. rewrite Nat2Z.inj_succ.
  unfold Z.succ. rewrite inject_Z_plus. reflexivity.
Qed.

Lemma len_nonneg {A : Type} (x : list A) : 0 <= len x.
Proof.
  unfold len. change 0 with (inject_Z 0). rewrite <- Zle_Qle. lia.
Qed.

Lemma len_pos {A : Type} (a : A) (x : list A) : 0 < len (a :: x).
Proof.
  rewrite len_cons. pose proof (len_nonneg x). lra.
Qed.

Lemma fold_left_Qplus_pos (x : list Q) :
  (forall p, In p x -> 0 < p) -> forall a, 0 < a -> 0 < fold_left Qplus x a.
Proof.
  induction x as [|p x IH]; intros H a Ha.
  - exact Ha.
  - simpl fold_left. apply IH.
    + intros q Hq. apply H. now right.
    + pose proof (H p (or_introl eq_refl)). lra.
Qed.

(** The mean of prices that are all above 0 is above 0. *)
Lemma mean_pos (p : Q) (x : list Q) :
  (forall q, In q (p :: x) -> 0 < q) ->
  0 < builtin_sum (p :: x) / len (p :: x).
Proof.
  intros H.
  assert (Hs : 0 < builtin_sum (p :: x)).
  { unfold builtin_sum. simpl fold_left. apply fold_left_Qplus_pos.
    - intros q Hq. apply H. now right.
    - pose proof (H p (or_introl eq_refl)). lra. }
  pose proof (len_pos p x) as Hl.
  apply Qlt_shift_div_l; [exact Hl | lra].
Qed.

(** ** The strategy engine, row by row *)

Import Strategy.

Lemma truediv_nonzero (a b : Q) : ~ b == 0 -> truediv a b = Ok (a / b).
Proof.
  intros H. unfold truediv.
  destruct (Qeq_bool b 0) eqn:E; [|reflexivity].
  apply Qeq_bool_iff in E. contradiction.
Qed.

(** The guard of [calculate_percent_diff] keeps the division away from a
    zero divisor: the call always returns. *)
Lemma calculate_percent_diff_eq (h f : Q) :
  calculate_percent_diff h f = Ok (if gt h 0 then f / h * 100 else 0).
Proof.
  unfold calculate_percent_diff.
  destruct (gt h 0) eqn:E; [|reflexivity].
  apply gt_true in E.
  rewrite truediv_nonzero; [reflexivity|].
  intros H0. rewrite H0 in E. now apply Qlt_irrefl in E.
Qed.

Lemma guarded_max (l : list Q) :
  (if (0 <? List.length l)%nat then builtin_max l else Ok 0)
  = Ok (match l with [] => 0 | p :: x => max_from p x end).
Proof. destruct l; reflexivity. Qed.

Lemma guarded_min (l : list Q) :
  (if (0 <? List.length l)%nat then builtin_min l else Ok 0)
  = Ok (match l with [] => 0 | p :: x => min_from p x end).
Proof. destruct l; reflexivity. Qed.

Lemma guarded_mean (l : list Q) :
  (if (0 <? List.length l)%nat then series_mean l else Ok 0)
  = Ok (match l with [] => 0 | p :: x => builtin_sum (p :: x) / len (p :: x) end).
Proof.
  destruct l as [|p x]; [reflexivity|].
  change (0 <? List.length (p :: x))%nat with true. cbv iota.
  unfold series_mean. apply truediv_nonzero.
  intros H. pose proof (len_pos p x) as Hl. rewrite H in Hl.
  now apply Qlt_irrefl in Hl.
Qed.

Lemma calc_row_facts (mode : string) (ku ke kg : Q) (row : MergedRow) :
  exists c, calc_row mode ku ke kg row = Ok c /\ calc_facts mode ku ke kg row c.
Proof.
  unfold calc_row. cbv zeta.
  rewrite guarded_max, guarded_min, guarded_mean. cbn [bind].
  rewrite !calculate_percent_diff_eq. cbn [bind].
  eexists. split; [reflexivity|].
  constructor; try reflexivity; intros []; reflexivity.
Qed.

Lemma calculate_strategy_dataframe_facts (df : list MergedRow) (mode : string)
    (ku ke kg : Q) :
  exists out,
    calculate_strategy_dataframe df mode ku ke kg = Ok (out, hedef_aciklama mode) /\
    Forall2 (calc_facts mode ku ke kg) df out.
Proof.
  unfold calculate_strategy_dataframe.
  destruct (mapM_total (calc_row mode ku ke kg) df) as [out [Hout HF]].
  { intros row _. destruct (calc_row_facts mode ku ke kg row) as [c [Hc _]]. eauto. }
  exists out. rewrite Hout. split; [reflexivity|].
  clear Hout.
  induction HF as [|row c df out Hc _ IH]; [constructor|].
  constructor; [|exact IH].
  destruct (calc_row_facts mode ku ke kg row) as [c' [Hc' Hf]].
  congruence.
Qed.

Section Facts.
Variables (mode : string) (ku ke kg : Q) (row : MergedRow) (c : CalcRow).
Hypothesis F : calc_facts mode ku ke kg row c.

Lemma facts_norm :
  normalized ku ke kg row = map (fun m => fiyat_norm m c) pazarlar.
Proof.
  unfold normalized, pazarlar. simpl.
  now rewrite (cf_kayit _ _ _ _ _ _ F), (cf_usd _ _ _ _ _ _ F),
    (cf_eur _ _ _ _ _ _ F), (cf_gbp _ _ _ _ _ _ F).
Qed.

Lemma facts_available :
  fiyatlar_listesi c = available (normalized ku ke kg row).
Proof.
  rewrite (cf_liste _ _ _ _ _ _ F). unfold available.
  apply filter_ext. intros p.
  destruct (Qlt_le_dec 0 p) as [H | H].
  - now apply gt_true.
  - now apply gt_false.
Qed.

Lemma facts_in_liste (p : Q) :
  In p (fiyatlar_listesi c) <-> (exists m, fiyat_norm m c = p) /\ 0 < p.
Proof.
  rewrite (cf_liste _ _ _ _ _ _ F), filter_In, gt_true, facts_norm, in_map_iff.
  split; intros [[m Hm] Hp]; (split; [|exact Hp]).
  - exists m. tauto.
  - exists m. split; [tauto|]. unfold pazarlar. destruct m; simpl; tauto.
Qed.

Lemma facts_empty_nonpos :
  fiyatlar_listesi c = [] -> forall m, fiyat_norm m c <= 0.
Proof.
  intros He m. apply Qnot_lt_le. intros Hp.
  assert (Hin : In (fiyat_norm m c) (fiyatlar_listesi c)).
  { apply facts_in_liste. split; [now exists m | exact Hp]. }
  rewrite He in Hin. exact Hin.
Qed.

Lemma facts_nonpos_empty :
  (forall m, fiyat_norm m c <= 0) -> fiyatlar_listesi c = [].
Proof.
  intros H. destruct (fiyatlar_listesi c) as [|p x] eqn:E; [reflexivity|]. exfalso.
  assert (Hp : In p (fiyatlar_listesi c)) by (rewrite E; now left).
  apply facts_in_liste in Hp. destruct Hp as [[m Hm] Hp].
  rewrite <- Hm in Hp. apply (Qlt_not_le _ _ Hp (H m)).
Qed.

Lemma facts_zero_prices :
  fiyat_tl (kayit c) == 0 /\ fiyat_usd (kayit c) == 0 /\
  fiyat_eur (kayit c) == 0 /\ fiyat_gbp (kayit c) == 0 ->
  forall m, fiyat_norm m c == 0.
Proof.
  intros [Htr [Hus [Hde Huk]]] m. destruct m; simpl.
  - exact Htr.
  - rewrite (cf_usd _ _ _ _ _ _ F), <- (cf_kayit _ _ _ _ _ _ F), Hus. ring.
  - rewrite (cf_eur _ _ _ _ _ _ F), <- (cf_kayit _ _ _ _ _ _ F), Hde. ring.
  - rewrite (cf_gbp _ _ _ _ _ _ F), <- (cf_kayit _ _ _ _ _ _ F), Huk. ring.
Qed.

Lemma facts_hedef_empty : fiyatlar_listesi c = [] -> hedef_fiyat_tl c = 0.
Proof.
  intros He.
  rewrite (cf_hedef _ _ _ _ _ _ F), (cf_max _ _ _ _ _ _ F),
    (cf_min _ _ _ _ _ _ F), (cf_mean _ _ _ _ _ _ F), He.
  destruct (mode =? "MAX")%string, (mode =? "MIN")%string; reflexivity.
Qed.

Lemma facts_hedef_max :
  mode = "MAX"%string -> fiyatlar_listesi c <> [] ->
  is_max (hedef_fiyat_tl c) (fiyatlar_listesi c).
Proof.
  intros Hm Hne.
  rewrite (cf_hedef _ _ _ _ _ _ F), (cf_max _ _ _ _ _ _ F), Hm.
  change ("MAX" =? "MAX")%string with true. cbv iota.
  destruct (fiyatlar_listesi c) as [|p x]; [congruence|].
  apply max_from_is_max.
Qed.

Lemma facts_hedef_min :
  mode = "MIN"%string -> fiyatlar_listesi c <> [] ->
  is_min (hedef_fiyat_tl c) (fiyatlar_listesi c).
Proof.
  intros Hm Hne.
  rewrite (cf_hedef _ _ _ _ _ _ F), (cf_min _ _ _ _ _ _ F), Hm.
  change ("MIN" =? "MAX")%string with false.
  change ("MIN" =? "MIN")%string with true. cbv iota.
  destruct (fiyatlar_listesi c) as [|p x]; [congruence|].
  apply min_from_is_min.
Qed.

(** Every mode other than "MAX" and "MIN" takes the mean. *)
Lemma facts_hedef_mean :
  mode <> "MAX"%string -> mode <> "MIN"%string -> fiyatlar_listesi c <> [] ->
  is_mean (hedef_fiyat_tl c) (fiyatlar_listesi c).
Proof.
  intros H1 H2 Hne.
  rewrite (cf_hedef _ _ _ _ _ _ F), (cf_mean _ _ _ _ _ _ F).
  apply String.eqb_neq in H1, H2. rewrite H1, H2.
  destruct (fiyatlar_listesi c) as [|p x]; [congruence|].
  unfold is_mean. reflexivity.
Qed.

Lemma facts_hedef_pos : fiyatlar_listesi c <> [] -> 0 < hedef_fiyat_tl c.
Proof.
  intros Hne.
  assert (Hpos : forall p, In p (fiyatlar_listesi c) -> 0 < p).
  { intros p Hp. now apply facts_in_liste in Hp. }
  destruct (String.eqb_spec mode "MAX") as [H1 | H1].
  { apply Hpos. now apply facts_hedef_max. }
  destruct (String.eqb_spec mode "MIN") as [H2 | H2].
  { apply Hpos. now apply facts_hedef_min. }
  pose proof (facts_hedef_mean H1 H2 Hne) as Hmean. unfold is_mean in Hmean.
  rewrite Hmean.
  destruct (fiyatlar_listesi c) as [|p x]; [congruence|].
  now apply mean_pos.
Qed.

Lemma facts_hedef_nonneg : 0 <= hedef_fiyat_tl c.
Proof.
  destruct (fiyatlar_listesi c) as [|p x] eqn:E.
  - rewrite (facts_hedef_empty E). apply Qle_refl.
  - apply Qlt_le_weak, facts_hedef_pos. congruence.
Qed.

Lemma facts_yuzde_zero :
  hedef_fiyat_tl c <= 0 -> forall m, fark_yuzde m c = 0.
Proof.
  intros H m. rewrite (cf_yuzde _ _ _ _ _ _ F).
  apply gt_false in H. now rewrite H.
Qed.

Lemma facts_yuzde_pos :
  0 < hedef_fiyat_tl c ->
  forall m, fark_yuzde m c = fark m c / hedef_fiyat_tl c * 100.
Proof.
  intros H m. rewrite (cf_yuzde _ _ _ _ _ _ F).
  apply gt_true in H. now rewrite H.
Qed.
Lemma facts_row_link : row_link ku ke kg row c.
Proof.
  split; [exact (cf_kayit _ _ _ _ _ _ F)|].
  split; [symmetry; exact facts_norm | exact facts_available].
Qed.

Lemma facts_target_of_mode : target_of_mode mode c.
Proof.
  split; [exact facts_hedef_empty|].
  intros Hne. split; [|split].
  - intros Hm. now apply facts_hedef_max.
  - intros Hm. now apply facts_hedef_min.
  - intros H1 H2. now apply facts_hedef_mean.
Qed.
End Facts.

(** ** The strategy engine, frame by frame *)

Lemma Forall2_impl {A B : Type} (P Q : A -> B -> Prop) (l : list A) (l' : list B) :
  (forall a b, P a b -> Q a b) -> Forall2 P l l' -> Forall2 Q l l'.
Proof. intros H HF. induction HF; constructor; auto. Qed.

Lemma Forall2_right {A B : Type} (P : A -> B -> Prop) (Q : B -> Prop)
    (l : list A) (l' : list B) :
  (forall a b, P a b -> Q b) -> Forall2 P l l' -> Forall Q l'.
Proof. intros H HF. induction HF; constructor; eauto. Qed.

(** C1: for every reconciled record and every strategy mode in MAX, MIN,
    MEAN, the strategy engine returns, and in the row it computes the list of
    available prices is exactly the normalized prices strictly greater than 0,
    the target price is their maximum under MAX, their minimum under MIN and
    their arithmetic mean under MEAN, and the target price is 0 when the list
    is empty. *)
Theorem target_price_by_mode (df : list MergedRow) (mode : string) (ku ke kg : Q) :
  In mode modes ->
  exists out aciklama,
    calculate_strategy_dataframe df mode ku ke kg = Ok (out, aciklama) /\
    Forall2 (target_ok mode ku ke kg) df out.
Proof.
  intros Hmode.
  destruct (calculate_strategy_dataframe_facts df mode ku ke kg) as [out [Hout HF]].
  exists out, (hedef_aciklama mode). split; [exact Hout|].
  revert HF. apply Forall2_impl. intros row c F.
  split; [exact (cf_kayit _ _ _ _ _ _ F)|].
  split; [exact (facts_available _ _ _ _ _ _ F)|].
  split; [exact (facts_hedef_empty _ _ _ _ _ _ F)|].
  intros Hne. split; [|split].
  - intros Hm. now apply (facts_hedef_max _ _ _ _ _ _ F).
  - intros Hm. now apply (facts_hedef_min _ _ _ _ _ _ F).
  - intros Hm. apply (facts_hedef_mean _ _ _ _ _ _ F); [| |exact Hne];
      rewrite Hm; discriminate.
Qed.

Lemma target_price_by_mode_witness :
  In "MAX"%string modes /\
  exists out aciklama,
    calculate_strategy_dataframe [grand_plaza] "MAX" 35 37 43 = Ok (out, aciklama) /\
    Forall2 (target_ok "MAX" 35 37 43) [grand_plaza] out.
Proof.
  split.
  - left. reflexivity.
  - apply (target_price_by_mode [grand_plaza] "MAX" 35 37 43). left. reflexivity.
Defined.

(** The end-to-end scenario: the normalized prices are 3000, 2800, 2775 and
    2795, and the MAX target is 3000. *)
Example grand_plaza_max :
  exists c aciklama,
    calculate_strategy_dataframe [grand_plaza] "MAX" 35 37 43 = Ok ([c], aciklama) /\
    fiyatlar_listesi c = [3000; 80 * 35; 75 * 37; 65 * 43] /\
    hedef_fiyat_tl c = 3000 /\
    fark_yuzde TR c == 0 /\ fark_yuzde US c == - (20 # 3) /\
    fark_yuzde DE c == - (15 # 2) /\ fark_yuzde UK c == - (41 # 6).
Proof.
  do 2 eexists. split; [vm_compute; reflexivity|].
  repeat split.
Qed.

(** C2, as the specification states it, fails under MEAN: for the prices 100
    and 300 the target is 200, which is neither an available price nor 0. *)
Lemma target_member_fails_for_mean :
  exists c aciklama,
    calculate_strategy_dataframe [iki_fiyat] "MEAN" 100 1 1 = Ok ([c], aciklama) /\
    fiyatlar_listesi c = [100; 3 * 100] /\
    hedef_fiyat_tl c == 200 /\
    ~ target_member c.
Proof.
  do 2 eexists. split; [vm_compute; reflexivity|].
  split; [reflexivity|]. split; [reflexivity|].
  intros [[p [Hp Heq]] | H0].
  - simpl in Hp. destruct Hp as [<- | [<- | []]]; vm_compute in Heq; discriminate.
  - vm_compute in H0. discriminate.
Qed.

(** C2, amended: the engine returns one row for each record, carrying the
    record, its normalized prices and, as available prices, those of them
    strictly greater than 0; under MAX and MIN the target price of the row is
    an element of the available prices, or 0 when there is none; under MEAN
    it is 0 when there is none and otherwise the arithmetic mean of the
    available prices; and if the list of available prices is empty then
    every market's deviation percent is exactly 0. *)
Theorem target_member_or_mean_all (df : list MergedRow) (mode : string) (ku ke kg : Q) :
  exists out aciklama,
    calculate_strategy_dataframe df mode ku ke kg = Ok (out, aciklama) /\
    Forall2 (target_member_or_mean mode ku ke kg) df out.
Proof.
  destruct (calculate_strategy_dataframe_facts df mode ku ke kg) as [out [Hout HF]].
  exists out, (hedef_aciklama mode). split; [exact Hout|].
  revert HF. apply Forall2_impl. intros row c F.
  split; [exact (facts_row_link _ _ _ _ _ _ F)|].
  split; [|split].
  - intros Hm.
    destruct (fiyatlar_listesi c) as [|p x] eqn:E.
    + right. split; [reflexivity|]. exact (facts_hedef_empty _ _ _ _ _ _ F E).
    + left. rewrite <- E.
      assert (Hne : fiyatlar_listesi c <> []) by congruence.
      destruct Hm as [Hm | Hm].
      * now apply (facts_hedef_max _ _ _ _ _ _ F Hm Hne).
      * now apply (facts_hedef_min _ _ _ _ _ _ F Hm Hne).
  - intros Hm.
    destruct (fiyatlar_listesi c) as [|p x] eqn:E.
    + left. split; [reflexivity|]. exact (facts_hedef_empty _ _ _ _ _ _ F E).
    + right. rewrite <- E.
      assert (Hne : fiyatlar_listesi c <> []) by congruence.
      assert (H1 : mode <> "MAX"%string) by (rewrite Hm; discriminate).
      assert (H2 : mode <> "MIN"%string) by (rewrite Hm; discriminate).
      split; [exact Hne|].
      exact (facts_hedef_mean _ _ _ _ _ _ F H1 H2 Hne).
  - intros He. apply (facts_yuzde_zero _ _ _ _ _ _ F).
    rewrite (facts_hedef_empty _ _ _ _ _ _ F He). apply Qle_refl.
Qed.

Lemma target_member_or_mean_all_witness :
  exists out aciklama,
    calculate_strategy_dataframe [iki_fiyat; fiyatsiz] "MEAN" 100 1 1 = Ok (out, aciklama) /\
    Forall2 (target_member_or_mean "MEAN" 100 1 1) [iki_fiyat; fiyatsiz] out.
Proof. exact (target_member_or_mean_all [iki_fiyat; fiyatsiz] "MEAN" 100 1 1). Defined.

(** C4: the engine returns, with no division meeting a zero divisor, one
    row for each record, carrying the record, its normalized prices and
    its target by mode; in that row, for every market, the deviation amount
    is the normalized price minus the target price; the deviation percent is
    the amount divided by the target times 100 when the target is above 0
    and exactly 0 when the target is 0, in particular when all four prices of
    the record are 0; and the target is never negative. *)
Theorem deviation_never_divides_by_zero (df : list MergedRow) (mode : string)
    (ku ke kg : Q) :
  exists out aciklama,
    calculate_strategy_dataframe df mode ku ke kg = Ok (out, aciklama) /\
    List.length out = List.length df /\
    Forall2 (deviation_ok mode ku ke kg) df out.
Proof.
  destruct (calculate_strategy_dataframe_facts df mode ku ke kg) as [out [Hout HF]].
  exists out, (hedef_aciklama mode). split; [exact Hout|].
  split; [symmetry; exact (Forall2_length HF)|].
  revert HF. apply Forall2_impl. intros row c F.
  assert (Hz : hedef_fiyat_tl c == 0 -> forall m, fark_yuzde m c = 0).
  { intros H0. apply (facts_yuzde_zero _ _ _ _ _ _ F). rewrite H0. apply Qle_refl. }
  split; [exact (facts_row_link _ _ _ _ _ _ F)|].
  split; [exact (facts_target_of_mode _ _ _ _ _ _ F)|].
  split; [exact (facts_hedef_nonneg _ _ _ _ _ _ F)|].
  split; [exact (cf_fark _ _ _ _ _ _ F)|].
  split; [exact (facts_yuzde_pos _ _ _ _ _ _ F)|].
  split; [exact Hz|].
  intros Hzero. rewrite <- (cf_kayit _ _ _ _ _ _ F) in Hzero.
  assert (He : fiyatlar_listesi c = []).
  { apply (facts_nonpos_empty _ _ _ _ _ _ F). intros m.
    rewrite (facts_zero_prices _ _ _ _ _ _ F Hzero m). apply Qle_refl. }
  pose proof (facts_hedef_empty _ _ _ _ _ _ F He) as H0.
  split; [exact H0|]. apply Hz. rewrite H0. reflexivity.
Qed.

Lemma deviation_never_divides_by_zero_witness :
  exists out aciklama,
    calculate_strategy_dataframe [fiyatsiz; grand_plaza] "MIN" 35 37 43 = Ok (out, aciklama) /\
    List.length out = List.length [fiyatsiz; grand_plaza] /\
    Forall2 (deviation_ok "MIN" 35 37 43) [fiyatsiz; grand_plaza] out.
Proof. exact (deviation_never_divides_by_zero [fiyatsiz; grand_plaza] "MIN" 35 37 43). Defined.

(** The record with no price: target 0 and every percent 0. *)
Example fiyatsiz_mean :
  exists c aciklama,
    calculate_strategy_dataframe [fiyatsiz] "MEAN" 35 37 43 = Ok ([c], aciklama) /\
    hedef_fiyat_tl c = 0 /\ forall m, fark_yuzde m c = 0.
Proof.
  do 2 eexists. split; [vm_compute; reflexivity|].
  split; [reflexivity|]. intros []; reflexivity.
Qed.

(** C8: under the MAX strategy the engine returns one row for each record,
    carrying the record and its normalized prices; in that row the target
    price is the maximum of the available prices (0 when there is none), the
    deviation amount of a market is its normalized price minus the target,
    and at least one market's deviation amount is at most 0: the market that
    achieves the maximum has deviation 0, and when no price is available
    (all four prices 0 or, more generally, no normalized price above 0 and
    none below) every market's deviation is 0. *)
Theorem max_target_deviation (df : list MergedRow) (ku ke kg : Q) :
  exists out aciklama,
    calculate_strategy_dataframe df "MAX" ku ke kg = Ok (out, aciklama) /\
    Forall2 (max_target_ok ku ke kg) df out.
Proof.
  destruct (calculate_strategy_dataframe_facts df "MAX" ku ke kg) as [out [Hout HF]].
  exists out, (hedef_aciklama "MAX"). split; [exact Hout|].
  revert HF. apply Forall2_impl. intros row c F.
  assert (Hach : fiyatlar_listesi c <> [] ->
                 exists m, fiyat_norm m c = hedef_fiyat_tl c /\ fark m c == 0).
  { intros Hne.
    destruct (facts_hedef_max _ _ _ _ _ _ F eq_refl Hne) as [Hin _].
    apply (facts_in_liste _ _ _ _ _ _ F) in Hin. destruct Hin as [[m Hm] _].
    exists m. split; [exact Hm|].
    rewrite (cf_fark _ _ _ _ _ _ F), Hm. ring. }
  split; [exact (facts_row_link _ _ _ _ _ _ F)|].
  split; [exact (cf_fark _ _ _ _ _ _ F)|].
  split; [exact (facts_hedef_max _ _ _ _ _ _ F eq_refl)|].
  split; [exact (facts_hedef_empty _ _ _ _ _ _ F)|].
  split; [|split; [exact Hach|split]].
  - destruct (fiyatlar_listesi c) as [|p x] eqn:E.
    + exists TR. rewrite (cf_fark _ _ _ _ _ _ F), (facts_hedef_empty _ _ _ _ _ _ F E).
      pose proof (facts_empty_nonpos _ _ _ _ _ _ F E TR). lra.
    + destruct Hach as [m [_ Hm]]; [congruence|].
      exists m. rewrite Hm. apply Qle_refl.
  - intros He Hnn m.
    rewrite (cf_fark _ _ _ _ _ _ F), (facts_hedef_empty _ _ _ _ _ _ F He).
    pose proof (facts_empty_nonpos _ _ _ _ _ _ F He m).
    pose proof (Hnn m). lra.
  - intros Hzero m. rewrite <- (cf_kayit _ _ _ _ _ _ F) in Hzero.
    pose proof (facts_zero_prices _ _ _ _ _ _ F Hzero) as Hz.
    assert (He : fiyatlar_listesi c = []).
    { apply (facts_nonpos_empty _ _ _ _ _ _ F). intros m'.
      rewrite (Hz m'). apply Qle_refl. }
    rewrite (cf_fark _ _ _ _ _ _ F), (facts_hedef_empty _ _ _ _ _ _ F He), (Hz m).
    ring.
Qed.

Lemma max_target_deviation_witness :
  exists out aciklama,
    calculate_strategy_dataframe [grand_plaza; fiyatsiz] "MAX" 35 37 43 = Ok (out, aciklama) /\
    Forall2 (max_target_ok 35 37 43) [grand_plaza; fiyatsiz] out.
Proof. exact (max_target_deviation [grand_plaza; fiyatsiz] 35 37 43). Defined.

(** ** Stable sorting *)

Section StableSortFacts.
Context {A : Type} (le : A -> A -> bool).

Lemma insert_perm (a : A) (l : list A) : Permutation (insert le a l) (a :: l).
Proof.
  induction l as [|b l IH]; simpl.
  - apply Permutation_refl.
  - destruct (le a b).
    + apply Permutation_refl.
    + eapply Permutation_trans; [apply perm_skip, IH | apply perm_swap].
Qed.

Lemma sort_perm (l : list A) : Permutation (sort le l) l.
Proof.
  induction l as [|a l IH]; simpl.
  - apply perm_nil.
  - eapply Permutation_trans; [apply insert_perm | apply perm_skip, IH].
Qed.

Lemma sort_in (l : list A) (x : A) : In x (sort le l) <-> In x l.
Proof.
  split; apply Permutation_in; [|apply Permutation_sym]; apply sort_perm.
Qed.

Lemma sort_length (l : list A) : List.length (sort le l) = List.length l.
Proof. apply Permutation_length, sort_perm. Qed.

(** An item goes behind those that are strictly in front of it only: the
    items selected by a test that never holds of both keep their order. *)
Lemma insert_filter (P : A -> bool) (a : A) (l : list A) :
  (forall b, le a b = false -> P a = true -> P b = false) ->
  filter P (insert le a l) = filter P (a :: l).
Proof.
  intros H. induction l as [|b l IH]; [reflexivity|].
  simpl insert. destruct (le a b) eqn:E; [reflexivity|].
  simpl filter in *. rewrite IH.
  pose proof (H b E) as Hb.
  destruct (P a); [|reflexivity].
  now rewrite Hb.
Qed.

Lemma sort_filter (P : A -> bool) (l : list A) :
  (forall a b, le a b = false -> P a = true -> P b = false) ->
  filter P (sort le l) = filter P l.
Proof.
  intros H. induction l as [|a l IH]; [reflexivity|].
  simpl sort. rewrite insert_filter by (apply H).
  simpl. now rewrite IH.
Qed.

Hypothesis le_total : forall a b, le a b = true \/ le b a = true.
Hypothesis le_trans : forall a b c, le a b = true -> le b c = true -> le a c = true.

Lemma insert_sorted (a : A) (l : list A) :
  StronglySorted (fun x y => le x y = true) l ->
  StronglySorted (fun x y => le x y = true) (insert le a l).
Proof.
  induction 1 as [|b l Hs IH Hb]; simpl.
  - constructor; constructor.
  - destruct (le a b) eqn:E.
    + constructor; [constructor; assumption|].
      constructor; [exact E|].
      rewrite Forall_forall in *. intros x Hx. apply (le_trans a b x E). now apply Hb.
    + constructor; [exact IH|].
      rewrite Forall_forall in *. intros x Hx.
      apply (Permutation_in _ (insert_perm a l)) in Hx.
      destruct Hx as [<- | Hx]; [|now apply Hb].
      destruct (le_total a b) as [H | H]; [congruence | exact H].
Qed.

Lemma sort_sorted (l : list A) :
  StronglySorted (fun x y => le x y = true) (sort le l).
Proof.
  induction l as [|a l IH]; simpl.
  - constructor.
  - now apply insert_sorted.
Qed.
End StableSortFacts.

(** ** The outer join *)

Import Merge.

Lemma key_eqb_eq (a b : Key) : key_eqb a b = true <-> a = b.
Proof.
  destruct a as [a1 a2], b as [b1 b2]. unfold key_eqb. simpl.
  rewrite andb_true_iff, !String.eqb_eq.
  split; [intros [-> ->]; reflexivity | intros [= -> ->]; split; reflexivity].
Qed.

Lemma key_eq_dec (a b : Key) : {a = b} + {a <> b}.
Proof. decide equality; apply string_dec. Qed.

Lemma pazar_eq_dec (a b : Pazar) : {a = b} + {a <> b}.
Proof. decide equality. Qed.

Lemma existsb_key (k : Key) (l : list Key) :
  existsb (key_eqb k) l = true <-> In k l.
Proof.
  rewrite existsb_exists. split.
  - intros [x [Hx Hk]]. apply key_eqb_eq in Hk. now subst.
  - intros H. exists k. split; [exact H | now apply key_eqb_eq].
Qed.

Lemma in_keys {A : Type} (k : Key) (f : Frame A) :
  In k (keys f) <-> exists a, In (k, a) f.
Proof.
  unfold keys. rewrite in_map_iff. split.
  - intros [[k' a] [Hk H]]. simpl in Hk. subst. now exists a.
  - intros [a H]. now exists (k, a).
Qed.

Section PdMergeFacts.
Context {A B : Type} (na : A).

Lemma in_matches (k : Key) (right : Frame B) (b : B) :
  In b (matches k right) <-> In (k, b) right.
Proof.
  unfold matches. rewrite in_map_iff. split.
  - intros [[k' b'] [Hb H]]. simpl in Hb. subst.
    apply filter_In in H. destruct H as [H Hk]. simpl in Hk.
    apply key_eqb_eq in Hk. now subst.
  - intros H. exists (k, b). split; [reflexivity|].
    apply filter_In. split; [exact H | now apply key_eqb_eq].
Qed.

Lemma in_left_rows (left : Frame A) (right : Frame B) k a ob :
  In (k, (a, ob)) (left_rows left right) <-> In (k, a) left /\ present k ob right.
Proof.
  unfold left_rows. rewrite in_flat_map. split.
  - intros [[k' a'] [Hl H]]. cbn [fst snd] in H.
    destruct (matches k' right) as [|b0 bs] eqn:E.
    + destruct H as [H | []]. injection H as -> -> <-.
      split; [exact Hl|]. simpl. rewrite in_keys. intros [b Hb].
      apply in_matches in Hb. rewrite E in Hb. exact Hb.
    + cbv iota beta in H. rewrite <- E in H.
      apply in_map_iff in H. destruct H as [b [H Hb]].
      injection H as -> -> <-. split; [exact Hl|]. simpl. now apply in_matches.
  - intros [Hl Hp]. exists (k, a). split; [exact Hl|]. cbn [fst snd].
    destruct ob as [b|]; simpl in Hp.
    + apply in_matches in Hp.
      destruct (matches k right) as [|b0 bs] eqn:E; [destruct Hp|].
      cbv iota beta. rewrite <- E in Hp |- *. apply in_map_iff. now exists b.
    + destruct (matches k right) as [|b0 bs] eqn:E; [now left|].
      exfalso. apply Hp. apply in_keys. exists b0. apply in_matches.
      rewrite E. now left.
Qed.

Lemma in_right_only (left : Frame A) (right : Frame B) k a ob :
  In (k, (a, ob)) (right_only na left right) <->
  a = na /\ ~ In k (keys left) /\ exists b, ob = Some b /\ In (k, b) right.
Proof.
  unfold right_only. rewrite in_map_iff. split.
  - intros [[k' b] [H Hf]]. simpl in H. injection H as -> <- <-.
    apply filter_In in Hf. destruct Hf as [Hr Hk]. simpl in Hk.
    apply negb_true_iff in Hk.
    split; [reflexivity|]. split.
    + intros Hin. apply existsb_key in Hin. congruence.
    + now exists b.
  - intros [-> [Hk [b [-> Hr]]]]. exists (k, b). split; [reflexivity|].
    apply filter_In. split; [exact Hr|]. simpl. apply negb_true_iff.
    destruct (existsb (key_eqb k) (keys left)) eqn:E; [|reflexivity].
    apply existsb_key in E. contradiction.
Qed.

Lemma in_pd_merge_outer (left : Frame A) (right : Frame B) k a ob :
  In (k, (a, ob)) (pd_merge_outer na left right) <->
  (In (k, a) left /\ present k ob right) \/
  (a = na /\ ~ In k (keys left) /\ exists b, ob = Some b /\ In (k, b) right).
Proof.
  unfold pd_merge_outer.
  rewrite sort_in, in_app_iff, in_left_rows, in_right_only. reflexivity.
Qed.

Lemma keys_pd_merge_outer (left : Frame A) (right : Frame B) k :
  In k (keys (pd_merge_outer na left right)) <-> In k (keys left) \/ In k (keys right).
Proof.
  rewrite in_keys. split.
  - intros [[a ob] H]. apply in_pd_merge_outer in H.
    destruct H as [[H _] | [_ [_ [b [_ H]]]]].
    + left. apply in_keys. now exists a.
    + right. apply in_keys. now exists b.
  - intros H.
    destruct (in_dec key_eq_dec k (keys left)) as [Hl | Hl].
    + apply in_keys in Hl. destruct Hl as [a Ha].
      destruct (in_dec key_eq_dec k (keys right)) as [Hr | Hr].
      * apply in_keys in Hr. destruct Hr as [b Hb].
        exists (a, Some b). apply in_pd_merge_outer. left. now split.
      * exists (a, None). apply in_pd_merge_outer. left. now split.
    + destruct H as [H | H]; [contradiction|].
      apply in_keys in H. destruct H as [b Hb].
      exists (na, Some b). apply in_pd_merge_outer. right.
      split; [reflexivity|]. split; [exact Hl|]. now exists b.
Qed.
End PdMergeFacts.

Section MergeStep.
Context {A B : Type} (na : A).
Variables (left : Frame A) (right : Frame B).
Variables (PL : Key -> A -> Prop) (NN : A -> Prop).
Hypothesis left_rows_are : forall k a, In (k, a) left <-> PL k a /\ NN a.
Hypothesis left_absent : forall k, PL k na <-> ~ In k (keys left).
Hypothesis null_or_not : forall a, NN a \/ a = na.

(** One [pd.merge] step, for a left frame whose rows are known. *)
Lemma merge_step k a ob :
  In (k, (a, ob)) (pd_merge_outer na left right) <->
  PL k a /\ present k ob right /\ (NN a \/ ob <> None).
Proof.
  rewrite in_pd_merge_outer, left_rows_are. split.
  - intros [[[H1 H2] H3] | [-> [H1 [b [-> H2]]]]].
    + tauto.
    + split; [now apply left_absent|]. split; [exact H2|]. right. discriminate.
  - intros [H1 [H2 H3]].
    destruct (null_or_not a) as [Hn | ->]; [left; tauto|].
    destruct H3 as [H3 | H3]; [left; tauto|].
    right. split; [reflexivity|]. split; [now apply left_absent|].
    destruct ob as [b|]; [|congruence]. now exists b.
Qed.
End MergeStep.

Lemma has_key_keys (k : Key) (df : list MarketRow) :
  has_key k df <-> In k (keys (frame_of df)).
Proof.
  unfold has_key, keys, frame_of. rewrite map_map. simpl. rewrite in_map_iff.
  split; intros [x H]; exists x; unfold row_key in *; tauto.
Qed.

Lemma in_frame_of (k : Key) (p : Q) (b : Bilgi) (df : list MarketRow) :
  In (k, (p, b)) (frame_of df) <->
  exists x, In x df /\ row_key x = k /\ mr_fiyat x = p /\ mr_bilgi x = b.
Proof.
  unfold frame_of, row_key. rewrite in_map_iff. split.
  - intros [x [H Hx]]. injection H as <- <- <-. exists x. tauto.
  - intros [x [Hx [<- [<- <-]]]]. exists x. tauto.
Qed.

Section JoinAll.
Variables df_tr df_us df_de df_uk : list MarketRow.

Let lifted : Frame (option Obs) :=
  map (fun ko => (fst ko, Some (snd ko))) (frame_of df_tr).

Lemma in_lifted k o :
  In (k, o) lifted <-> present k o (frame_of df_tr) /\ o <> None.
Proof.
  unfold lifted. rewrite in_map_iff. split.
  - intros [[k' b] [H Hin]]. simpl in H. injection H as -> <-.
    split; [exact Hin | discriminate].
  - intros [H Hn]. destruct o as [b|]; [|congruence].
    exists (k, b). split; [reflexivity | exact H].
Qed.

Lemma keys_lifted : keys lifted = keys (frame_of df_tr).
Proof. unfold lifted, keys. rewrite map_map. reflexivity. Qed.

Lemma in_join_all k otr ous ode ouk :
  In (k, (otr, ous, ode, ouk)) (join_all df_tr df_us df_de df_uk) <->
  present k otr (frame_of df_tr) /\ present k ous (frame_of df_us) /\
  present k ode (frame_of df_de) /\ present k ouk (frame_of df_uk) /\
  (otr <> None \/ ous <> None \/ ode <> None \/ ouk <> None).
Proof.
  unfold join_all. fold lifted.
  set (m1 := pd_merge_outer None lifted (frame_of df_us)).
  set (m2 := pd_merge_outer (None, None) m1 (frame_of df_de)).
  assert (H1 : forall k a, In (k, a) m1 <->
            (present k (fst a) (frame_of df_tr) /\ present k (snd a) (frame_of df_us)) /\
            (fst a <> None \/ snd a <> None)).
  { intros k0 [o1 o2]. unfold m1.
    rewrite (merge_step None lifted (frame_of df_us)
               (fun k o => present k o (frame_of df_tr)) (fun o => o <> None)).
    - simpl. tauto.
    - apply in_lifted.
    - intros k1. simpl. now rewrite keys_lifted.
    - intros [o|]; [left; discriminate | now right]. }
  assert (K1 : forall k, In k (keys m1) <->
            In k (keys (frame_of df_tr)) \/ In k (keys (frame_of df_us))).
  { intros k0. unfold m1. now rewrite keys_pd_merge_outer, keys_lifted. }
  assert (H2 : forall k a, In (k, a) m2 <->
            ((present k (fst (fst a)) (frame_of df_tr) /\
              present k (snd (fst a)) (frame_of df_us)) /\
             present k (snd a) (frame_of df_de)) /\
            ((fst (fst a) <> None \/ snd (fst a) <> None) \/ snd a <> None)).
  { intros k0 [[o1 o2] o3]. unfold m2.
    rewrite (merge_step (None, None) m1 (frame_of df_de)
               (fun k a => present k (fst a) (frame_of df_tr) /\
                           present k (snd a) (frame_of df_us))
               (fun a => fst a <> None \/ snd a <> None)).
    - simpl. tauto.
    - exact H1.
    - intros k1. simpl. rewrite K1. tauto.
    - intros [[o|] [o'|]]; simpl;
        try (left; (left + right); discriminate). now right. }
  assert (K2 : forall k, In k (keys m2) <->
            (In k (keys (frame_of df_tr)) \/ In k (keys (frame_of df_us))) \/
            In k (keys (frame_of df_de))).
  { intros k0. unfold m2. now rewrite keys_pd_merge_outer, K1. }
  rewrite (merge_step (None, None, None) m2 (frame_of df_uk)
             (fun k a => (present k (fst (fst a)) (frame_of df_tr) /\
                          present k (snd (fst a)) (frame_of df_us)) /\
                         present k (snd a) (frame_of df_de))
             (fun a => (fst (fst a) <> None \/ snd (fst a) <> None) \/ snd a <> None)).
  - simpl. tauto.
  - exact H2.
  - intros k1. simpl. rewrite K2. tauto.
  - intros [[[o|] [o'|]] [o''|]]; simpl;
      try (left; first [left; left; discriminate | left; right; discriminate
                       | right; discriminate]).
    now right.
Qed.

Lemma keys_join_all k :
  In k (keys (join_all df_tr df_us df_de df_uk)) <->
  any_key df_tr df_us df_de df_uk k.
Proof.
  unfold join_all, Genis. cbv zeta. fold lifted.
  rewrite !keys_pd_merge_outer, keys_lifted, <- !has_key_keys.
  unfold any_key. split.
  - intros [[[H | H] | H] | H];
      [exists TR | exists US | exists DE | exists UK]; exact H.
  - intros [[] H]; simpl in H; tauto.
Qed.
End JoinAll.

(** ** [merge_dataframes] *)

Section MergeFacts.
Variable to_datetime : string -> option Timestamp.
Variables df_tr df_us df_de df_uk : list MarketRow.

Let merged := merge_dataframes to_datetime df_tr df_us df_de df_uk.

Lemma in_merged (r : MergedRow) :
  In r merged <->
  exists k g, In (k, g) (join_all df_tr df_us df_de df_uk) /\
              r = fill_row (with_date to_datetime (k, g)).
Proof.
  unfold merged, merge_dataframes. rewrite in_map_iff. split.
  - intros [t [<- Ht]]. apply sort_in in Ht. apply in_map_iff in Ht.
    destruct Ht as [[k g] [<- Hkg]]. now exists k, g.
  - intros [k [g [Hkg ->]]]. exists (with_date to_datetime (k, g)).
    split; [reflexivity|]. apply sort_in. apply in_map_iff. now exists (k, g).
Qed.

Lemma merged_length :
  List.length merged = List.length (join_all df_tr df_us df_de df_uk).
Proof.
  unfold merged, merge_dataframes.
  now rewrite length_map, sort_length, length_map.
Qed.

Lemma present_cell (k : Key) (o : option Obs) (df : list MarketRow) :
  present k o (frame_of df) ->
  cell_ok k df (fillna (option_map fst o)) (option_map snd o).
Proof.
  destruct o as [[p b]|]; simpl; intros H.
  - left. apply in_frame_of in H. destruct H as [x [H1 [H2 [H3 H4]]]].
    exists x. subst. auto.
  - right. rewrite has_key_keys. auto.
Qed.

(** The merged row of a joined row. *)
Lemma merged_row_cells k otr ous ode ouk :
  In (k, (otr, ous, ode, ouk)) (join_all df_tr df_us df_de df_uk) ->
  let r := fill_row (with_date to_datetime (k, (otr, ous, ode, ouk))) in
  In r merged /\ otel r = fst k /\ checkin r = to_datetime (snd k) /\
  any_key df_tr df_us df_de df_uk k /\
  forall m, cell_ok k (market m df_tr df_us df_de df_uk) (fiyat m r) (bilgi m r).
Proof.
  intros Hin r.
  split; [apply in_merged; now exists k, (otr, ous, ode, ouk)|].
  split; [reflexivity|]. split; [reflexivity|].
  split; [apply keys_join_all, in_keys; eauto|].
  apply in_join_all in Hin. destruct Hin as [H1 [H2 [H3 [H4 _]]]].
  intros []; simpl; now apply present_cell.
Qed.

Lemma market_row_merged (m : Pazar) (x : MarketRow) :
  In x (market m df_tr df_us df_de df_uk) ->
  exists r, In r merged /\ otel r = mr_otel x /\
            checkin r = to_datetime (mr_checkin x) /\
            fiyat m r = mr_fiyat x /\ bilgi m r = Some (mr_bilgi x) /\
            forall m', ~ has_key (row_key x) (market m' df_tr df_us df_de df_uk) ->
                       fiyat m' r = 0.
Proof.
  intros Hx.
  assert (Hc : forall m', exists o,
             present (row_key x) o (frame_of (market m' df_tr df_us df_de df_uk)) /\
             (m' = m -> o = Some (mr_fiyat x, mr_bilgi x)) /\
             (~ has_key (row_key x) (market m' df_tr df_us df_de df_uk) -> o = None)).
  { intros m'. destruct (pazar_eq_dec m' m) as [-> | Hne].
    - exists (Some (mr_fiyat x, mr_bilgi x)). split; [|split].
      + simpl. apply in_frame_of. now exists x.
      + reflexivity.
      + intros Hn. exfalso. apply Hn. now exists x.
    - destruct (in_dec key_eq_dec (row_key x)
                  (keys (frame_of (market m' df_tr df_us df_de df_uk)))) as [Hk | Hk].
      + apply in_keys in Hk. destruct Hk as [b Hb].
        exists (Some b). split; [exact Hb|]. split; [contradiction|].
        intros Hn. exfalso. apply Hn, has_key_keys, in_keys. now exists b.
      + exists None. split; [exact Hk|]. split; [contradiction | reflexivity]. }
  destruct (Hc TR) as [otr [Ptr [Itr Ntr]]].
  destruct (Hc US) as [ous [Pus [Ius Nus]]].
  destruct (Hc DE) as [ode [Pde [Ide Nde]]].
  destruct (Hc UK) as [ouk [Puk [Iuk Nuk]]].
  simpl in Ptr, Pus, Pde, Puk, Ntr, Nus, Nde, Nuk.
  assert (Hin : In (row_key x, (otr, ous, ode, ouk)) (join_all df_tr df_us df_de df_uk)).
  { apply in_join_all. repeat (split; [assumption|]).
    destruct m;
      [rewrite (Itr eq_refl) | rewrite (Ius eq_refl)
      | rewrite (Ide eq_refl) | rewrite (Iuk eq_refl)];
      [left | right; left | right; right; left | right; right; right];
      discriminate. }
  destruct (merged_row_cells _ _ _ _ _ Hin) as [Hr [Ho [Hd _]]].
  eexists. split; [exact Hr|]. split; [exact Ho|]. split; [exact Hd|].
  split; [|split].
  - destruct m; simpl;
      [rewrite (Itr eq_refl) | rewrite (Ius eq_refl)
      | rewrite (Ide eq_refl) | rewrite (Iuk eq_refl)];
      reflexivity.
  - destruct m; simpl;
      [rewrite (Itr eq_refl) | rewrite (Ius eq_refl)
      | rewrite (Ide eq_refl) | rewrite (Iuk eq_refl)];
      reflexivity.
  - intros [] Hn; simpl in Hn |- *;
      [rewrite (Ntr Hn) | rewrite (Nus Hn) | rewrite (Nde Hn) | rewrite (Nuk Hn)];
      reflexivity.
Qed.
End MergeFacts.

(** C5: the merge of the four market frames is a full outer join on the key
    (hotel, check-in): the keys of the join are exactly the union of the keys
    of the four frames, and so are the keys of the merged frame once the
    check-in of each key is converted to a date; every merged row carries,
    market by market, the cells of a market row with its key or, where the
    market has none, the price 0; and a key that only one market has is in
    the merged frame with the prices of the other three markets 0. *)
Theorem merge_is_outer_join (to_datetime : string -> option Timestamp)
    (df_tr df_us df_de df_uk : list MarketRow) :
  outer_join_ok to_datetime df_tr df_us df_de df_uk
    (merge_dataframes to_datetime df_tr df_us df_de df_uk).
Proof.
  unfold outer_join_ok. cbv zeta.
  split; [apply keys_join_all|]. split; [|split].
  - intros h d. split.
    + intros [r [Hr [Ho Hd]]]. apply in_merged in Hr.
      destruct Hr as [[h' c] [[[[otr ous] ode] ouk] [Hin ->]]].
      destruct (merged_row_cells to_datetime _ _ _ _ _ _ _ _ _ Hin) as [_ [_ [_ [Ha _]]]].
      simpl in Ho, Hd. subst. now exists c.
    + intros [c [Ha Hd]]. apply keys_join_all, in_keys in Ha.
      destruct Ha as [[[[otr ous] ode] ouk] Hin].
      destruct (merged_row_cells to_datetime _ _ _ _ _ _ _ _ _ Hin) as [Hr [Ho [Hc _]]].
      eexists. split; [exact Hr|]. split; [exact Ho | now rewrite Hc].
  - intros r Hr. apply in_merged in Hr.
    destruct Hr as [[h c] [[[[otr ous] ode] ouk] [Hin ->]]].
    destruct (merged_row_cells to_datetime _ _ _ _ _ _ _ _ _ Hin) as [_ [_ [_ [Ha Hc]]]].
    exists c. split; [exact Ha|]. split; [reflexivity | exact Hc].
  - intros k m [x [Hx <-]] Honly.
    destruct (market_row_merged to_datetime _ _ _ _ m x Hx)
      as [r [Hr [Ho [Hd [_ [_ Hz]]]]]].
    exists r. split; [exact Hr|]. split; [exact Ho|]. split; [exact Hd|].
    intros m' Hm'. apply Hz. now apply Honly.
Qed.

Lemma merge_is_outer_join_witness :
  outer_join_ok iso_date [tarihsiz; plaza_tr] [plaza_us] [] []
    (merge_dataframes iso_date [tarihsiz; plaza_tr] [plaza_us] [] []).
Proof. exact (merge_is_outer_join iso_date [tarihsiz; plaza_tr] [plaza_us] [] []). Defined.

(** A key that only the US market has: one merged row, the other three
    prices 0. *)
Example merge_single_market :
  merge_dataframes iso_date [] [plaza_us] [] [] =
  [ {| otel := "Grand Plaza"; checkin := Some 20240%Z;
       fiyat_tl := 0; fiyat_usd := 80; fiyat_eur := 0; fiyat_gbp := 0;
       bilgi_tr := None; bilgi_us := Some (mr_bilgi plaza_us);
       bilgi_de := None; bilgi_uk := None |} ].
Proof. vm_compute. reflexivity. Qed.

(** C3, as the specification states it, fails: a row whose check-in text
    does not parse is in the merged frame, with [NaT] for its date. *)
Lemma unparsed_checkin_not_dropped :
  iso_date (mr_checkin tarihsiz) = None /\
  merge_dataframes iso_date [tarihsiz; plaza_tr] [plaza_us] [] [] =
  [ {| otel := "Grand Plaza"; checkin := Some 20240%Z;
       fiyat_tl := 3000; fiyat_usd := 80; fiyat_eur := 0; fiyat_gbp := 0;
       bilgi_tr := Some (mr_bilgi plaza_tr); bilgi_us := Some (mr_bilgi plaza_us);
       bilgi_de := None; bilgi_uk := None |};
    {| otel := "Grand Plaza"; checkin := None;
       fiyat_tl := 3000; fiyat_usd := 0; fiyat_eur := 0; fiyat_gbp := 0;
       bilgi_tr := Some (mr_bilgi tarihsiz); bilgi_us := None;
       bilgi_de := None; bilgi_uk := None |} ] /\
  ~ (forall r, In r (merge_dataframes iso_date [tarihsiz; plaza_tr] [plaza_us] [] []) ->
               checkin r <> None).
Proof.
  split; [reflexivity|]. split; [vm_compute; reflexivity|].
  intros H. eapply H; [right; left; vm_compute; reflexivity | reflexivity].
Qed.

(** C3, amended: at merge time a check-in value that fails to parse becomes
    the null date and its row is kept: converting the dates drops no row of
    the join, every row of every market frame is in the merged frame under
    its hotel with the conversion of its check-in value (a date, or the null
    date when it does not parse), and the check-in of every merged row is the
    conversion of the check-in value of one of its input keys. *)
Theorem unparsed_checkin_kept (to_datetime : string -> option Timestamp)
    (df_tr df_us df_de df_uk : list MarketRow) :
  unparsed_kept to_datetime df_tr df_us df_de df_uk
    (merge_dataframes to_datetime df_tr df_us df_de df_uk).
Proof.
  unfold unparsed_kept. cbv zeta.
  split; [apply merged_length|]. split.
  - intros m x Hx.
    destruct (market_row_merged to_datetime _ _ _ _ m x Hx)
      as [r [Hr [Ho [Hd [Hf [Hb _]]]]]].
    exists r. auto.
  - intros r Hr. apply in_merged in Hr.
    destruct Hr as [[h c] [[[[otr ous] ode] ouk] [Hin ->]]].
    destruct (merged_row_cells to_datetime _ _ _ _ _ _ _ _ _ Hin) as [_ [_ [_ [Ha _]]]].
    exists c. split; [exact Ha | reflexivity].
Qed.

Lemma unparsed_checkin_kept_witness :
  unparsed_kept iso_date [tarihsiz; plaza_tr] [plaza_us] [] []
    (merge_dataframes iso_date [tarihsiz; plaza_tr] [plaza_us] [] []).
Proof. exact (unparsed_checkin_kept iso_date [tarihsiz; plaza_tr] [plaza_us] [] []). Defined.

(** ** The recommendation ranker *)

Import Recommend.

Lemma compare_op_rule (mode : string) (d : Q) :
  In mode modes -> (compare_op mode d = true <-> flag_rule mode d).
Proof.
  unfold modes, flag_rule, compare_op, STRATEGY_PERCENT_THRESHOLD, abs.
  intros [<- | [<- | [<- | []]]].
  - change ("MAX" =? "MAX")%string with true. cbv iota. rewrite lt_true.
    split; [intros H; left; now split|].
    intros [[_ H] | [[H _] | [H _]]]; [exact H | discriminate H | discriminate H].
  - change ("MIN" =? "MAX")%string with false.
    change ("MIN" =? "MIN")%string with true. cbv iota. rewrite gt_true.
    split; [intros H; right; left; now split|].
    intros [[H _] | [[_ H] | [H _]]]; [discriminate H | exact H | discriminate H].
  - change ("MEAN" =? "MAX")%string with false.
    change ("MEAN" =? "MIN")%string with false. cbv iota. rewrite gt_true.
    split; [intros H; right; right; now split|].
    intros [[H _] | [[H _] | [_ H]]]; [discriminate H | discriminate H | exact H].
Qed.

(** The guard [kur > 0] keeps the division away from a zero divisor: the
    call always returns, with a suggestion exactly when the market is
    flagged. *)
Lemma create_recommendation_eq mode d name p kur sym hedef :
  create_recommendation mode d name p kur sym hedef =
  Ok (if compare_op mode d then
        Some (if lt d 0
              then mkOneri name Yukselt p (if gt kur 0 then hedef / kur else hedef)
                     ((if gt kur 0 then hedef / kur else hedef) - p) (abs d) sym
              else mkOneri name Indir p (if gt kur 0 then hedef / kur else hedef)
                     (p - (if gt kur 0 then hedef / kur else hedef)) d sym)
      else None).
Proof.
  unfold create_recommendation.
  destruct (compare_op mode d); [|reflexivity].
  destruct (gt kur 0) eqn:E.
  - apply gt_true in E. rewrite truediv_nonzero.
    + cbn [bind]. destruct (lt d 0); reflexivity.
    + intros H0. rewrite H0 in E. now apply Qlt_irrefl in E.
  - cbn [bind]. destruct (lt d 0); reflexivity.
Qed.

Lemma pazar_adi_if (b : bool) (o1 o2 : Oneri) (name : string) :
  pazar_adi o1 = name -> pazar_adi o2 = name ->
  pazar_adi (if b then o1 else o2) = name.
Proof. destruct b; auto. Qed.

Lemma row_oneriler_ok mode ku ke kg row :
  exists l, row_oneriler mode ku ke kg row = Ok l /\
            map pazar_adi l = map ad (flagged mode row).
Proof.
  unfold row_oneriler. cbv zeta.
  rewrite !create_recommendation_eq. cbn [bind].
  eexists. split; [reflexivity|].
  unfold flagged, pazarlar. cbn [filter fark_yuzde].
  destruct (compare_op mode (fark_tr_yuzde row));
    destruct (compare_op mode (fark_us_yuzde row));
    destruct (compare_op mode (fark_de_yuzde row));
    destruct (compare_op mode (fark_uk_yuzde row));
    cbn [not_none map];
    repeat (apply f_equal2; [apply pazar_adi_if; reflexivity|]);
    reflexivity.
Qed.

Lemma flagged_nil (mode : string) (row : CalcRow) :
  flagged mode row = [] <-> any_flagged mode row = false.
Proof.
  unfold flagged, any_flagged. generalize pazarlar. intros l.
  induction l as [|m l IH]; simpl; [tauto|].
  destruct (compare_op mode (fark_yuzde m row)); simpl; [|exact IH].
  split; discriminate.
Qed.

Lemma collect_ok mode ku ke kg df :
  exists listed,
    collect mode ku ke kg df = Ok listed /\
    map fst listed = filter (any_flagged mode) df /\
    Forall (fun e => map pazar_adi (snd e) = map ad (flagged mode (fst e))) listed.
Proof.
  induction df as [|row df [listed [Hc [Hm Hf]]]].
  - exists []. repeat split. constructor.
  - destruct (row_oneriler_ok mode ku ke kg row) as [l [Hl Hn]].
    simpl collect. rewrite Hl, Hc. cbn [bind].
    eexists. split; [reflexivity|].
    simpl filter.
    destruct l as [|o l].
    + assert (Hz : flagged mode row = []).
      { destruct (flagged mode row); [reflexivity | discriminate Hn]. }
      apply flagged_nil in Hz. rewrite Hz. now split.
    + assert (Hz : any_flagged mode row = true).
      { destruct (any_flagged mode row) eqn:E; [reflexivity|].
        apply flagged_nil in E. rewrite E in Hn. discriminate Hn. }
      rewrite Hz. split; [simpl; now rewrite Hm|].
      constructor; [exact Hn | exact Hf].
Qed.

Lemma ad_inj (m m' : Pazar) : ad m = ad m' -> m = m'.
Proof. destruct m, m'; simpl; intros H; try reflexivity; discriminate H. Qed.

Lemma in_pazarlar (m : Pazar) : In m pazarlar.
Proof. unfold pazarlar. destruct m; simpl; tauto. Qed.

Lemma in_flagged (mode : string) (row : CalcRow) (m : Pazar) :
  In m (flagged mode row) <-> compare_op mode (fark_yuzde m row) = true.
Proof.
  unfold flagged. rewrite filter_In. pose proof (in_pazarlar m). tauto.
Qed.

Lemma any_flagged_true (mode : string) (row : CalcRow) :
  any_flagged mode row = true <->
  exists m, compare_op mode (fark_yuzde m row) = true.
Proof.
  unfold any_flagged. rewrite existsb_exists.
  split; intros [m H]; exists m; [tauto | split; [apply in_pazarlar | exact H]].
Qed.

Lemma score_flagged (mode : string) (e : CalcRow * list Oneri) :
  get_total_diff_score mode e == flagged_score mode (fst e).
Proof.
  unfold get_total_diff_score, flagged_score, flagged, pazarlar, builtin_sum, abs.
  cbv zeta. cbn [map fold_left filter fark_yuzde].
  destruct (compare_op mode (fark_tr_yuzde (fst e)));
    destruct (compare_op mode (fark_us_yuzde (fst e)));
    destruct (compare_op mode (fark_de_yuzde (fst e)));
    destruct (compare_op mode (fark_uk_yuzde (fst e)));
    cbn [map fold_right fark_yuzde]; ring.
Qed.

Lemma StronglySorted_impl {A : Type} (R R' : A -> A -> Prop) (l : list A) :
  (forall x y, R x y -> R' x y) -> StronglySorted R l -> StronglySorted R' l.
Proof.
  intros H. induction 1 as [|a l Hs IH Ha]; constructor; [exact IH|].
  revert Ha. apply Forall_impl. intros x. apply H.
Qed.

(** C6: for every record, a market is flagged exactly when its deviation
    percent satisfies the predicate of the mode (below minus the threshold
    under MAX, above the threshold under MIN, absolute value above the
    threshold under MEAN, the threshold being 10), the suggestions of a
    record in the output are those of its flagged markets, and a record is in
    the output if and only if at least one of its four markets is flagged. *)
Theorem recommended_iff_flagged (df : list CalcRow) (mode : string) (ku ke kg : Q) :
  In mode modes ->
  exists out,
    display_recommendations_tab df mode ku ke kg = Ok out /\
    recommendations_ok mode df out.
Proof.
  intros Hmode.
  destruct (collect_ok mode ku ke kg df) as [listed [Hc [Hm Hf]]].
  unfold display_recommendations_tab. rewrite Hc. cbn [bind].
  eexists. split; [reflexivity|].
  split; [intros d; now apply compare_op_rule|]. split.
  - intros row.
    assert (Hp : Permutation (map fst (sort (score_geb mode) listed)) (map fst listed))
      by apply Permutation_map, sort_perm.
    split.
    + intros H. apply (Permutation_in _ Hp) in H. rewrite Hm in H.
      apply filter_In in H. destruct H as [H1 H2]. split; [exact H1|].
      apply any_flagged_true in H2. destruct H2 as [m H2].
      exists m. now apply compare_op_rule.
    + intros [H1 [m H2]]. apply (Permutation_in _ (Permutation_sym Hp)).
      rewrite Hm. apply filter_In. split; [exact H1|].
      apply any_flagged_true. exists m. now apply compare_op_rule.
  - intros row oneriler Hin m. apply sort_in in Hin.
    rewrite Forall_forall in Hf. specialize (Hf _ Hin). simpl in Hf.
    rewrite <- (compare_op_rule mode _ Hmode), <- in_flagged.
    split.
    + intros [o [Ho Hn]].
      assert (Hi : In (ad m) (map ad (flagged mode row))).
      { rewrite <- Hf, <- Hn. now apply in_map. }
      apply in_map_iff in Hi. destruct Hi as [m' [He Hm']].
      apply ad_inj in He. now subst.
    + intros Hi. apply (in_map ad) in Hi. rewrite <- Hf in Hi.
      apply in_map_iff in Hi. destruct Hi as [o [Hn Ho]]. now exists o.
Qed.

Lemma recommended_iff_flagged_witness :
  In "MAX"%string modes /\
  exists out,
    display_recommendations_tab siralama_df "MAX" 100 1 1 = Ok out /\
    recommendations_ok "MAX" siralama_df out.
Proof.
  split.
  - left. reflexivity.
  - apply (recommended_iff_flagged siralama_df "MAX" 100 1 1). left. reflexivity.
Defined.

(** Of four records the one within tolerance is left out, and the other
    three are ranked by score, the two of equal score in their order. *)
Example ranking_example :
  map (fun c => otel (kayit c)) siralama_df = ["A"; "D"; "B"; "C"]%string /\
  exists out,
    display_recommendations_tab siralama_df "MAX" 100 1 1 = Ok out /\
    map (fun e => otel (kayit (fst e))) out = ["B"; "A"; "C"]%string /\
    map (fun e => map pazar_adi (snd e)) out = [[ad TR]; [ad TR]; [ad TR]] /\
    Forall2 Qeq (map (get_total_diff_score "MAX") out) [250 # 3; 200 # 3; 200 # 3].
Proof.
  split; [vm_compute; reflexivity|].
  eexists. split; [vm_compute; reflexivity|].
  split; [vm_compute; reflexivity|]. split; [vm_compute; reflexivity|].
  repeat constructor.
Qed.

(** C7: the list of recommendations is the list built by the loop, sorted in
    descending order of the aggregate score, the score of a record being the
    sum of the absolute deviation percents of its flagged markets only; the
    sort is stable, records of equal score keeping the order of the loop; so
    for two records A before B in the ranking the score of A is at least the
    score of B. *)
Theorem ranking_sorted_stable (df : list CalcRow) (mode : string) (ku ke kg : Q) :
  exists listed out,
    collect mode ku ke kg df = Ok listed /\
    display_recommendations_tab df mode ku ke kg = Ok out /\
    ranking_ok mode df listed out.
Proof.
  destruct (collect_ok mode ku ke kg df) as [listed [Hc [Hm Hf]]].
  exists listed, (sort (score_geb mode) listed).
  split; [exact Hc|].
  split; [unfold display_recommendations_tab; now rewrite Hc|].
  unfold ranking_ok. cbv zeta.
  split; [exact Hm|]. split; [apply sort_perm|].
  split; [apply score_flagged|]. split.
  - apply (StronglySorted_impl (fun x y => score_geb mode x y = true)).
    + intros x y H. now apply Qle_bool_iff in H.
    + apply sort_sorted.
      * intros a b. unfold score_geb. rewrite !Qle_bool_iff.
        destruct (Qlt_le_dec (get_total_diff_score mode a) (get_total_diff_score mode b));
          [right; now apply Qlt_le_weak | now left].
      * intros a b c. unfold score_geb. rewrite !Qle_bool_iff.
        intros H1 H2. eapply Qle_trans; eassumption.
  - intros s. apply sort_filter. intros a b Hab Ha.
    destruct (Qeq_bool (get_total_diff_score mode b) s) eqn:Hb; [|reflexivity].
    apply Qeq_bool_iff in Ha, Hb. exfalso.
    assert (Hle : Qle_bool (get_total_diff_score mode b) (get_total_diff_score mode a) = true).
    { apply Qle_bool_iff. rewrite Ha, Hb. apply Qle_refl. }
    unfold score_geb in Hab. congruence.
Qed.

Lemma ranking_sorted_stable_witness :
  exists listed out,
    collect "MAX" 100 1 1 siralama_df = Ok listed /\
    display_recommendations_tab siralama_df "MAX" 100 1 1 = Ok out /\
    ranking_ok "MAX" siralama_df listed out.
Proof. exact (ranking_sorted_stable siralama_df "MAX" 100 1 1). Defined.

(** A market with no observation has the normalized price 0: under MAX its
    deviation is minus 100 percent of the target, and it is flagged like any
    other market that far below the target. *)
Example no_observation_flagged :
  exists c aciklama,
    calculate_strategy_dataframe [iki_fiyat] "MAX" 100 1 1 = Ok ([c], aciklama) /\
    hedef_fiyat_tl c = 3 * 100 /\
    fark_yuzde DE c == - (100) /\
    flagged "MAX" c = [TR; DE; UK].
Proof.
  do 2 eexists. split; [vm_compute; reflexivity|].
  split; [reflexivity|]. split; reflexivity.
Qed.

(** ** The scrape-health classifier *)

Import Health.

Lemma mem_in (note : string) (l : list string) : mem note l = true <-> In note l.
Proof.
  unfold mem. rewrite existsb_exists. split.
  - intros [x [Hx He]]. apply String.eqb_eq in He. now subst.
  - intros H. exists note. split; [exact H | apply String.eqb_refl].
Qed.

Lemma prefix_app (s1 s2 : string) :
  prefix s1 s2 = true <-> exists post, s2 = (s1 ++ post)%string.
Proof.
  revert s2. induction s1 as [|a s1 IH]; intros s2.
  - split; [intros _; now exists s2 | intros _; destruct s2; reflexivity].
  - destruct s2 as [|b s2]; simpl.
    + split; [discriminate | intros [post H]; discriminate H].
    + destruct (ascii_dec a b) as [<- | Hne].
      * rewrite IH. split; intros [post H]; exists post; congruence.
      * split; [discriminate | intros [post H]; congruence].
Qed.

(** [contains sub s] holds exactly when [sub] is a substring of [s]. *)
Lemma contains_spec (sub s : string) :
  contains sub s = true <-> exists pre post, s = (pre ++ sub ++ post)%string.
Proof.
  induction s as [|c s IH].
  - change (contains sub "") with (if prefix sub "" then true else false).
    destruct (prefix sub "") eqn:E.
    + split; [intros _|reflexivity]. apply prefix_app in E. destruct E as [post E].
      now exists ""%string, post.
    + split; [discriminate|]. intros [pre [post H]].
      destruct pre; simpl in H.
      * assert (E' : prefix sub "" = true) by (apply prefix_app; now exists post).
        congruence.
      * discriminate H.
  - change (contains sub (String c s))
      with (if prefix sub (String c s) then true else contains sub s).
    destruct (prefix sub (String c s)) eqn:E.
    + split; [intros _|reflexivity]. apply prefix_app in E. destruct E as [post E].
      now exists ""%string, post.
    + rewrite IH. split.
      * intros [pre [post H]]. exists (String c pre), post. simpl. now rewrite H.
      * intros [pre [post H]]. destruct pre as [|c' pre]; simpl in H.
        -- assert (E' : prefix sub (String c s) = true)
             by (apply prefix_app; now exists post).
           congruence.
        -- injection H as _ H. now exists pre, post.
Qed.

Lemma success_inv_init : success_inv success_notes.
Proof. split; [apply incl_refl | intros n H; now left]. Qed.

Lemma kategori_eq (note : string) :
  kategori note =
  if mem note success_notes then Basarili
  else if mem note error_notes then VeriCekilemedi
  else if contains "min_from_main_block" note then Basarili
  else Diger.
Proof.
  unfold kategori, categorize_note.
  destruct (mem note success_notes); [reflexivity|].
  destruct (mem note error_notes); [reflexivity|].
  destruct (contains "min_from_main_block" note); reflexivity.
Qed.

Lemma categorize_note_inv (note : string) (success : list string) :
  success_inv success ->
  fst (categorize_note note success) = kategori note /\
  success_inv (snd (categorize_note note success)).
Proof.
  intros Hinv. pose proof Hinv as [Hi Hs].
  rewrite kategori_eq. unfold categorize_note.
  destruct (mem note success) eqn:E1.
  - cbn [fst snd]. split; [|exact Hinv].
    apply mem_in in E1. destruct (Hs note E1) as [H | [H1 H2]].
    + apply mem_in in H. now rewrite H.
    + destruct (mem note success_notes); [reflexivity|].
      destruct (mem note error_notes) eqn:E2; [apply mem_in in E2; contradiction|].
      now rewrite H1.
  - assert (E0 : mem note success_notes = false).
    { destruct (mem note success_notes) eqn:E; [|reflexivity].
      apply mem_in in E. apply Hi, mem_in in E. congruence. }
    rewrite E0.
    destruct (mem note error_notes) eqn:E2; [split; [reflexivity | exact Hinv]|].
    destruct (contains "min_from_main_block" note) eqn:E3;
      [|split; [reflexivity | exact Hinv]].
    cbn [fst snd]. split; [reflexivity|]. split.
    + intros n Hn. apply in_or_app. left. now apply Hi.
    + intros n Hn. apply in_app_or in Hn. destruct Hn as [Hn | [<- | []]].
      * now apply Hs.
      * right. split; [exact E3|]. intros H. apply mem_in in H. congruence.
Qed.

Lemma apply_inv (notes : list string) :
  forall success, success_inv success ->
    fst (apply notes success) = map kategori notes /\
    success_inv (snd (apply notes success)).
Proof.
  induction notes as [|note notes IH]; intros success Hs.
  - simpl. now split.
  - simpl. destruct (categorize_note_inv note success Hs) as [H1 H2].
    destruct (categorize_note note success) as [k success'].
    destruct (IH success' H2) as [H3 H4].
    destruct (apply notes success') as [ks success''].
    simpl in *. split; [now rewrite H1, H3 | exact H4].
Qed.

Lemma reachable_inv (success : list string) : reachable success -> success_inv success.
Proof.
  intros [notes ->]. apply apply_inv, success_inv_init.
Qed.

Lemma error_notes_no_block (n : string) :
  In n error_notes -> contains "min_from_main_block" n = false.
Proof.
  unfold error_notes. simpl In. intros H.
  repeat (destruct H as [<- | H]; [reflexivity|]). destruct H.
Qed.

Lemma error_notes_no_success (n : string) :
  In n error_notes -> mem n success_notes = false.
Proof.
  unfold error_notes. simpl In. intros H.
  repeat (destruct H as [<- | H]; [reflexivity|]). destruct H.
Qed.

(** The list grows: a note with the substring that is in neither list is
    appended when it is classified. *)
Example success_notes_grow :
  apply ["min_from_main_block_v2"; "xyz"; "min_from_main_block_v2"]%string success_notes
  = ([Basarili; Diger; Basarili], (success_notes ++ ["min_from_main_block_v2"%string])%list).
Proof. reflexivity. Qed.

(** C9: in every state of the list of success notes the classifier gives
    every note one category, by the two fixed lists and the substring
    fallback: "CRASH_OR_TIMEOUT" is a failure, "min_from_list" a success, the
    unrecognized "xyz" other, and every note that contains
    "min_from_main_block" a success, whether or not it is in the list of
    success notes. *)
Theorem classifier_by_lists (success : list string) :
  reachable success -> classifier_ok success.
Proof.
  intros Hr. apply reachable_inv in Hr.
  assert (Hk : forall note, fst (categorize_note note success) = kategori note).
  { intros note. now apply categorize_note_inv. }
  unfold classifier_ok. cbv zeta. rewrite !Hk.
  split; [reflexivity|]. split; [reflexivity|]. split; [reflexivity|].
  assert (Hsub : forall pre post : string,
             kategori (pre ++ "min_from_main_block" ++ post)%string = Basarili).
  { intros pre post. rewrite kategori_eq.
    destruct (mem _ success_notes); [reflexivity|].
    destruct (mem _ error_notes) eqn:E.
    - apply mem_in, error_notes_no_block in E.
      assert (E' : contains "min_from_main_block"
                     (pre ++ "min_from_main_block" ++ post)%string = true)
        by (apply contains_spec; now exists pre, post).
      congruence.
    - assert (E' : contains "min_from_main_block"
                     (pre ++ "min_from_main_block" ++ post)%string = true)
        by (apply contains_spec; now exists pre, post).
      now rewrite E'. }
  split.
  - intros pre post. rewrite Hk. apply Hsub.
  - intros note. rewrite Hk, kategori_eq. split; [|split].
    + intros H. apply mem_in in H. now rewrite H.
    + intros H. rewrite (error_notes_no_success note H).
      apply mem_in in H. now rewrite H.
    + intros H1 H2 H3.
      destruct (mem note success_notes) eqn:E1; [apply mem_in in E1; contradiction|].
      destruct (mem note error_notes) eqn:E2; [apply mem_in in E2; contradiction|].
      destruct (contains "min_from_main_block" note) eqn:E3; [|reflexivity].
      apply contains_spec in E3. destruct E3 as [pre [post E3]].
      exfalso. exact (H3 pre post E3).
Qed.

Lemma classifier_by_lists_witness :
  reachable (success_notes ++ ["min_from_main_block_v2"%string]) /\
  classifier_ok (success_notes ++ ["min_from_main_block_v2"%string]).
Proof.
  assert (H : reachable (success_notes ++ ["min_from_main_block_v2"%string])).
  { exists ["min_from_main_block_v2"; "xyz"]%string. reflexivity. }
  split; [exact H | exact (classifier_by_lists _ H)].
Defined.

(** C10: the classification is total and deterministic: every note gets one
    of the three categories, and a note classified twice in one run gets the
    same category both times, whichever notes were classified before and in
    between; the category is that of the rule with no state, so the
    categories of a column do not depend on the order of the calls although
    the list of success notes grows. *)
Theorem classification_deterministic :
  (forall before between note, same_category before between note) /\
  (forall success notes, reachable success ->
     fst (apply notes success) = map kategori notes).
Proof.
  split.
  - intros before between note. unfold same_category. cbv zeta.
    destruct (apply_inv before success_notes success_inv_init) as [_ H1].
    destruct (categorize_note_inv note _ H1) as [H2 H3].
    destruct (apply_inv between _ H3) as [_ H4].
    destruct (categorize_note_inv note _ H4) as [H5 _].
    split; [exact H2 | now rewrite H5, H2].
  - intros success notes Hr. apply apply_inv. now apply reachable_inv.
Qed.

Lemma classification_deterministic_witness :
  same_category ["xyz"; "min_from_main_block_v2"]%string
    ["N/A"; "min_from_main_block_v3"]%string "min_from_main_block_v2"%string.
Proof.
  exact (proj1 classification_deterministic
           ["xyz"; "min_from_main_block_v2"]%string
           ["N/A"; "min_from_main_block_v3"]%string "min_from_main_block_v2"%string).
Defined.


(** * Further properties *)

(** ** Sums *)

Lemma fold_left_Qplus_acc (l : list Q) : forall a, fold_left Qplus l a == a + fold_left Qplus l 0.
Proof.
  induction l as [|p l IH]; intros a; simpl.
  - ring.
  - rewrite (IH (a + p)), (IH (0 + p)). ring.
Qed.

Lemma builtin_sum_cons (p : Q) (l : list Q) : builtin_sum (p :: l) == p + builtin_sum l.
Proof.
  unfold builtin_sum. simpl. rewrite fold_left_Qplus_acc. ring.
Qed.

Lemma builtin_sum_app (l l' : list Q) :
  builtin_sum (l ++ l') == builtin_sum l + builtin_sum l'.
Proof.
  induction l as [|p l IH]; simpl.
  - unfold builtin_sum at 2. simpl. ring.
  - rewrite !builtin_sum_cons, IH. ring.
Qed.

Lemma builtin_sum_nonneg (l : list Q) :
  (forall p, In p l -> 0 <= p) -> 0 <= builtin_sum l.
Proof.
  induction l as [|p l IH]; intros H.
  - apply Qle_refl.
  - rewrite builtin_sum_cons.
    pose proof (H p (or_introl eq_refl)).
    pose proof (IH (fun q Hq => H q (or_intror Hq))). lra.
Qed.

Lemma builtin_sum_nonpos (l : list Q) :
  (forall p, In p l -> p <= 0) -> builtin_sum l <= 0.
Proof.
  induction l as [|p l IH]; intros H.
  - apply Qle_refl.
  - rewrite builtin_sum_cons.
    pose proof (H p (or_introl eq_refl)).
    pose proof (IH (fun q Hq => H q (or_intror Hq))). lra.
Qed.

(** ** The strategy engine: sign and size of the deviations *)

Section MoreFacts.
Variables (mode : string) (ku ke kg : Q) (row : MergedRow) (c : CalcRow).
Hypothesis F : calc_facts mode ku ke kg row c.

Lemma facts_max_column :
  fiyatlar_listesi c <> [] -> is_max (max_fiyat_tl c) (fiyatlar_listesi c).
Proof.
  intros Hne. rewrite (cf_max _ _ _ _ _ _ F).
  destruct (fiyatlar_listesi c) as [|p x]; [congruence|]. apply max_from_is_max.
Qed.

Lemma facts_min_column :
  fiyatlar_listesi c <> [] -> is_min (min_fiyat_tl c) (fiyatlar_listesi c).
Proof.
  intros Hne. rewrite (cf_min _ _ _ _ _ _ F).
  destruct (fiyatlar_listesi c) as [|p x]; [congruence|]. apply min_from_is_min.
Qed.

Lemma facts_mean_is_mean :
  fiyatlar_listesi c <> [] -> is_mean (mean_fiyat_tl c) (fiyatlar_listesi c).
Proof.
  intros Hne. rewrite (cf_mean _ _ _ _ _ _ F).
  destruct (fiyatlar_listesi c) as [|p x]; [congruence|].
  unfold is_mean. reflexivity.
Qed.

Lemma facts_mean_column_pos :
  fiyatlar_listesi c <> [] -> 0 < mean_fiyat_tl c.
Proof.
  intros Hne.
  assert (Hpos : forall p, In p (fiyatlar_listesi c) -> 0 < p).
  { intros p Hp. now apply (facts_in_liste _ _ _ _ _ _ F) in Hp. }
  rewrite (cf_mean _ _ _ _ _ _ F).
  destruct (fiyatlar_listesi c) as [|p x]; [congruence|].
  now apply mean_pos.
Qed.

Lemma facts_columns_empty :
  fiyatlar_listesi c = [] ->
  min_fiyat_tl c = 0 /\ mean_fiyat_tl c = 0 /\ max_fiyat_tl c = 0.
Proof.
  intros E.
  now rewrite (cf_min _ _ _ _ _ _ F), (cf_mean _ _ _ _ _ _ F), (cf_max _ _ _ _ _ _ F), E.
Qed.

Lemma facts_row_computed : row_computed mode ku ke kg row c.
Proof.
  split; [exact (facts_row_link _ _ _ _ _ _ F)|].
  split; [exact (facts_target_of_mode _ _ _ _ _ _ F) | exact (cf_fark _ _ _ _ _ _ F)].
Qed.

Lemma facts_columns_ok : columns_ok mode ku ke kg row c.
Proof.
  split; [exact (facts_row_link _ _ _ _ _ _ F)|].
  split; [exact facts_columns_empty|].
  split; [|exact (cf_hedef _ _ _ _ _ _ F)].
  intros Hne.
  pose proof (facts_min_column Hne) as Hmin. pose proof (facts_max_column Hne) as Hmax.
  split; [exact Hmin|]. split; [exact (facts_mean_is_mean Hne)|]. split; [exact Hmax|].
  split; [|split; [exact (facts_mean_column_pos Hne)|]].
  - destruct Hmin as [Hin _]. now apply (facts_in_liste _ _ _ _ _ _ F) in Hin.
  - destruct Hmin as [_ Hlb]. destruct Hmax as [Hin _]. now apply Hlb.
Qed.

(** A market's price is at most the maximum and, when it is a price, at
    least the minimum. *)
Lemma facts_norm_le_max (m : Pazar) :
  fiyatlar_listesi c <> [] -> fiyat_norm m c <= max_fiyat_tl c.
Proof.
  intros Hne. destruct (facts_max_column Hne) as [Hin Hub].
  destruct (Qlt_le_dec 0 (fiyat_norm m c)) as [Hp | Hp].
  - apply Hub. apply (facts_in_liste _ _ _ _ _ _ F). split; [now exists m | exact Hp].
  - apply (facts_in_liste _ _ _ _ _ _ F) in Hin. destruct Hin as [_ Hin].
    eapply Qle_trans; [exact Hp | now apply Qlt_le_weak].
Qed.

Lemma facts_min_le_norm (m : Pazar) :
  0 < fiyat_norm m c -> min_fiyat_tl c <= fiyat_norm m c.
Proof.
  intros Hp.
  assert (Hin : In (fiyat_norm m c) (fiyatlar_listesi c)).
  { apply (facts_in_liste _ _ _ _ _ _ F). split; [now exists m | exact Hp]. }
  assert (Hne : fiyatlar_listesi c <> []).
  { intros E. rewrite E in Hin. exact Hin. }
  destruct (facts_min_column Hne) as [_ Hlb]. now apply Hlb.
Qed.

Lemma facts_yuzde_sign (m : Pazar) :
  (fark m c <= 0 -> fark_yuzde m c <= 0) /\ (0 <= fark m c -> 0 <= fark_yuzde m c).
Proof.
  rewrite (cf_yuzde _ _ _ _ _ _ F).
  destruct (gt (hedef_fiyat_tl c) 0) eqn:E.
  - apply gt_true in E. split; intros H.
    + assert (fark m c / hedef_fiyat_tl c <= 0).
      { apply Qle_shift_div_r; [exact E | lra]. }
      lra.
    + assert (0 <= fark m c / hedef_fiyat_tl c).
      { apply Qle_shift_div_l; [exact E | lra]. }
      lra.
  - split; intros _; apply Qle_refl.
Qed.

End MoreFacts.

Lemma facts_no_surplus (ku ke kg : Q) (row : MergedRow) (c : CalcRow) :
  calc_facts "MAX" ku ke kg row c -> no_surplus c.
Proof.
  intros F m.
  assert (Hh : hedef_fiyat_tl c = max_fiyat_tl c) by exact (cf_hedef _ _ _ _ _ _ F).
  assert (Hf : fark m c <= 0).
  { rewrite (cf_fark _ _ _ _ _ _ F).
    destruct (fiyatlar_listesi c) as [|p x] eqn:E.
    - rewrite (facts_hedef_empty _ _ _ _ _ _ F E).
      pose proof (facts_empty_nonpos _ _ _ _ _ _ F E m). lra.
    - rewrite Hh.
      assert (Hne : fiyatlar_listesi c <> []) by congruence.
      pose proof (facts_norm_le_max _ _ _ _ _ _ F m Hne). lra. }
  split; [exact Hf|].
  split; [now apply (facts_yuzde_sign _ _ _ _ _ _ F)|].
  intros Hn. rewrite (cf_yuzde _ _ _ _ _ _ F).
  destruct (gt (hedef_fiyat_tl c) 0) eqn:E; [|lra].
  apply gt_true in E.
  assert (- (1) <= fark m c / hedef_fiyat_tl c).
  { apply Qle_shift_div_l; [exact E|]. rewrite (cf_fark _ _ _ _ _ _ F). lra. }
  lra.
Qed.

(** X1: under MAX no market is above the target: every deviation amount and
    every deviation percent is at most 0, and the percent of a market whose
    normalized price is not negative is at least minus 100. *)
Theorem max_never_above_target (df : list MergedRow) (ku ke kg : Q) :
  exists out aciklama,
    calculate_strategy_dataframe df "MAX" ku ke kg = Ok (out, aciklama) /\
    Forall no_surplus out.
Proof.
  destruct (calculate_strategy_dataframe_facts df "MAX" ku ke kg) as [out [Hout HF]].
  exists out, (hedef_aciklama "MAX"). split; [exact Hout|].
  revert HF. apply Forall2_right. intros row c F.
  exact (facts_no_surplus ku ke kg row c F).
Qed.

(** X2: under MIN the engine returns one row for each record, carrying the
    record, its normalized prices and their minimum as target; in that row
    no market that has a price is below the target (deviation amount and
    percent at least 0), while a market without a price is below it
    whenever the record has a price in some other market. *)
Theorem min_never_below_where_priced (df : list MergedRow) (ku ke kg : Q) :
  exists out aciklama,
    calculate_strategy_dataframe df "MIN" ku ke kg = Ok (out, aciklama) /\
    Forall2 (no_loss_where_priced ku ke kg) df out.
Proof.
  destruct (calculate_strategy_dataframe_facts df "MIN" ku ke kg) as [out [Hout HF]].
  exists out, (hedef_aciklama "MIN"). split; [exact Hout|].
  revert HF. apply Forall2_impl. intros row c F.
  split; [exact (facts_row_computed _ _ _ _ _ _ F)|]. intros m.
  assert (Hh : hedef_fiyat_tl c = min_fiyat_tl c) by exact (cf_hedef _ _ _ _ _ _ F).
  split.
  - intros Hp.
    assert (Hf : 0 <= fark m c).
    { rewrite (cf_fark _ _ _ _ _ _ F), Hh.
      pose proof (facts_min_le_norm _ _ _ _ _ _ F m Hp). lra. }
    split; [exact Hf | now apply (facts_yuzde_sign _ _ _ _ _ _ F)].
  - intros Hn Hne. rewrite <- (facts_available _ _ _ _ _ _ F) in Hne.
    rewrite (cf_fark _ _ _ _ _ _ F).
    pose proof (facts_hedef_pos _ _ _ _ _ _ F Hne). lra.
Qed.

(** X3: in every mode the engine returns one row for each record, carrying
    the record and its normalized prices, and fills all three strategy
    columns of that row: the minimum, the arithmetic mean and the maximum of
    the available prices of the record, each above 0, the minimum not above
    the maximum, and all three 0 when the record has no price; the target
    is the column of the mode. *)
Theorem strategy_columns (df : list MergedRow) (mode : string) (ku ke kg : Q) :
  exists out aciklama,
    calculate_strategy_dataframe df mode ku ke kg = Ok (out, aciklama) /\
    Forall2 (columns_ok mode ku ke kg) df out.
Proof.
  destruct (calculate_strategy_dataframe_facts df mode ku ke kg) as [out [Hout HF]].
  exists out, (hedef_aciklama mode). split; [exact Hout|].
  revert HF. apply Forall2_impl. intros row c F.
  exact (facts_columns_ok _ _ _ _ _ _ F).
Qed.

Lemma compare_op_minus_100 (mode : string) (d : Q) :
  In mode modes -> d == - (100) ->
  (Recommend.compare_op mode d = true <-> mode <> "MIN"%string).
Proof.
  intros Hm Hd. rewrite (compare_op_rule mode d Hm). unfold flag_rule.
  destruct Hm as [<- | [<- | [<- | []]]].
  - split; [discriminate|]. intros _. left. split; [reflexivity|]. rewrite Hd. reflexivity.
  - split; [|congruence].
    intros [[H _] | [[_ H] | [H _]]]; try discriminate H.
    rewrite Hd in H. discriminate H.
  - split; [discriminate|]. intros _. right. right. split; [reflexivity|].
    rewrite Hd. reflexivity.
Qed.

(** X4: in every mode the engine returns one row for each record, carrying
    the record, its normalized prices and its target by mode; when the
    record has at least one price, a market of it whose normalized price is 0
    (no observation) has the deviation percent minus 100; it is therefore
    flagged for a recommendation under MAX and MEAN and never under MIN. *)
Theorem unobserved_market_percent (df : list MergedRow) (mode : string) (ku ke kg : Q) :
  In mode modes ->
  exists out aciklama,
    calculate_strategy_dataframe df mode ku ke kg = Ok (out, aciklama) /\
    Forall2 (unobserved_minus_100 mode ku ke kg) df out.
Proof.
  intros Hmode.
  destruct (calculate_strategy_dataframe_facts df mode ku ke kg) as [out [Hout HF]].
  exists out, (hedef_aciklama mode). split; [exact Hout|].
  revert HF. apply Forall2_impl. intros row c F.
  split; [exact (facts_row_computed _ _ _ _ _ _ F)|]. intros m Hne H0.
  rewrite <- (facts_available _ _ _ _ _ _ F) in Hne.
  pose proof (facts_hedef_pos _ _ _ _ _ _ F Hne) as Hp.
  assert (Hy : fark_yuzde m c == - (100)).
  { rewrite (facts_yuzde_pos _ _ _ _ _ _ F Hp), (cf_fark _ _ _ _ _ _ F), H0.
    field. intros Hz. rewrite Hz in Hp. now apply Qlt_irrefl in Hp. }
  split; [exact Hy | now apply compare_op_minus_100].
Qed.

Lemma unobserved_market_percent_witness :
  In "MAX"%string modes /\
  exists out aciklama,
    calculate_strategy_dataframe [iki_fiyat] "MAX" 100 1 1 = Ok (out, aciklama) /\
    Forall2 (unobserved_minus_100 "MAX" 100 1 1) [iki_fiyat] out.
Proof.
  split.
  - left. reflexivity.
  - apply (unobserved_market_percent [iki_fiyat] "MAX" 100 1 1). left. reflexivity.
Defined.

(** The two-price record under MAX: the two markets with no observation are
    at minus 100 percent. *)
Example iki_fiyat_unobserved :
  exists c aciklama,
    calculate_strategy_dataframe [iki_fiyat] "MAX" 100 1 1 = Ok ([c], aciklama) /\
    map (fun m => fiyat_norm m c) pazarlar = [100; 3 * 100; 0 * 1; 0 * 1] /\
    hedef_fiyat_tl c = 3 * 100 /\
    fark_yuzde DE c == - (100) /\ fark_yuzde UK c == - (100).
Proof.
  do 2 eexists. split; [vm_compute; reflexivity|].
  repeat split.
Qed.

(** ** The recommendation ranker: the suggestions *)

Lemma create_recommendation_of mode ku ke kg row m sym :
  compare_op mode (fark_yuzde m row) = true ->
  exists o,
    create_recommendation mode (fark_yuzde m row) (ad m) (fiyat m (kayit row))
      (kur ku ke kg m) sym (hedef_fiyat_tl row) = Ok (Some o) /\
    oneri_of ku ke kg row m o.
Proof.
  intros Hc. rewrite create_recommendation_eq, Hc.
  eexists. split; [reflexivity|].
  unfold oneri_of. cbv zeta.
  destruct (lt (fark_yuzde m row) 0) eqn:E.
  - apply lt_true in E. cbn [pazar_adi fiyat_orj hedef_fiyat_orj yon degisim yuzde].
    split; [reflexivity|]. split; [reflexivity|]. split; [reflexivity|]. split.
    + intros _. split; [reflexivity|]. split; reflexivity.
    + intros Hd. exfalso. apply (Qlt_not_le _ _ E Hd).
  - apply lt_false in E. cbn [pazar_adi fiyat_orj hedef_fiyat_orj yon degisim yuzde].
    split; [reflexivity|]. split; [reflexivity|]. split; [reflexivity|]. split.
    + intros Hd. exfalso. apply (Qlt_not_le _ _ Hd E).
    + intros _. split; [reflexivity|]. split; reflexivity.
Qed.

Lemma row_oneriler_items mode ku ke kg row :
  exists l, row_oneriler mode ku ke kg row = Ok l /\
            Forall (fun o => exists m, compare_op mode (fark_yuzde m row) = true /\
                                       oneri_of ku ke kg row m o) l.
Proof.
  unfold row_oneriler. cbv zeta.
  assert (H : forall m sym, exists x,
             create_recommendation mode (fark_yuzde m row) (ad m) (fiyat m (kayit row))
               (kur ku ke kg m) sym (hedef_fiyat_tl row) = Ok x /\
             forall o, x = Some o ->
               exists m', compare_op mode (fark_yuzde m' row) = true /\
                          oneri_of ku ke kg row m' o).
  { intros m sym. destruct (compare_op mode (fark_yuzde m row)) eqn:E.
    - destruct (create_recommendation_of mode ku ke kg row m sym E) as [o [Ho Hof]].
      exists (Some o). split; [exact Ho|]. intros o' [= <-]. now exists m.
    - rewrite create_recommendation_eq, E. exists None. split; [reflexivity|]. discriminate. }
  destruct (H TR "₺"%string) as [x1 [E1 P1]].
  destruct (H US "\$"%string) as [x2 [E2 P2]].
  destruct (H DE "€"%string) as [x3 [E3 P3]].
  destruct (H UK "£"%string) as [x4 [E4 P4]].
  cbn [fark_yuzde fiyat kur] in E1, E2, E3, E4.
  rewrite E1, E2, E3, E4. cbn [bind].
  eexists. split; [reflexivity|].
  destruct x1, x2, x3, x4; cbn [not_none]; repeat constructor; eauto.
Qed.

Lemma collect_items mode ku ke kg df :
  exists listed,
    collect mode ku ke kg df = Ok listed /\
    suggestions_of_flagged mode ku ke kg listed.
Proof.
  induction df as [|row df [listed [Hc Hs]]].
  - exists []. split; [reflexivity|]. intros row l [].
  - destruct (row_oneriler_items mode ku ke kg row) as [l [Hl Hf]].
    simpl collect. rewrite Hl, Hc. cbn [bind].
    eexists. split; [reflexivity|].
    destruct l as [|o l]; [exact Hs|].
    intros row' l' [[= <- <-] | Hin]; [|now apply Hs].
    split; [discriminate|]. now apply Forall_forall.
Qed.

Lemma display_items mode ku ke kg df :
  exists out,
    display_recommendations_tab df mode ku ke kg = Ok out /\
    suggestions_of_flagged mode ku ke kg out.
Proof.
  destruct (collect_items mode ku ke kg df) as [listed [Hc Hs]].
  unfold display_recommendations_tab. rewrite Hc. cbn [bind].
  eexists. split; [reflexivity|].
  intros row l Hin. apply sort_in in Hin. now apply Hs.
Qed.

(** X6: the list of recommendations is empty exactly when every market of
    every record is within tolerance. *)
Theorem no_recommendation_iff_all_clear (df : list CalcRow) (mode : string) (ku ke kg : Q) :
  display_recommendations_tab df mode ku ke kg = Ok [] <->
  forall row m, In row df -> compare_op mode (fark_yuzde m row) = false.
Proof.
  destruct (collect_ok mode ku ke kg df) as [listed [Hc [Hm _]]].
  unfold display_recommendations_tab. rewrite Hc. cbn [bind].
  assert (Hl : sort (score_geb mode) listed = [] <-> filter (any_flagged mode) df = []).
  { rewrite <- Hm. split; intros H.
    - apply length_zero_iff_nil. rewrite length_map, <- (sort_length (score_geb mode)), H.
      reflexivity.
    - apply length_zero_iff_nil. rewrite sort_length, <- (length_map fst), H. reflexivity. }
  split.
  - intros [= H]. apply Hl in H. intros row m Hin.
    destruct (compare_op mode (fark_yuzde m row)) eqn:E; [|reflexivity]. exfalso.
    assert (Hf : In row (filter (any_flagged mode) df)).
    { apply filter_In. split; [exact Hin|]. apply any_flagged_true. now exists m. }
    rewrite H in Hf. exact Hf.
  - intros H. f_equal. apply Hl.
    destruct (filter (any_flagged mode) df) as [|row l] eqn:E; [reflexivity|]. exfalso.
    assert (Hf : In row (filter (any_flagged mode) df)) by (rewrite E; now left).
    apply filter_In in Hf. destruct Hf as [Hin Ha].
    apply any_flagged_true in Ha. destruct Ha as [m Ha].
    rewrite (H row m Hin) in Ha. discriminate Ha.
Qed.

Lemma flagged_abs (mode : string) (d : Q) :
  In mode modes -> compare_op mode d = true -> 10 < Qabs d.
Proof.
  intros Hm Hc. apply (compare_op_rule mode d Hm) in Hc.
  destruct Hc as [[_ H] | [[_ H] | [_ H]]].
  - rewrite Qabs_neg by lra. lra.
  - rewrite Qabs_pos by lra. exact H.
  - exact H.
Qed.

(** X7: every suggestion states a change of more than 10 percent; under MAX
    every suggestion is a price increase and under MIN every suggestion is a
    price decrease. *)
Theorem recommendation_directions (df : list CalcRow) (mode : string) (ku ke kg : Q) :
  In mode modes ->
  exists out,
    display_recommendations_tab df mode ku ke kg = Ok out /\
    directions_ok mode out.
Proof.
  intros Hmode.
  destruct (display_items mode ku ke kg df) as [out [Hout Hs]].
  exists out. split; [exact Hout|].
  intros row l o Hin Ho.
  destruct (Hs row l Hin) as [_ Hf].
  destruct (Hf o Ho) as [m [Hc [_ [_ [_ [Hneg Hpos]]]]]].
  pose proof (flagged_abs mode _ Hmode Hc) as Habs.
  pose proof (proj1 (compare_op_rule mode _ Hmode) Hc) as Hr.
  destruct (Qlt_le_dec (fark_yuzde m row) 0) as [Hd | Hd].
  - destruct (Hneg Hd) as [Hy [_ Hz]]. rewrite Hz.
    split; [exact Habs|]. split; [intros _; exact Hy|].
    intros ->. destruct Hr as [[H _] | [[_ H] | [H _]]]; try discriminate H.
    exfalso. lra.
  - destruct (Hpos Hd) as [Hy [_ Hz]]. rewrite Hz.
    rewrite Qabs_pos in Habs by exact Hd.
    split; [exact Habs|]. split; [|intros _; exact Hy].
    intros ->. destruct Hr as [[_ H] | [[H _] | [H _]]]; try discriminate H.
    exfalso. lra.
Qed.

Lemma recommendation_directions_witness :
  In "MAX"%string modes /\
  exists out,
    display_recommendations_tab siralama_df "MAX" 100 1 1 = Ok out /\
    directions_ok "MAX" out.
Proof.
  split.
  - left. reflexivity.
  - apply (recommendation_directions siralama_df "MAX" 100 1 1). left. reflexivity.
Defined.

Lemma Forall2_in_right {A B : Type} (P : A -> B -> Prop) (l : list A) (l' : list B) (b : B) :
  Forall2 P l l' -> In b l' -> exists a, In a l /\ P a b.
Proof.
  induction 1 as [|a b' l l' Hp _ IH]; intros Hin; [destruct Hin|].
  destruct Hin as [<- | Hin].
  - exists a. split; [now left | exact Hp].
  - destruct (IH Hin) as [a' [Ha Hp']]. exists a'. split; [now right | exact Hp'].
Qed.

Lemma facts_norm_native mode ku ke kg row c (m : Pazar) :
  calc_facts mode ku ke kg row c ->
  fiyat_norm m c == fiyat m (kayit c) * kur ku ke kg m.
Proof.
  intros F. destruct m; simpl.
  - ring.
  - now rewrite (cf_usd _ _ _ _ _ _ F), (cf_kayit _ _ _ _ _ _ F).
  - now rewrite (cf_eur _ _ _ _ _ _ F), (cf_kayit _ _ _ _ _ _ F).
  - now rewrite (cf_gbp _ _ _ _ _ _ F), (cf_kayit _ _ _ _ _ _ F).
Qed.

(** X8: on the rows that the strategy engine computes, with the same
    exchange rates, all above 0, every suggestion is consistent: the suggested
    price in the market's currency converts back to the target price, and
    the stated change is a positive amount (the market really is below the
    target when told to raise and above it when told to lower). *)
Theorem suggestions_convert_back (df : list MergedRow) (mode : string) (ku ke kg : Q) :
  In mode modes -> 0 < ku -> 0 < ke -> 0 < kg ->
  exists out aciklama recs,
    calculate_strategy_dataframe df mode ku ke kg = Ok (out, aciklama) /\
    display_recommendations_tab out mode ku ke kg = Ok recs /\
    suggestions_consistent ku ke kg recs.
Proof.
  intros Hmode Hku Hke Hkg.
  destruct (calculate_strategy_dataframe_facts df mode ku ke kg) as [out [Hout HF]].
  destruct (collect_ok mode ku ke kg out) as [listed [Hc [Hm _]]].
  destruct (collect_items mode ku ke kg out) as [listed' [Hc' Hs]].
  assert (listed' = listed) by congruence. subst listed'.
  exists out, (hedef_aciklama mode), (sort (score_geb mode) listed).
  split; [exact Hout|].
  split; [unfold display_recommendations_tab; now rewrite Hc|].
  intros c l o Hin Ho. apply sort_in in Hin.
  assert (Hcin : In c out).
  { assert (H : In c (map fst listed)) by (apply in_map_iff; now exists (c, l)).
    rewrite Hm in H. now apply filter_In in H. }
  destruct (Forall2_in_right _ _ _ _ HF Hcin) as [row [_ F]].
  destruct (Hs c l Hin) as [_ Hf].
  destruct (Hf o Ho) as [m [Hflag [Hn [Hp [Hh [Hneg Hpos]]]]]].
  assert (Hk : 0 < kur ku ke kg m) by (destruct m; simpl; [reflexivity | | |]; assumption).
  assert (Hg : gt (kur ku ke kg m) 0 = true) by now apply gt_true.
  rewrite Hg in Hh, Hneg, Hpos.
  pose proof (facts_norm_native _ _ _ _ _ _ m F) as Hnat.
  pose proof (cf_fark _ _ _ _ _ _ F m) as Hfark.
  pose proof (facts_yuzde_sign _ _ _ _ _ _ F m) as [Hs1 Hs2].
  exists m. split; [exact Hn|]. split; [exact Hp|]. split.
  - rewrite Hh. field. intros Hz. rewrite Hz in Hk. now apply Qlt_irrefl in Hk.
  - destruct (Qlt_le_dec (fark_yuzde m c) 0) as [Hd | Hd].
    + destruct (Hneg Hd) as [_ [Hdeg _]]. rewrite Hdeg.
      assert (Hlt : fark m c < 0).
      { apply Qnot_le_lt. intros H. apply Hs2 in H. apply (Qlt_not_le _ _ Hd H). }
      assert (fiyat m (kayit c) < hedef_fiyat_tl c / kur ku ke kg m).
      { apply Qlt_shift_div_l; [exact Hk|]. rewrite <- Hnat. rewrite Hfark in Hlt. lra. }
      lra.
    + destruct (Hpos Hd) as [_ [Hdeg _]]. rewrite Hdeg.
      pose proof (flagged_abs mode _ Hmode Hflag) as Habs.
      rewrite Qabs_pos in Habs by exact Hd.
      assert (Hgt : 0 < fark m c).
      { apply Qnot_le_lt. intros H. apply Hs1 in H. lra. }
      assert (hedef_fiyat_tl c / kur ku ke kg m < fiyat m (kayit c)).
      { apply Qlt_shift_div_r; [exact Hk|]. rewrite <- Hnat. rewrite Hfark in Hgt. lra. }
      lra.
Qed.

Lemma suggestions_convert_back_witness :
  In "MAX"%string modes /\ 0 < 100 /\ 0 < 1 /\ 0 < 1 /\
  exists out aciklama recs,
    calculate_strategy_dataframe [otel_a; otel_d; otel_b] "MAX" 100 1 1 = Ok (out, aciklama) /\
    display_recommendations_tab out "MAX" 100 1 1 = Ok recs /\
    suggestions_consistent 100 1 1 recs.
Proof.
  assert (Hm : In "MAX"%string modes) by (left; reflexivity).
  assert (H1 : 0 < 100) by reflexivity.
  assert (H2 : 0 < 1) by reflexivity.
  repeat (split; [assumption|]).
  exact (suggestions_convert_back [otel_a; otel_d; otel_b] "MAX" 100 1 1 Hm H1 H2 H2).
Defined.

Lemma sum_above (l : list Q) :
  (forall x, In x l -> 10 < x) -> l <> [] -> 10 * len l < fold_right Qplus 0 l.
Proof.
  induction l as [|x l IH]; intros H Hne; [congruence|].
  rewrite len_cons. simpl fold_right.
  pose proof (H x (or_introl eq_refl)) as Hx.
  destruct l as [|y l].
  - change (len (@nil Q)) with 0. simpl. lra.
  - assert (10 * len (y :: l) < fold_right Qplus 0 (y :: l)).
    { apply IH; [intros z Hz; apply H; now right | discriminate]. }
    lra.
Qed.

(** X9: every listed record has between one and four suggestions, and its
    score is above 10 points for each of them. *)
Theorem listed_scores_above_threshold (df : list CalcRow) (mode : string) (ku ke kg : Q) :
  In mode modes ->
  exists out,
    display_recommendations_tab df mode ku ke kg = Ok out /\
    scores_above_threshold mode out.
Proof.
  intros Hmode.
  destruct (collect_ok mode ku ke kg df) as [listed [Hc [Hm Hf]]].
  unfold display_recommendations_tab. rewrite Hc. cbn [bind].
  eexists. split; [reflexivity|].
  intros e He. apply sort_in in He.
  rewrite Forall_forall in Hf. pose proof (Hf e He) as Hn.
  assert (Hlen : List.length (snd e) = List.length (flagged mode (fst e))).
  { rewrite <- (length_map pazar_adi), Hn, length_map. reflexivity. }
  assert (Hne : flagged mode (fst e) <> []).
  { intros Hz. apply flagged_nil in Hz.
    assert (H : In (fst e) (filter (any_flagged mode) df)).
    { rewrite <- Hm. now apply in_map. }
    apply filter_In in H. destruct H as [_ H]. congruence. }
  split.
  - rewrite Hlen. split.
    + destruct (flagged mode (fst e)); [congruence | simpl; lia].
    + unfold flagged. pose proof (filter_length_le
        (fun m => compare_op mode (fark_yuzde m (fst e))) pazarlar) as H.
      exact H.
  - rewrite score_flagged. unfold flagged_score.
    assert (Hl : len (snd e) = len (map (fun m => Qabs (fark_yuzde m (fst e)))
                                        (flagged mode (fst e)))).
    { unfold len. now rewrite Hlen, length_map. }
    rewrite Hl. apply sum_above.
    + intros x Hx. apply in_map_iff in Hx. destruct Hx as [m [<- Hmf]].
      apply in_flagged in Hmf. now apply flagged_abs with (mode := mode).
    + destruct (flagged mode (fst e)); [congruence | discriminate].
Qed.

Lemma listed_scores_above_threshold_witness :
  In "MAX"%string modes /\
  exists out,
    display_recommendations_tab siralama_df "MAX" 100 1 1 = Ok out /\
    scores_above_threshold "MAX" out.
Proof.
  split.
  - left. reflexivity.
  - apply (listed_scores_above_threshold siralama_df "MAX" 100 1 1). left. reflexivity.
Defined.

(** ** The merged frame: order, one row per key *)

Lemma ascii_compare_refl (a : ascii) : Ascii.compare a a = Eq.
Proof. unfold Ascii.compare. apply N.compare_refl. Qed.

Lemma ascii_compare_lt_trans (a b c : ascii) :
  Ascii.compare a b = Lt -> Ascii.compare b c = Lt -> Ascii.compare a c = Lt.
Proof.
  unfold Ascii.compare. rewrite !N.compare_lt_iff. apply N.lt_trans.
Qed.

Lemma string_compare_refl (s : string) : String.compare s s = Eq.
Proof.
  induction s as [|a s IH]; simpl; [reflexivity|].
  now rewrite ascii_compare_refl.
Qed.

Lemma string_compare_lt_trans (s1 : string) :
  forall s2 s3, String.compare s1 s2 = Lt -> String.compare s2 s3 = Lt ->
                String.compare s1 s3 = Lt.
Proof.
  induction s1 as [|a s1 IH]; intros [|b s2] [|c s3]; simpl; try discriminate; try reflexivity.
  destruct (Ascii.compare a b) eqn:Eab; try discriminate;
    destruct (Ascii.compare b c) eqn:Ebc; try discriminate; intros H1 H2.
  - apply Ascii.compare_eq_iff in Eab, Ebc. subst.
    rewrite ascii_compare_refl. now apply IH with (s2 := s2).
  - apply Ascii.compare_eq_iff in Eab. subst. now rewrite Ebc.
  - apply Ascii.compare_eq_iff in Ebc. subst. now rewrite Eab.
  - now rewrite (ascii_compare_lt_trans a b c Eab Ebc).
Qed.

Lemma tarih_leb_trans (a b c : option Timestamp) :
  tarih_leb a b = true -> tarih_leb b c = true -> tarih_leb a c = true.
Proof.
  destruct a, b, c; simpl; try discriminate; try reflexivity.
  rewrite !Z.leb_le. lia.
Qed.

Lemma tarih_leb_total (a b : option Timestamp) :
  tarih_leb a b = true \/ tarih_leb b a = true.
Proof.
  destruct a, b; simpl; auto. rewrite !Z.leb_le. lia.
Qed.

Lemma row_leb_total (a b : Tarihli) : row_leb a b = true \/ row_leb b a = true.
Proof.
  unfold row_leb. rewrite (String.compare_antisym (fst (fst b))).
  destruct (String.compare (fst (fst a)) (fst (fst b))); simpl; auto.
  apply tarih_leb_total.
Qed.

Lemma row_leb_trans (a b c : Tarihli) :
  row_leb a b = true -> row_leb b c = true -> row_leb a c = true.
Proof.
  unfold row_leb.
  destruct (String.compare (fst (fst a)) (fst (fst b))) eqn:Eab; try discriminate;
    destruct (String.compare (fst (fst b)) (fst (fst c))) eqn:Ebc; try discriminate;
    intros H1 H2.
  - apply String.compare_eq_iff in Eab, Ebc. rewrite Eab, Ebc, string_compare_refl.
    eapply tarih_leb_trans; eassumption.
  - apply String.compare_eq_iff in Eab. rewrite Eab, Ebc. reflexivity.
  - apply String.compare_eq_iff in Ebc. rewrite <- Ebc, Eab. reflexivity.
  - now rewrite (string_compare_lt_trans _ _ _ Eab Ebc).
Qed.

Lemma StronglySorted_map {A B : Type} (R : B -> B -> Prop) (f : A -> B) (l : list A) :
  StronglySorted (fun x y => R (f x) (f y)) l -> StronglySorted R (map f l).
Proof.
  induction 1 as [|a l Hs IH Ha]; simpl; constructor; [exact IH|].
  rewrite Forall_forall in *. intros y Hy.
  apply in_map_iff in Hy. destruct Hy as [x [<- Hx]]. now apply Ha.
Qed.

(** X10: the merged frame is sorted by hotel and, within a hotel, by check-in
    date in ascending order, the rows without a date last. *)
Theorem merged_sorted (to_datetime : string -> option Timestamp)
    (df_tr df_us df_de df_uk : list MarketRow) :
  StronglySorted (fun a b => merged_leb a b = true)
    (merge_dataframes to_datetime df_tr df_us df_de df_uk).
Proof.
  unfold merge_dataframes. cbv zeta.
  apply StronglySorted_map.
  apply (StronglySorted_impl (fun x y => row_leb x y = true)).
  - intros [[o1 c1] [[[a1 b1] d1] e1]] [[o2 c2] [[[a2 b2] d2] e2]] H. exact H.
  - apply sort_sorted; [apply row_leb_total | apply row_leb_trans].
Qed.

Section UniqueKeys.
Context {A B : Type} (na : A).
Variables (left : Frame A) (right : Frame B).
Hypothesis left_unique : NoDup (keys left).
Hypothesis right_unique : NoDup (keys right).

Lemma matches_at_most_one (k : Key) : (List.length (matches k right) <= 1)%nat.
Proof.
  unfold matches. rewrite length_map.
  clear left_unique. induction right as [|[k' b] r IH]; simpl; [lia|].
  inversion right_unique as [|x l Hnin Hnd]; subst.
  destruct (key_eqb k k') eqn:E.
  - apply key_eqb_eq in E. subst k'. simpl.
    assert (Hz : filter (fun kb => key_eqb k (fst kb)) r = []).
    { destruct (filter (fun kb => key_eqb k (fst kb)) r) as [|[k1 b1] t] eqn:Ef; [reflexivity|].
      exfalso. assert (Hin : In (k1, b1) (filter (fun kb => key_eqb k (fst kb)) r))
        by (rewrite Ef; now left).
      apply filter_In in Hin. destruct Hin as [Hin Hk]. simpl in Hk.
      apply key_eqb_eq in Hk. subst k1. apply Hnin. apply in_keys. now exists b1. }
    rewrite Hz. simpl. lia.
  - now apply IH.
Qed.

Lemma keys_left_rows : keys (left_rows left right) = keys left.
Proof.
  unfold left_rows, keys. clear left_unique.
  induction left as [|[k a] l IH]; [reflexivity|].
  cbn [flat_map]. rewrite map_app, IH. cbn [fst snd map].
  pose proof (matches_at_most_one k) as Hm.
  destruct (matches k right) as [|b [|b' bs]]; simpl in Hm |- *; [reflexivity | reflexivity | lia].
Qed.

Lemma keys_right_only :
  keys (right_only na left right)
  = filter (fun k => negb (existsb (key_eqb k) (keys left))) (keys right).
Proof.
  unfold right_only, keys. rewrite map_map. simpl.
  induction right as [|[k b] r IH]; [reflexivity|].
  simpl. destruct (existsb (key_eqb k) (map fst left)); simpl; [apply IH; now inversion right_unique|].
  f_equal. apply IH. now inversion right_unique.
Qed.

Lemma pd_merge_outer_unique : NoDup (keys (pd_merge_outer na left right)).
Proof.
  unfold pd_merge_outer.
  eapply Permutation_NoDup.
  - apply Permutation_sym. unfold keys. apply Permutation_map. apply sort_perm.
  - fold (keys (left_rows left right ++ right_only na left right)).
    unfold keys. rewrite map_app.
    fold (keys (left_rows left right)). fold (keys (right_only na left right)).
    rewrite keys_left_rows, keys_right_only.
    apply NoDup_app.
    + exact left_unique.
    + now apply NoDup_filter.
    + intros k Hk Hf. apply filter_In in Hf. destruct Hf as [_ Hf].
      apply negb_true_iff in Hf. apply existsb_key in Hk. congruence.
Qed.
End UniqueKeys.

Lemma keys_frame_of (df : list MarketRow) : keys (frame_of df) = map row_key df.
Proof. unfold keys, frame_of. rewrite map_map. reflexivity. Qed.

Lemma join_all_unique (df_tr df_us df_de df_uk : list MarketRow) :
  unique_keys df_tr -> unique_keys df_us -> unique_keys df_de -> unique_keys df_uk ->
  NoDup (keys (join_all df_tr df_us df_de df_uk)).
Proof.
  unfold unique_keys. rewrite <- !keys_frame_of. intros Htr Hus Hde Huk.
  unfold join_all, Genis. cbv zeta.
  apply pd_merge_outer_unique; [|exact Huk].
  apply pd_merge_outer_unique; [|exact Hde].
  apply pd_merge_outer_unique; [|exact Hus].
  unfold keys in *. now rewrite map_map.
Qed.

(** X11: when no market frame has two rows with the same key, the merged
    frame has exactly one row for each key of the union: the keys of the join
    are all different, and the number of merged rows is the number of
    different keys of the four frames. *)
Theorem one_row_per_key (to_datetime : string -> option Timestamp)
    (df_tr df_us df_de df_uk : list MarketRow) :
  unique_keys df_tr -> unique_keys df_us -> unique_keys df_de -> unique_keys df_uk ->
  NoDup (keys (join_all df_tr df_us df_de df_uk)) /\
  List.length (merge_dataframes to_datetime df_tr df_us df_de df_uk)
  = List.length (nodup key_eq_dec (all_keys df_tr df_us df_de df_uk)).
Proof.
  intros Htr Hus Hde Huk.
  pose proof (join_all_unique _ _ _ _ Htr Hus Hde Huk) as Hnd.
  split; [exact Hnd|].
  rewrite merged_length, <- (length_map fst).
  apply Permutation_length. apply NoDup_Permutation.
  - exact Hnd.
  - apply NoDup_nodup.
  - intros k. fold (keys (join_all df_tr df_us df_de df_uk)).
    rewrite keys_join_all, nodup_In. unfold all_keys, any_key.
    rewrite !in_app_iff, <- !keys_frame_of, <- !has_key_keys.
    split.
    + intros [[] H]; simpl in H; tauto.
    + intros [H | [H | [H | H]]]; [exists TR | exists US | exists DE | exists UK]; exact H.
Qed.

Lemma one_row_per_key_witness :
  unique_keys [tarihsiz; plaza_tr] /\ unique_keys [plaza_us] /\
  unique_keys [] /\ unique_keys [] /\
  NoDup (keys (join_all [tarihsiz; plaza_tr] [plaza_us] [] [])) /\
  List.length (merge_dataframes iso_date [tarihsiz; plaza_tr] [plaza_us] [] [])
  = List.length (nodup key_eq_dec (all_keys [tarihsiz; plaza_tr] [plaza_us] [] [])).
Proof.
  assert (H1 : unique_keys [tarihsiz; plaza_tr]).
  { unfold unique_keys. simpl. repeat constructor; simpl; [|tauto].
    intros [H | []]. discriminate H. }
  assert (H2 : unique_keys [plaza_us]).
  { unfold unique_keys. simpl. repeat constructor. simpl. tauto. }
  assert (H3 : unique_keys []) by constructor.
  repeat (split; [assumption|]).
  exact (one_row_per_key iso_date _ _ _ _ H1 H2 H3 H3).
Defined.

(** ** Exchange rates *)

Import Rates.

Lemma reciprocal_some (rate : option Q) (q : Q) :
  reciprocal rate = Some q <-> exists r, rate = Some r /\ ~ r == 0 /\ q = 1 / r.
Proof.
  unfold reciprocal, truediv. split.
  - destruct rate as [r|]; [|discriminate].
    destruct (Qeq_bool r 0) eqn:E; [discriminate|].
    intros [= <-]. exists r. split; [reflexivity|]. split; [|reflexivity].
    now apply Qeq_bool_neq.
  - intros [r [-> [Hr ->]]].
    destruct (Qeq_bool r 0) eqn:E; [|reflexivity].
    apply Qeq_bool_iff in E. contradiction.
Qed.

Lemma try_rates_some (response : option Yanit) ku ke kg d :
  try_rates response = Some (ku, ke, kg, d) ->
  exists data ru re rg,
    response = Some data /\
    rates_USD data = Some ru /\ rates_EUR data = Some re /\
    rates_GBP data = Some rg /\ yanit_date data = Some d /\
    ~ ru == 0 /\ ~ re == 0 /\ ~ rg == 0 /\
    ku = 1 / ru /\ ke = 1 / re /\ kg = 1 / rg.
Proof.
  unfold try_rates. destruct response as [data|]; [|discriminate].
  destruct (reciprocal (rates_USD data)) as [u|] eqn:Eu; [|discriminate].
  destruct (reciprocal (rates_EUR data)) as [e|] eqn:Ee; [|discriminate].
  destruct (reciprocal (rates_GBP data)) as [g|] eqn:Eg; [|discriminate].
  destruct (yanit_date data) as [d'|] eqn:Ed; [|discriminate].
  intros [= <- <- <- <-].
  apply reciprocal_some in Eu, Ee, Eg.
  destruct Eu as [ru [Hu [Hnu ->]]]. destruct Ee as [re [He [Hne ->]]].
  destruct Eg as [rg [Hg [Hng ->]]].
  exists data, ru, re, rg. repeat split; assumption.
Qed.

Lemma try_rates_usable (response : option Yanit) :
  usable response -> exists x, try_rates response = Some x.
Proof.
  intros [data [ru [re [rg [d [-> [Hu [He [Hg [Hd [Hnu [Hne Hng]]]]]]]]]]]].
  unfold try_rates.
  assert (Ru : reciprocal (rates_USD data) = Some (1 / ru))
    by (apply reciprocal_some; now exists ru).
  assert (Re : reciprocal (rates_EUR data) = Some (1 / re))
    by (apply reciprocal_some; now exists re).
  assert (Rg : reciprocal (rates_GBP data) = Some (1 / rg))
    by (apply reciprocal_some; now exists rg).
  rewrite Ru, Re, Rg, Hd. eauto.
Qed.

(** X12: [get_exchange_rates] never raises and never mixes its sources: it
    returns the reciprocals of the three rates of the service, with the
    status success, exactly when the answer has three rates other than zero
    and the key 'date', whatever the value under it (a null date is shown as
    None); in every other case (no answer, a missing or zero rate, no key
    'date') it returns the three fallback rates with the status warning.
    No rate it returns is zero. *)
Theorem rates_all_or_fallback (response : option Yanit) :
  exists ku ke kg kaynak durum,
    get_exchange_rates response = Ok (ku, ke, kg, (kaynak, durum)) /\
    (durum = success <-> usable response) /\
    (durum = success -> service_rates response ku ke kg) /\
    (durum = warning -> fallback_rates ku ke kg) /\
    ~ ku == 0 /\ ~ ke == 0 /\ ~ kg == 0.
Proof.
  unfold get_exchange_rates.
  destruct (try_rates response) as [[[[ku ke] kg] d]|] eqn:E.
  - destruct (try_rates_some _ _ _ _ _ E)
      as [data [ru [re [rg [Hr [Hu [He [Hg [Hd [Hnu [Hne [Hng [-> [-> ->]]]]]]]]]]]]]].
    do 5 eexists. split; [reflexivity|].
    split; [split; [intros _ | reflexivity]; now exists data, ru, re, rg, d|].
    split.
    { intros _. exists data, ru, re, rg, d.
      repeat (split; [assumption|]). repeat split; field; assumption. }
    split; [discriminate|].
    repeat split; intros H; [apply Hnu | apply Hne | apply Hng];
      [assert (X : ru * (1 / ru) == 1) by (field; assumption)
      |assert (X : re * (1 / re) == 1) by (field; assumption)
      |assert (X : rg * (1 / rg) == 1) by (field; assumption)];
      rewrite H in X; ring_simplify in X; discriminate X.
  - cbn. do 5 eexists. split; [reflexivity|].
    split.
    { split; [discriminate|]. intros Hu. destruct (try_rates_usable _ Hu) as [x Hx].
      congruence. }
    split; [discriminate|].
    split; [intros _; repeat split|].
    repeat split; discriminate.
Qed.

(** X13: with rates of the service all above 0 and a date, the rates
    returned are above 0 and undo the service's: a price converted to lira
    with a returned rate and back with the service's rate is the price
    again. *)
Theorem rates_round_trip (data : Yanit) (ru re rg : Q) (d : string) :
  rates_USD data = Some ru -> rates_EUR data = Some re -> rates_GBP data = Some rg ->
  yanit_date data = Some d -> 0 < ru -> 0 < re -> 0 < rg ->
  exists ku ke kg kaynak,
    get_exchange_rates (Some data) = Ok (ku, ke, kg, (kaynak, success)) /\
    0 < ku /\ 0 < ke /\ 0 < kg /\
    forall p, p * ku * ru == p /\ p * ke * re == p /\ p * kg * rg == p.
Proof.
  intros Hu He Hg Hd Pu Pe Pg.
  assert (Nu : ~ ru == 0) by (intros H; rewrite H in Pu; discriminate Pu).
  assert (Ne : ~ re == 0) by (intros H; rewrite H in Pe; discriminate Pe).
  assert (Ng : ~ rg == 0) by (intros H; rewrite H in Pg; discriminate Pg).
  unfold get_exchange_rates, try_rates.
  assert (Ru : reciprocal (rates_USD data) = Some (1 / ru))
    by (apply reciprocal_some; now exists ru).
  assert (Re : reciprocal (rates_EUR data) = Some (1 / re))
    by (apply reciprocal_some; now exists re).
  assert (Rg : reciprocal (rates_GBP data) = Some (1 / rg))
    by (apply reciprocal_some; now exists rg).
  rewrite Ru, Re, Rg, Hd.
  do 4 eexists. split; [reflexivity|].
  assert (Hpos : forall r, 0 < r -> 0 < 1 / r).
  { intros r Hr. apply Qlt_shift_div_l; [exact Hr | lra]. }
  repeat (split; [now apply Hpos|]).
  intros p. repeat split; field; assumption.
Qed.

Lemma rates_round_trip_witness :
  rates_USD yanit_ok = Some (25 # 1000) /\ rates_EUR yanit_ok = Some (2 # 100) /\
  rates_GBP yanit_ok = Some (2 # 100) /\ yanit_date yanit_ok = Some "2025-06-01"%string /\
  0 < 25 # 1000 /\ 0 < 2 # 100 /\ 0 < 2 # 100 /\
  exists ku ke kg kaynak,
    get_exchange_rates (Some yanit_ok) = Ok (ku, ke, kg, (kaynak, success)) /\
    0 < ku /\ 0 < ke /\ 0 < kg /\
    forall p, p * ku * (25 # 1000) == p /\ p * ke * (2 # 100) == p /\ p * kg * (2 # 100) == p.
Proof.
  repeat (split; [reflexivity|]).
  exact (rates_round_trip yanit_ok (25 # 1000) (2 # 100) (2 # 100) "2025-06-01"
           eq_refl eq_refl eq_refl eq_refl eq_refl eq_refl eq_refl).
Defined.

(** An answer with a zero rate: all three fallback rates, none of the
    service's. *)
Example zero_rate_falls_back :
  exists ku ke kg kaynak,
    get_exchange_rates (Some yanit_sifir) = Ok (ku, ke, kg, (kaynak, warning)) /\
    fallback_rates ku ke kg.
Proof. do 4 eexists. split; [vm_compute; reflexivity|]. repeat split. Qed.

(** An answer whose date is null: the rates of the service, with the status
    success and the date shown as None. *)
Example null_date_is_success :
  exists ku ke kg,
    get_exchange_rates (Some yanit_tarihsiz)
    = Ok (ku, ke, kg, ("✅ Güncel Kur (None)"%string, success)) /\
    ku == 40 /\ ke == 50 /\ kg == 50.
Proof. do 3 eexists. split; [vm_compute; reflexivity|]. repeat split. Qed.

(** ** Summary figures *)

Import Ozet.

Lemma sum_split (l : list Q) :
  builtin_sum l ==
  builtin_sum (filter (fun x => gt x 0) l) + builtin_sum (filter (fun x => lt x 0) l).
Proof.
  induction l as [|x l IH].
  - unfold builtin_sum. simpl. ring.
  - simpl filter. rewrite builtin_sum_cons, IH.
    destruct (gt x 0) eqn:Eg; destruct (lt x 0) eqn:El; rewrite ?builtin_sum_cons.
    + apply gt_true in Eg. apply lt_true in El. lra.
    + ring.
    + ring.
    + apply gt_false in Eg. apply lt_false in El.
      assert (x == 0) by lra. lra.
Qed.

Lemma neg_part_nonpos (l : list Q) : builtin_sum (filter (fun x => lt x 0) l) <= 0.
Proof.
  apply builtin_sum_nonpos. intros p Hp. apply filter_In in Hp.
  destruct Hp as [_ Hp]. apply lt_true in Hp. lra.
Qed.

Lemma pos_part_nonneg (l : list Q) : 0 <= builtin_sum (filter (fun x => gt x 0) l).
Proof.
  apply builtin_sum_nonneg. intros p Hp. apply filter_In in Hp.
  destruct Hp as [_ Hp]. apply gt_true in Hp. lra.
Qed.

Lemma neg_sum_eq (col : CalcRow -> Q) (df : list CalcRow) :
  neg_sum col df == - builtin_sum (filter (fun x => lt x 0) (map col df)).
Proof.
  unfold neg_sum, abs. apply Qabs_neg. apply neg_part_nonpos.
Qed.

Lemma pos_minus_neg (col : CalcRow -> Q) (df : list CalcRow) :
  pos_sum col df - neg_sum col df == builtin_sum (map col df).
Proof.
  rewrite neg_sum_eq. unfold pos_sum. rewrite (sum_split (map col df)). ring.
Qed.

Lemma neg_sum_nonneg (col : CalcRow -> Q) (df : list CalcRow) : 0 <= neg_sum col df.
Proof. unfold neg_sum, abs. apply Qabs_nonneg. Qed.

Lemma pos_sum_nonneg (col : CalcRow -> Q) (df : list CalcRow) : 0 <= pos_sum col df.
Proof. unfold pos_sum. apply pos_part_nonneg. Qed.

Lemma pos_minus_neg_total (df : list CalcRow) :
  toplam_fazlalik df - toplam_kayip df == total_fark df.
Proof.
  unfold toplam_kayip, toplam_fazlalik, total_fark.
  rewrite <- (pos_minus_neg fark_tr df), <- (pos_minus_neg fark_us df),
    <- (pos_minus_neg fark_de df), <- (pos_minus_neg fark_uk df).
  ring.
Qed.

(** X14: the two totals of the summary are never negative, and the surplus
    minus the loss is the sum of all deviation amounts of the frame (the net
    effect shown under MEAN). *)
Theorem summary_totals (df : list CalcRow) :
  0 <= toplam_kayip df /\ 0 <= toplam_fazlalik df /\
  toplam_fazlalik df - toplam_kayip df == total_fark df.
Proof.
  unfold toplam_kayip, toplam_fazlalik, total_fark.
  pose proof (neg_sum_nonneg fark_tr df). pose proof (neg_sum_nonneg fark_us df).
  pose proof (neg_sum_nonneg fark_de df). pose proof (neg_sum_nonneg fark_uk df).
  pose proof (pos_sum_nonneg fark_tr df). pose proof (pos_sum_nonneg fark_us df).
  pose proof (pos_sum_nonneg fark_de df). pose proof (pos_sum_nonneg fark_uk df).
  split; [lra|]. split; [lra|].
  apply pos_minus_neg_total.
Qed.

Lemma pos_sum_zero (col : CalcRow -> Q) (df : list CalcRow) :
  (forall c, In c df -> col c <= 0) -> pos_sum col df = 0.
Proof.
  intros H. unfold pos_sum.
  assert (Hf : filter (fun x => gt x 0) (map col df) = []).
  { induction df as [|c df IH]; [reflexivity|]. simpl.
    assert (E : gt (col c) 0 = false) by (apply gt_false, H; now left).
    rewrite E. apply IH. intros c' Hc'. apply H. now right. }
  rewrite Hf. reflexivity.
Qed.

Lemma adet_pos_zero (col : CalcRow -> Q) (df : list CalcRow) :
  (forall c, In c df -> col c <= 0) ->
  List.length (filter (fun row => gt (col row) 0) df) = 0%nat.
Proof.
  intros H. induction df as [|c df IH]; [reflexivity|]. simpl.
  assert (E : gt (col c) 0 = false) by (apply gt_false, H; now left).
  rewrite E. apply IH. intros c' Hc'. apply H. now right.
Qed.

(** X15: on the frame that the strategy engine computes under MAX the
    surplus total is 0, so the net effect is the loss alone: the loss total
    is the sum over all records and markets of target minus price. *)
Theorem max_summary_is_loss_only (df : list MergedRow) (ku ke kg : Q) :
  exists out aciklama,
    calculate_strategy_dataframe df "MAX" ku ke kg = Ok (out, aciklama) /\
    toplam_fazlalik out = 0 /\
    toplam_kayip out == - total_fark out.
Proof.
  destruct (calculate_strategy_dataframe_facts df "MAX" ku ke kg) as [out [Hout HF]].
  exists out, (hedef_aciklama "MAX"). split; [exact Hout|].
  assert (Hs : Forall no_surplus out).
  { revert HF. apply Forall2_right. intros row c F.
    exact (facts_no_surplus ku ke kg row c F). }
  assert (Hz : toplam_fazlalik out = 0).
  { unfold toplam_fazlalik.
    rewrite (pos_sum_zero fark_tr), (pos_sum_zero fark_us),
      (pos_sum_zero fark_de), (pos_sum_zero fark_uk); [reflexivity | | | |];
      intros c Hc; rewrite Forall_forall in Hs;
      [apply (Hs c Hc UK) | apply (Hs c Hc DE) | apply (Hs c Hc US) | apply (Hs c Hc TR)]. }
  split; [exact Hz|].
  pose proof (pos_minus_neg_total out) as Hn. rewrite Hz in Hn.
  rewrite <- Hn. ring.
Qed.

Lemma sum_map_ext {A : Type} (f g : A -> Q) (l : list A) :
  (forall x, In x l -> f x == g x) ->
  builtin_sum (map f l) == builtin_sum (map g l).
Proof.
  induction l as [|x l IH]; intros H; [reflexivity|].
  simpl map. rewrite !builtin_sum_cons, (H x (or_introl eq_refl)), IH; [reflexivity|].
  intros y Hy. apply H. now right.
Qed.

Lemma sum_map_plus {A : Type} (f g : A -> Q) (l : list A) :
  builtin_sum (map (fun x => f x + g x) l) == builtin_sum (map f l) + builtin_sum (map g l).
Proof.
  induction l as [|x l IH].
  - unfold builtin_sum. simpl. ring.
  - simpl map. rewrite !builtin_sum_cons, IH. ring.
Qed.

Lemma sum_four (a b c d : Q) : builtin_sum [a; b; c; d] == a + b + c + d.
Proof. unfold builtin_sum. simpl. ring. Qed.

Lemma per_day_eq (x : Q) (df : list CalcRow) :
  per_day x df =
  Ok (if (0 <? nunique df)%nat then x / inject_Z (Z.of_nat (nunique df)) else 0).
Proof.
  unfold per_day. destruct (0 <? nunique df)%nat eqn:E; [|reflexivity].
  apply Nat.ltb_lt in E. apply truediv_nonzero.
  intros H. assert (Hq : 0 < inject_Z (Z.of_nat (nunique df))).
  { change 0 with (inject_Z 0). rewrite <- Zlt_Qlt. lia. }
  rewrite H in Hq. now apply Qlt_irrefl in Hq.
Qed.

Lemma gunluk_ortalama_eq (mode : string) (df : list CalcRow) :
  gunluk_ortalama mode df =
  Ok (if (0 <? nunique df)%nat then etki mode df / inject_Z (Z.of_nat (nunique df)) else 0).
Proof.
  unfold gunluk_ortalama, etki.
  destruct (mode =? "MAX")%string; [apply per_day_eq|].
  destruct (mode =? "MIN")%string; apply per_day_eq.
Qed.

Lemma not_none_nil {A : Type} (l : list (option A)) :
  Recommend.not_none l = [] <-> forall x, In x l -> x = None.
Proof.
  induction l as [|[a|] l IH]; simpl.
  - split; [intros _ x [] | reflexivity].
  - split; [discriminate|]. intros H. specialize (H (Some a) (or_introl eq_refl)). discriminate H.
  - rewrite IH. split.
    + intros H x [<- | Hx]; [reflexivity | now apply H].
    + intros H x Hx. apply H. now right.
Qed.

Lemma not_none_length {A : Type} (l : list (option A)) :
  (List.length (Recommend.not_none l) <= List.length l)%nat.
Proof. induction l as [|[a|] l IH]; simpl; lia. Qed.

Lemma nodup_length_le {A : Type} (dec : forall x y : A, {x = y} + {x <> y}) (l : list A) :
  (List.length (nodup dec l) <= List.length l)%nat.
Proof.
  induction l as [|a l IH]; simpl; [lia|].
  destruct (in_dec dec a l); simpl; lia.
Qed.

(** X17: the summary never divides by zero: with no dated record the daily
    average is 0; otherwise the daily average times the number of different
    check-in dates is the total of the mode (the loss under MAX, the surplus
    under MIN, surplus minus loss under MEAN).  The number of different dates
    leaves out the records without a date and is at most the number of
    records. *)
Theorem daily_average_total (df : list CalcRow) (mode : string) :
  exists mt,
    display_summary_metrics df mode = Ok mt /\
    daily_average_ok mode df mt.
Proof.
  unfold display_summary_metrics. cbv zeta.
  rewrite gunluk_ortalama_eq. cbn [bind].
  eexists. split; [reflexivity|].
  unfold daily_average_ok.
  cbn [m_benzersiz_gunler m_gunluk_ortalama m_aylik m_yillik].
  split; [reflexivity|]. split.
  { unfold nunique. eapply Nat.le_trans; [apply nodup_length_le|].
    eapply Nat.le_trans; [apply not_none_length|]. now rewrite length_map. }
  split.
  { unfold nunique. rewrite length_zero_iff_nil. split.
    - intros H row Hrow.
      assert (Hn : Recommend.not_none (map (fun r => checkin (kayit r)) df) = []).
      { destruct (Recommend.not_none (map (fun r => checkin (kayit r)) df)) as [|z l] eqn:E;
          [reflexivity|].
        exfalso. assert (Hin : In z (nodup Z.eq_dec (z :: l))) by (apply nodup_In; now left).
        rewrite H in Hin. exact Hin. }
      apply (proj1 (not_none_nil _) Hn). apply in_map_iff. now exists row.
    - intros H.
      assert (Hn : Recommend.not_none (map (fun r => checkin (kayit r)) df) = []).
      { apply not_none_nil. intros x Hx. apply in_map_iff in Hx.
        destruct Hx as [row [<- Hrow]]. now apply H. }
      now rewrite Hn. }
  split.
  { intros H0. rewrite H0. reflexivity. }
  split; [|split; reflexivity].
  intros Hpos. apply Nat.ltb_lt in Hpos. rewrite Hpos.
  apply Nat.ltb_lt in Hpos.
  field. intros H. assert (Hq : 0 < inject_Z (Z.of_nat (nunique df))).
  { change 0 with (inject_Z 0). rewrite <- Zlt_Qlt. lia. }
  rewrite H in Hq. now apply Qlt_irrefl in Hq.
Qed.

(** ** The per-record sums of the heat map and of the day-of-week chart *)

Lemma neg_sum_rows (col : CalcRow -> Q) (df : list CalcRow) :
  neg_sum col df ==
  builtin_sum (map (fun row => if lt (col row) 0 then abs (col row) else 0) df).
Proof.
  rewrite neg_sum_eq. induction df as [|c df IH].
  - unfold builtin_sum. simpl. ring.
  - simpl map. simpl filter. rewrite builtin_sum_cons, <- IH.
    destruct (lt (col c) 0) eqn:E.
    + apply lt_true in E. rewrite builtin_sum_cons. unfold abs.
      rewrite Qabs_neg by lra. ring.
    + ring.
Qed.

Lemma pos_sum_rows (col : CalcRow -> Q) (df : list CalcRow) :
  pos_sum col df ==
  builtin_sum (map (fun row => if gt (col row) 0 then col row else 0) df).
Proof.
  unfold pos_sum. induction df as [|c df IH].
  - reflexivity.
  - simpl map. simpl filter. rewrite builtin_sum_cons, <- IH.
    destruct (gt (col c) 0); [rewrite builtin_sum_cons|]; ring.
Qed.

Lemma toplam_fark_nonneg (mode : string) (row : CalcRow) : 0 <= toplam_fark mode row.
Proof.
  unfold toplam_fark.
  destruct (mode =? "MAX")%string; apply builtin_sum_nonneg; intros p Hp;
    apply in_map_iff in Hp; destruct Hp as [f [<- _]].
  - destruct (lt (f row) 0); [apply Qabs_nonneg | apply Qle_refl].
  - destruct (gt (f row) 0) eqn:E; [apply gt_true in E; lra | apply Qle_refl].
Qed.

(** X18: the values of the heat map are never negative and add up to the
    total of the summary: to the loss total under MAX and to the surplus
    total under the other modes. *)
Theorem heatmap_adds_up (df : list CalcRow) (mode : string) :
  List.length (df_hm_list mode df) = List.length df /\
  Forall (fun cell => 0 <= snd cell) (df_hm_list mode df) /\
  builtin_sum (map snd (df_hm_list mode df)) ==
  (if (mode =? "MAX")%string then toplam_kayip df else toplam_fazlalik df).
Proof.
  unfold df_hm_list. split; [apply length_map|]. split.
  { apply Forall_forall. intros cell Hc. apply in_map_iff in Hc.
    destruct Hc as [row [<- _]]. apply toplam_fark_nonneg. }
  rewrite map_map. cbn [snd]. unfold toplam_fark.
  destruct (mode =? "MAX")%string.
  - unfold toplam_kayip. rewrite !neg_sum_rows, <- !sum_map_plus.
    apply sum_map_ext. intros row _. apply sum_four.
  - unfold toplam_fazlalik. rewrite !pos_sum_rows, <- !sum_map_plus.
    apply sum_map_ext. intros row _. apply sum_four.
Qed.

Lemma sum_pos_iff (l : list Q) :
  (forall p, In p l -> 0 <= p) -> (0 < builtin_sum l <-> exists p, In p l /\ 0 < p).
Proof.
  induction l as [|x l IH]; intros H.
  - split; [intros H0; discriminate H0 | intros [p [[] _]]].
  - rewrite builtin_sum_cons.
    pose proof (H x (or_introl eq_refl)) as Hx.
    assert (Hl : forall p, In p l -> 0 <= p) by (intros p Hp; apply H; now right).
    pose proof (builtin_sum_nonneg l Hl) as Hs.
    specialize (IH Hl). split.
    + intros Hpos. destruct (Qlt_le_dec 0 x) as [Hx' | Hx'].
      * exists x. split; [now left | exact Hx'].
      * assert (Hs' : 0 < builtin_sum l) by lra.
        apply IH in Hs'. destruct Hs' as [p [Hp Hpp]]. exists p. split; [now right | exact Hpp].
    + intros [p [[<- | Hp] Hpp]]; [lra|].
      assert (0 < builtin_sum l) by (apply IH; now exists p). lra.
Qed.

(** X19: the day-of-week chart keeps exactly the records with a market on
    the counted side of the target: below it under MAX, above it under the
    other modes; a record whose four markets are all at the target or on the
    other side is left out. *)
Theorem day_of_week_keeps_deviating (df : list CalcRow) (mode : string) (row : CalcRow) :
  In row (df_dow_filtered mode df) <->
  In row df /\ exists m, counted mode (fark m row).
Proof.
  unfold df_dow_filtered. rewrite filter_In, gt_true.
  assert (H : 0 < toplam_fark mode row <-> exists m, counted mode (fark m row)).
  { unfold toplam_fark, counted. destruct (mode =? "MAX")%string.
    - rewrite sum_pos_iff.
      + split.
        * intros [p [Hp Hpp]]. apply in_map_iff in Hp. destruct Hp as [f [<- Hf]].
          destruct (lt (f row) 0) eqn:E; [|now apply Qlt_irrefl in Hpp].
          apply lt_true in E. simpl in Hf.
          destruct Hf as [<- | [<- | [<- | [<- | []]]]];
            [exists TR | exists US | exists DE | exists UK]; exact E.
        * intros [m Hm].
          exists (if lt (fark m row) 0 then abs (fark m row) else 0). split.
          -- destruct m; simpl; tauto.
          -- apply lt_true in Hm as E. rewrite E. unfold abs.
             rewrite Qabs_neg by lra. lra.
      + intros p Hp. apply in_map_iff in Hp. destruct Hp as [f [<- _]].
        destruct (lt (f row) 0); [apply Qabs_nonneg | apply Qle_refl].
    - rewrite sum_pos_iff.
      + split.
        * intros [p [Hp Hpp]]. apply in_map_iff in Hp. destruct Hp as [f [<- Hf]].
          destruct (gt (f row) 0) eqn:E; [|now apply Qlt_irrefl in Hpp].
          apply gt_true in E. simpl in Hf.
          destruct Hf as [<- | [<- | [<- | [<- | []]]]];
            [exists TR | exists US | exists DE | exists UK]; exact E.
        * intros [m Hm].
          exists (if gt (fark m row) 0 then fark m row else 0). split.
          -- destruct m; simpl; tauto.
          -- apply gt_true in Hm as E. now rewrite E.
      + intros p Hp. apply in_map_iff in Hp. destruct Hp as [f [<- _]].
        destruct (gt (f row) 0) eqn:E; [apply gt_true in E; lra | apply Qle_refl]. }
  rewrite H. reflexivity.
Qed.

(** ** Health data *)

Import HealthData.

Lemma pazar_eqb_eq (a b : Pazar) : pazar_eqb a b = true <-> a = b.
Proof. destruct a, b; simpl; split; intros H; try reflexivity; discriminate H. Qed.

Lemma kategori_eqb_eq (a b : Kategori) : kategori_eqb a b = true <-> a = b.
Proof. destruct a, b; simpl; split; intros H; try reflexivity; discriminate H. Qed.

Lemma filter_notes_of (m m' : Pazar) (df : option (list NotSatiri)) :
  List.length (filter (fun s => pazar_eqb (s_pazar s) m) (map fill_note (notes_of m' df)))
  = if pazar_eqb m' m then rows df else 0%nat.
Proof.
  destruct df as [l|]; simpl; [|now destruct (pazar_eqb m' m)].
  induction l as [|r l IH]; simpl; [now destruct (pazar_eqb m' m)|].
  destruct (pazar_eqb m' m); simpl; now rewrite IH.
Qed.

Lemma get_health_data_length (df_tr df_us df_de df_uk : option (list NotSatiri)) :
  List.length (get_health_data df_tr df_us df_de df_uk)
  = (rows df_tr + rows df_us + rows df_de + rows df_uk)%nat.
Proof.
  unfold get_health_data. rewrite length_map, !length_app.
  assert (H : forall m df, List.length (notes_of m df) = rows df).
  { intros m [l|]; simpl; [apply length_map | reflexivity]. }
  rewrite !H. lia.
Qed.

(** X20: the health frame has one row for every row of the four market
    frames that are there, market by market, with the hotel, the date and
    the note of that row; a missing note becomes "Bilinmiyor", which the
    classifier counts as a failure. *)
Theorem health_rows (df_tr df_us df_de df_uk : option (list NotSatiri)) :
  health_rows_ok df_tr df_us df_de df_uk (get_health_data df_tr df_us df_de df_uk).
Proof.
  unfold health_rows_ok. split; [apply get_health_data_length|].
  unfold get_health_data. split.
  - intros m. rewrite !map_app, !filter_app, !length_app, !filter_notes_of.
    destruct m; simpl; lia.
  - intros m r l Hm Hr.
    exists (fill_note (r, m)). split.
    + apply in_map. rewrite !in_app_iff.
      destruct m; rewrite Hm; simpl;
        [left | right; left | right; right; left | right; right; right];
        apply in_map_iff; now exists r.
    + simpl. repeat split; try reflexivity.
      * intros note Hn. now rewrite Hn.
      * now rewrite H.
      * now rewrite H.
Qed.

Lemma count_partition (df : list (SaglikSatiri * Kategori)) :
  (count_kategori Basarili df + count_kategori VeriCekilemedi df
   + count_kategori Diger df = List.length df)%nat.
Proof.
  unfold count_kategori. induction df as [|[s k] df IH]; [reflexivity|].
  simpl. destruct k; simpl; lia.
Qed.

Lemma count_le (k : Kategori) (df : list (SaglikSatiri * Kategori)) :
  (count_kategori k df <= List.length df)%nat.
Proof. unfold count_kategori. apply filter_length_le. Qed.

Lemma ratio_percent (a n : nat) :
  (0 < n)%nat -> (a <= n)%nat ->
  exists q, truediv (inject_Z (Z.of_nat a)) (inject_Z (Z.of_nat n)) = Ok q /\
            q * 100 * inject_Z (Z.of_nat n) == inject_Z (Z.of_nat a) * 100 /\
            0 <= q * 100 /\ q * 100 <= 100.
Proof.
  intros Hn Ha.
  assert (Hq : 0 < inject_Z (Z.of_nat n)).
  { change 0 with (inject_Z 0). rewrite <- Zlt_Qlt. lia. }
  assert (Hz : ~ inject_Z (Z.of_nat n) == 0).
  { intros H. rewrite H in Hq. now apply Qlt_irrefl in Hq. }
  assert (Hle : inject_Z (Z.of_nat a) <= inject_Z (Z.of_nat n)).
  { rewrite <- Zle_Qle. lia. }
  assert (H0 : 0 <= inject_Z (Z.of_nat a)).
  { change 0 with (inject_Z 0). rewrite <- Zle_Qle. lia. }
  exists (inject_Z (Z.of_nat a) / inject_Z (Z.of_nat n)).
  split; [now apply truediv_nonzero|].
  split; [field; exact Hz|].
  assert (0 <= inject_Z (Z.of_nat a) / inject_Z (Z.of_nat n)).
  { apply Qle_shift_div_l; [exact Hq | lra]. }
  assert (inject_Z (Z.of_nat a) / inject_Z (Z.of_nat n) <= 1).
  { apply Qle_shift_div_r; [exact Hq | lra]. }
  split; lra.
Qed.

Lemma combine_map_fst {A B : Type} (f : A -> B) (l : list A) :
  map fst (combine l (map f l)) = l /\ map snd (combine l (map f l)) = map f l.
Proof.
  induction l as [|a l [IH1 IH2]]; [now split|].
  simpl. now rewrite IH1, IH2.
Qed.

Lemma in_pazar_index (m : Pazar) : In m pazar_index.
Proof. unfold pazar_index. destruct m; simpl; tauto. Qed.

(** Counting a category in the frame with its column [Kategori] is counting
    the rows whose note is of that category. *)
Lemma count_kategori_rows (k : Kategori) (h : list SaglikSatiri) :
  count_kategori k (combine h (map (fun s => kategori (s_source_note s)) h))
  = rows_of_kategori k h.
Proof.
  unfold count_kategori, rows_of_kategori.
  induction h as [|s h IH]; [reflexivity|].
  simpl. destruct (kategori_eqb (kategori (s_source_note s)) k); simpl; now rewrite IH.
Qed.

Lemma pazar_row_ok (df : list (SaglikSatiri * Kategori)) (m : Pazar) :
  (exists rk, In rk df /\ s_pazar (fst rk) = m) ->
  exists toplam kayip oran,
    pazar_row df m = Ok (m, toplam, kayip, oran) /\
    toplam = List.length (filter (fun rk => pazar_eqb (s_pazar (fst rk)) m) df) /\
    kayip = count_kategori VeriCekilemedi
              (filter (fun rk => pazar_eqb (s_pazar (fst rk)) m) df) /\
    (0 < toplam)%nat /\ (kayip <= toplam)%nat /\
    oran * inject_Z (Z.of_nat toplam) == inject_Z (Z.of_nat (toplam - kayip)) * 100 /\
    0 <= oran /\ oran <= 100.
Proof.
  intros [rk [Hin Hm]]. unfold pazar_row. cbv zeta.
  set (rs := filter (fun rk => pazar_eqb (s_pazar (fst rk)) m) df).
  assert (Hpos : (0 < List.length rs)%nat).
  { assert (Hr : In rk rs) by (apply filter_In; split; [exact Hin | now apply pazar_eqb_eq]).
    destruct rs; [destruct Hr | simpl; lia]. }
  pose proof (count_le VeriCekilemedi rs) as Hle.
  destruct (ratio_percent (List.length rs - count_kategori VeriCekilemedi rs)
              (List.length rs) Hpos) as [q [Hq [Hq1 [Hq2 Hq3]]]]; [lia|].
  rewrite Nat2Z.inj_sub in Hq by exact Hle.
  rewrite Hq. cbn [bind].
  do 3 eexists. split; [reflexivity|].
  repeat split; try assumption.
Qed.

Lemma health_tab_some (df_tr df_us df_de df_uk : option (list NotSatiri)) :
  get_health_data df_tr df_us df_de df_uk <> [] ->
  exists sg,
    display_health_tab df_tr df_us df_de df_uk = Ok (Some sg) /\
    df_kategori sg
    = combine (get_health_data df_tr df_us df_de df_uk)
        (map (fun s => kategori (s_source_note s)) (get_health_data df_tr df_us df_de df_uk)) /\
    total_scrapes sg = List.length (get_health_data df_tr df_us df_de df_uk) /\
    total_success sg = count_kategori Basarili (df_kategori sg) /\
    total_errors sg = count_kategori VeriCekilemedi (df_kategori sg) /\
    success_rate sg * inject_Z (Z.of_nat (total_scrapes sg))
    == inject_Z (Z.of_nat (total_success sg)) * 100 /\
    0 <= success_rate sg /\ success_rate sg <= 100 /\
    Forall2 (fun m e => pazar_row (df_kategori sg) m = Ok e)
      (filter (fun m => existsb (fun rk => pazar_eqb (s_pazar (fst rk)) m) (df_kategori sg))
              pazar_index)
      (df_pazar_health sg).
Proof.
  intros Hne. unfold display_health_tab. cbv zeta.
  set (h := get_health_data df_tr df_us df_de df_uk) in *.
  destruct h as [|s l] eqn:Eh; [congruence|]. rewrite <- Eh. clear Hne.
  assert (Hk : fst (apply (map s_source_note h) success_notes)
               = map (fun s => kategori (s_source_note s)) h).
  { rewrite (proj1 (apply_inv _ _ success_inv_init)). apply map_map. }
  rewrite Hk.
  set (df := combine h (map (fun s => kategori (s_source_note s)) h)).
  assert (Hlen : List.length df = List.length h).
  { unfold df. rewrite length_combine, length_map. apply Nat.min_id. }
  assert (Hpos : (0 < List.length h)%nat) by (rewrite Eh; simpl; lia).
  pose proof (count_le Basarili df) as Hle. rewrite Hlen in Hle.
  destruct (ratio_percent _ _ Hpos Hle) as [q [Hq [Hq1 [Hq2 Hq3]]]].
  apply Nat.ltb_lt in Hpos. rewrite Hpos, Hq. cbn [bind].
  destruct (mapM_total (pazar_row df)
              (filter (fun m => existsb (fun rk => pazar_eqb (s_pazar (fst rk)) m) df)
                      pazar_index)) as [tablo [Ht HF]].
  { intros m Hm. apply filter_In in Hm. destruct Hm as [_ Hm].
    apply existsb_exists in Hm. destruct Hm as [rk [Hin Hp]].
    apply pazar_eqb_eq in Hp.
    destruct (pazar_row_ok df m) as [t [k [o [Ho _]]]]; [now exists rk | eauto]. }
  rewrite Ht. cbn [bind].
  eexists. split; [reflexivity|].
  cbn [df_kategori total_scrapes total_success total_errors success_rate df_pazar_health].
  repeat (split; [first [reflexivity | assumption]|]). exact HF.
Qed.

(** X21: the health tab never divides by zero.  It returns early exactly
    when the four frames have no row at all; otherwise it gives every row
    of the health frame the category of the rule with no state, the number
    of records is the number of rows of the health frame, the number of
    successes is the number of its rows whose note is a success and the
    number of failures the number of its rows whose note is a failure;
    successes, failures and others add up to the number of rows, and the
    overall success rate is the share of the rows whose note is a success,
    in percent, between 0 and 100. *)
Theorem health_overall (df_tr df_us df_de df_uk : option (list NotSatiri)) :
  exists r,
    display_health_tab df_tr df_us df_de df_uk = Ok r /\
    (r = None <-> (rows df_tr + rows df_us + rows df_de + rows df_uk = 0)%nat) /\
    (forall sg, r = Some sg ->
       overall_ok (get_health_data df_tr df_us df_de df_uk) sg).
Proof.
  pose proof (get_health_data_length df_tr df_us df_de df_uk) as Hlen.
  destruct (get_health_data df_tr df_us df_de df_uk) as [|s l] eqn:Eh.
  - exists None. split; [unfold display_health_tab; now rewrite Eh|].
    split; [|discriminate]. split; [intros _; now rewrite <- Hlen | reflexivity].
  - destruct (health_tab_some df_tr df_us df_de df_uk) as [sg [Hsg [Hdf [Hn [Hs [He [Hr [H0 [H100 _]]]]]]]]].
    { rewrite Eh. discriminate. }
    exists (Some sg). split; [exact Hsg|].
    split.
    { split; [discriminate|]. intros Hz. rewrite <- Hlen in Hz. simpl in Hz. lia. }
    intros sg' [= <-].
    assert (Hne : s :: l <> []) by discriminate.
    clear Hlen. revert Hne. rewrite <- Eh. intros Hne. clear Eh.
    set (h := get_health_data df_tr df_us df_de df_uk) in *.
    destruct (combine_map_fst (fun s => kategori (s_source_note s)) h) as [Hf Hsnd].
    rewrite <- Hdf in Hf, Hsnd.
    assert (Hcs : forall k, count_kategori k (df_kategori sg) = rows_of_kategori k h).
    { intros k. rewrite Hdf. apply count_kategori_rows. }
    rewrite (Hcs Basarili) in Hs. rewrite (Hcs VeriCekilemedi) in He.
    assert (Hpart : (rows_of_kategori Basarili h + rows_of_kategori VeriCekilemedi h
                     + rows_of_kategori Diger h = List.length h)%nat).
    { rewrite <- !Hcs, count_partition, <- Hf at 1. now rewrite length_map. }
    unfold overall_ok. cbv zeta.
    split; [apply Nat.neq_0_lt_0; intros Hz; now apply length_zero_iff_nil in Hz|].
    split; [exact Hf|]. split; [exact Hsnd|]. split; [exact Hn|].
    split; [exact Hs|]. split; [exact He|].
    split; [rewrite Hs, He; exact Hpart|].
    split; [rewrite <- Hn, <- Hs; exact Hr|]. split; assumption.
Qed.

(** X22: in the table by market of the health tab every market with a record
    has a row, and only those; its success rate, between 0 and 100, is the
    share of its records that are no failures, so a record of the category
    other counts as a success there, unlike in the overall rate. *)
Theorem health_by_market (df_tr df_us df_de df_uk : option (list NotSatiri))
    (sg : Saglik) :
  display_health_tab df_tr df_us df_de df_uk = Ok (Some sg) ->
  by_market_ok sg.
Proof.
  intros Hd.
  assert (Hne : get_health_data df_tr df_us df_de df_uk <> []).
  { intros E. unfold display_health_tab in Hd. rewrite E in Hd. discriminate Hd. }
  destruct (health_tab_some _ _ _ _ Hne) as [sg' [Hsg [_ [_ [_ [_ [_ [_ [_ HF]]]]]]]]].
  assert (sg' = sg) by congruence. subst sg'. clear Hsg Hd Hne.
  set (df := df_kategori sg) in *.
  assert (Hrow : forall m t k o, In (m, t, k, o) (df_pazar_health sg) ->
            (exists rk, In rk df /\ s_pazar (fst rk) = m) /\ pazar_row df m = Ok (m, t, k, o)).
  { intros m t k o Hin.
    destruct (Forall2_in_right _ _ _ _ HF Hin) as [m' [Hm' Hp]].
    apply filter_In in Hm'. destruct Hm' as [_ Hex].
    apply existsb_exists in Hex. destruct Hex as [rk [Hrk Heq]]. apply pazar_eqb_eq in Heq.
    destruct (pazar_row_ok df m') as [t' [k' [o' [Ho _]]]]; [now exists rk|].
    assert (Hmm : m' = m) by congruence. rewrite Hmm in Heq, Hp.
    split; [now exists rk | exact Hp]. }
  unfold by_market_ok. cbv zeta. fold df. split; [|split].
  - intros m t k o Hin. destruct (Hrow m t k o Hin) as [Hex Hp].
    destruct (pazar_row_ok df m Hex) as [t' [k' [o' [Ho [Ht [Hk [H1 [H2 [H3 [H4 H5]]]]]]]]]].
    assert (E : (m, t', k', o') = (m, t, k, o)) by congruence.
    injection E as -> -> ->. repeat split; assumption.
  - intros m. split.
    + intros Hex. destruct (pazar_row_ok df m Hex) as [t [k [o [Ho _]]]].
      exists t, k, o.
      assert (Hm : In m (filter (fun m => existsb (fun rk => pazar_eqb (s_pazar (fst rk)) m) df)
                                pazar_index)).
      { apply filter_In. split; [apply in_pazar_index|]. apply existsb_exists.
        destruct Hex as [rk [Hrk Heq]]. exists rk. split; [exact Hrk | now apply pazar_eqb_eq]. }
      clear Hrow. induction HF as [|m' e lm le Hp _ IH]; [destruct Hm|].
      destruct Hm as [-> | Hm]; [left; congruence | right; now apply IH].
    + intros [t [k [o Hin]]]. now destruct (Hrow m t k o Hin).
  - intros m t k o Hin. destruct (Hrow m t k o Hin) as [Hex Hp].
    destruct (pazar_row_ok df m Hex) as [t' [k' [o' [Ho [Ht [Hk _]]]]]].
    assert (E : (m, t', k', o') = (m, t, k, o)) by congruence.
    injection E as <- <- _. subst t' k'.
    pose proof (count_partition (filter (fun rk => pazar_eqb (s_pazar (fst rk)) m) df)). lia.
Qed.

Lemma health_by_market_witness :
  exists sg,
    display_health_tab (Some notlar_tr) (Some notlar_us) None (Some []) = Ok (Some sg) /\
    by_market_ok sg.
Proof.
  destruct (health_tab_some (Some notlar_tr) (Some notlar_us) None (Some []))
    as [sg [Hsg _]]; [discriminate|].
  exists sg. split; [exact Hsg|].
  exact (health_by_market _ _ _ _ sg Hsg).
Defined.

(** Four records, one success, two failures (one for a missing note) and one
    other: 25 percent overall, while the TR market shows two thirds. *)
Example health_figures :
  exists sg,
    display_health_tab (Some notlar_tr) (Some notlar_us) None (Some []) = Ok (Some sg) /\
    total_scrapes sg = 4%nat /\ total_success sg = 1%nat /\ total_errors sg = 2%nat /\
    success_rate sg == 25 /\
    map (fun e => fst (fst (fst e))) (df_pazar_health sg) = [TR; US] /\
    Forall2 Qeq (map snd (df_pazar_health sg)) [200 # 3; 0].
Proof.
  eexists. split; [vm_compute; reflexivity|].
  repeat split; repeat constructor.
Qed.

(** ** The forecast input *)

Import Forecast.

Lemma facts_mean_pos mode ku ke kg row c :
  calc_facts mode ku ke kg row c ->
  gt (mean_fiyat_tl c) 0 = has_price ku ke kg row.
Proof.
  intros F. unfold has_price.
  destruct (existsb (fun p => gt p 0) (normalized ku ke kg row)) eqn:E.
  - apply gt_true. apply existsb_exists in E. destruct E as [p [Hp1 Hp2]].
    assert (Hne : fiyatlar_listesi c <> []).
    { intros Hz. assert (Hin : In p (fiyatlar_listesi c)).
      { rewrite (cf_liste _ _ _ _ _ _ F). apply filter_In. now split. }
      rewrite Hz in Hin. exact Hin. }
    exact (facts_mean_column_pos _ _ _ _ _ _ F Hne).
  - apply gt_false.
    assert (Hz : fiyatlar_listesi c = []).
    { rewrite (cf_liste _ _ _ _ _ _ F).
      destruct (filter (fun p => gt p 0) (normalized ku ke kg row)) as [|p l] eqn:Ef;
        [reflexivity|].
      exfalso. assert (Hin : In p (filter (fun p => gt p 0) (normalized ku ke kg row)))
        by (rewrite Ef; now left).
      apply filter_In in Hin. destruct Hin as [Hin Hg].
      assert (Hex : existsb (fun p => gt p 0) (normalized ku ke kg row) = true)
        by (apply existsb_exists; now exists p).
      congruence. }
    destruct (facts_columns_empty _ _ _ _ _ _ F Hz) as [_ [Hm _]]. rewrite Hm. apply Qle_refl.
Qed.

Lemma series_length mode ku ke kg (df : list MergedRow) (out : list CalcRow) :
  Forall2 (calc_facts mode ku ke kg) df out ->
  List.length (filter (fun dy : option Timestamp * Q => gt (snd dy) 0)
                 (map (fun row => (checkin (kayit row), mean_fiyat_tl row)) out))
  = List.length (filter (has_price ku ke kg) df).
Proof.
  induction 1 as [|row c df out F _ IH]; [reflexivity|].
  simpl. rewrite (facts_mean_pos _ _ _ _ _ _ F).
  destruct (has_price ku ke kg row); simpl; now rewrite IH.
Qed.

(** X23: on the frame of the strategy engine the forecast declines whenever
    fewer than 7 records have a price in some market, whatever the model
    would say; and when a forecast is returned, the model was available and
    was given one point for each of those records, at least 7, every one
    with a mean price above 0. *)
Theorem forecast_needs_seven_prices (Tahmin : Type) (available : bool)
    (prophet : list (option Timestamp * Q) -> nat -> option Tahmin)
    (df : list MergedRow) (mode : string) (ku ke kg : Q) (days : nat) :
  exists out aciklama,
    calculate_strategy_dataframe df mode ku ke kg = Ok (out, aciklama) /\
    ((List.length (filter (has_price ku ke kg) df) < 7)%nat ->
     get_price_forecast Tahmin available prophet out days = None) /\
    (forall t, get_price_forecast Tahmin available prophet out days = Some t ->
       available = true /\
       exists series,
         prophet series days = Some t /\
         List.length series = List.length (filter (has_price ku ke kg) df) /\
         (7 <= List.length series)%nat /\
         Forall (fun dy => 0 < snd dy) series).
Proof.
  destruct (calculate_strategy_dataframe_facts df mode ku ke kg) as [out [Hout HF]].
  exists out, (hedef_aciklama mode). split; [exact Hout|].
  pose proof (series_length _ _ _ _ _ _ HF) as Hlen.
  unfold get_price_forecast. cbv zeta.
  set (series := filter (fun dy : option Timestamp * Q => gt (snd dy) 0)
                   (map (fun row => (checkin (kayit row), mean_fiyat_tl row)) out)) in *.
  split.
  - intros Hlt. destruct (negb available); [reflexivity|].
    rewrite <- Hlen in Hlt. apply Nat.ltb_lt in Hlt. now rewrite Hlt.
  - intros t. destruct available; simpl; [|discriminate].
    destruct (List.length series <? 7)%nat eqn:E; [discriminate|].
    intros Ht. split; [reflexivity|].
    exists series. split; [exact Ht|]. split; [exact Hlen|].
    split; [apply Nat.ltb_ge in E; exact E|].
    apply Forall_forall. intros dy Hdy. apply filter_In in Hdy.
    destruct Hdy as [_ Hg]. now apply gt_true.
Qed.
